(** * invoice-parser: the parse-invoice edge function and the text-only handler

    A shallow embedding of [supabase/functions/parse-invoice/index.ts] (the
    main endpoint) and of [api/parse-invoice/index.ts] (the alternate
    ingestion path), with the properties of the response normalizer, of the
    PDF text accumulation and of the two request handlers.

    Conventions of the embedding.
    - A JavaScript string is a [string]; each [ascii] stands for one UTF-16
      code unit, so the model covers the strings whose code units are below
      256 and [String.length] is the JavaScript [length].
    - A JavaScript value is a [jsval].  A number is written as a decimal
      [m * 10^e], as a JSON text writes it, and stands for the Number value
      of that decimal: the binary64 nearest to it.  [Binary64] has the
      rounding; the truth value and the string form of a number are those
      of the rounded value.
    - A call that may throw returns an [option] (pure code, the exception is
      caught inside the handler) or an [outcome] (calls to the outside
      world, whose exception carries a message).
    - The runtime's [JSON.parse] is a parameter of the normalizer: every
      theorem about the normalizer holds for any parser.  [JSON_parse_ref]
      is a reference parser used to run the examples. *)

From Stdlib Require Import String Ascii List ZArith NArith Bool Lia Sorted.
From Stdlib Require Import DecimalString DecimalPos DecimalN.
From Stdlib Require DecimalFacts.
Import ListNotations.

Local Open Scope list_scope.
Local Open Scope string_scope.

(** ** Strings *)

Module Str.

Definition is_digit (c : ascii) : bool :=
  let n := nat_of_ascii c in (48 <=? n)%nat && (n <=? 57)%nat.

Definition digit_val (c : ascii) : Z := Z.of_nat (nat_of_ascii c) - 48.

(** The code units below 256 that ECMAScript's [StrWhiteSpaceChar] accepts:
    TAB, LF, VT, FF, CR, SP and NBSP. *)
Definition is_space (c : ascii) : bool :=
  let n := nat_of_ascii c in
  (n =? 9)%nat || (n =? 10)%nat || (n =? 11)%nat || (n =? 12)%nat
  || (n =? 13)%nat || (n =? 32)%nat || (n =? 160)%nat.

Fixpoint all (p : ascii -> bool) (s : string) : bool :=
  match s with
  | EmptyString => true
  | String c r => p c && all p r
  end.

Fixpoint mem (a : ascii) (s : string) : bool :=
  match s with
  | EmptyString => false
  | String c r => Ascii.eqb c a || mem a r
  end.

Fixpoint drop_while (p : ascii -> bool) (s : string) : string :=
  match s with
  | EmptyString => EmptyString
  | String c r => if p c then drop_while p r else s
  end.

Fixpoint take_while (p : ascii -> bool) (s : string) : string :=
  match s with
  | EmptyString => EmptyString
  | String c r => if p c then String c (take_while p r) else EmptyString
  end.

Fixpoint repeat (c : ascii) (n : nat) : string :=
  match n with
  | O => EmptyString
  | S k => String c (repeat c k)
  end.

(** [s.slice(0, n)] for a non-negative [n]. *)
Fixpoint take (n : nat) (s : string) : string :=
  match n, s with
  | O, _ => EmptyString
  | _, EmptyString => EmptyString
  | S k, String c r => String c (take k r)
  end.

Fixpoint drop (n : nat) (s : string) : string :=
  match n, s with
  | O, _ => s
  | _, EmptyString => EmptyString
  | S k, String c r => drop k r
  end.

(** [parts.join(sep)] on strings. *)
Fixpoint join (sep : string) (parts : list string) : string :=
  match parts with
  | [] => ""
  | [p] => p
  | p :: rest => p ++ sep ++ join sep rest
  end.

(** The value of a run of decimal digits, most significant first. *)
Fixpoint digits_val (acc : Z) (s : string) : Z :=
  match s with
  | EmptyString => acc
  | String c r => digits_val (10 * acc + digit_val c) r
  end.

(** Decimal printing, as a template literal prints an integer. *)
Definition of_N (n : N) : string := NilZero.string_of_uint (N.to_uint n).
Definition of_nat (n : nat) : string := of_N (N.of_nat n).
Definition of_Z (z : Z) : string :=
  if (z <? 0)%Z then "-" ++ of_N (Z.abs_N z) else of_N (Z.abs_N z).

(** The double quote, which the prompt templates print around the hints. *)
Definition dquote : string := String (ascii_of_nat 34) "".

End Str.

(** ** JavaScript values *)

(** A number.  [Finite m e] is the Number value of the decimal
    [m * 10^e]: the binary64 nearest to it, which is an infinity for a
    decimal beyond the range and zero for one too small.  The two zeros
    are not told apart: they print alike and are both falsy. *)
Inductive jsnum : Type :=
| Finite (m e : Z)
| Infinite (negative : bool)
| NaN.

#[warning="-register-all"]
Inductive jsval : Type :=
| JUndef
| JNull
| JBool (b : bool)
| JNum (n : jsnum)
| JStr (s : string)
| JArr (elems : list jsval)
| JObj (props : list (string * jsval))
| JHost (class : string).   (* a host object such as a File: no JSON fields *)

(** A call to the outside world: it returns, or throws an error whose
    [message] may be missing. *)
Inductive outcome (A : Type) : Type :=
| Returns (a : A)
| Throws (message : option string).
Arguments Returns {A} a.
Arguments Throws {A} message.

(** ** Binary64

    The Number values that are not NaN, and the rounding of a real number
    to a Number value: to the nearest value, to the one with the even
    significand of two that are as near, and to an infinity from
    [2^1024 - 2^970] on. *)

Module Binary64.

(** [m * 2^e], or an infinity.  A value has many such pairs; [eqb]
    compares values. *)
Inductive t : Type :=
| Dyadic (m e : Z)
| Inf (negative : bool).

(** The integer nearest to [num / den], the even one of two. *)
Definition nearest_even (num den : Z) : Z :=
  let q := (num / den)%Z in
  let r := (num mod den)%Z in
  if (2 * r <? den)%Z then q
  else if (den <? 2 * r)%Z then (q + 1)%Z
  else if Z.even q then q else (q + 1)%Z.

(** The value with the significand [m] at the exponent [e]: an infinity
    from [2^53 * 2^971] on. *)
Definition in_range (negative : bool) (m e : Z) : t :=
  if (971 <=? e)%Z && (2 ^ 53 <=? m * 2 ^ (e - 971))%Z then Inf negative
  else Dyadic (if negative then (- m)%Z else m) e.

(** The value for an integer.  Up to [2^53] in magnitude every integer is
    a value; beyond, the bits below the 53 leading ones are rounded away. *)
Definition of_Z (z : Z) : t :=
  if (Z.abs z <=? 2 ^ 53)%Z then Dyadic z 0
  else
    let e := (Z.log2 (Z.abs z) - 52)%Z in
    in_range (z <? 0)%Z (nearest_even (Z.abs z) (2 ^ e)) e.

(** The value for the fraction [p / q] of two positive integers.  The
    significand is taken at the exponent that gives it 53 bits, and not
    below the exponent [-1074] of the subnormal values. *)
Definition of_ratio (negative : bool) (p q : Z) : t :=
  let scaled (e : Z) :=
    if (e <? 0)%Z then ((p * 2 ^ (- e))%Z, q) else (p, (q * 2 ^ e)%Z) in
  let e1 := (Z.log2 p - Z.log2 q - 52)%Z in
  let '(n1, d1) := scaled e1 in
  let e2 := if (n1 / d1 <? 2 ^ 52)%Z then (e1 - 1)%Z else e1 in
  let e := Z.max e2 (-1074) in
  let '(n, d) := scaled e in
  in_range negative (nearest_even n d) e.

(** The Number value of the decimal [m * 10^e]. *)
Definition of_decimal (m e : Z) : t :=
  if (m =? 0)%Z then Dyadic 0 0
  else if (0 <=? e)%Z then of_Z (m * 10 ^ e)
  else of_ratio (m <? 0)%Z (Z.abs m) (10 ^ (- e)).

Definition eqb (x y : t) : bool :=
  match x, y with
  | Dyadic m1 e1, Dyadic m2 e2 =>
      let e := Z.min e1 e2 in
      (m1 * 2 ^ (e1 - e) =? m2 * 2 ^ (e2 - e))%Z
  | Inf a, Inf b => Bool.eqb a b
  | _, _ => false
  end.

Definition is_zero (x : t) : bool :=
  match x with
  | Dyadic m _ => (m =? 0)%Z
  | Inf _ => false
  end.

(** The decimal expansion [d * 10^e] of the value [m * 2^e2]. *)
Definition expansion (m e2 : Z) : Z * Z :=
  if (0 <=? e2)%Z then ((m * 2 ^ e2)%Z, 0%Z) else ((m * 5 ^ (- e2))%Z, e2).

(** The shortest decimal that rounds to the positive value [x], whose
    expansion is [d * 10^e].  The search drops [j] digits of the
    expansion, as many as it can, and of the two decimals around [x] it
    takes the one that rounds to [x]; when both do, the nearer, and the
    even one of two that are as near. *)
Fixpoint shortest_from (x : t) (d e : Z) (j : nat) : Z * Z :=
  match j with
  | O => (d, e)
  | S j' =>
      let p := (10 ^ Z.of_nat j)%Z in
      let lo := (d / p)%Z in
      let rest := (d mod p)%Z in
      let e' := (e + Z.of_nat j)%Z in
      let lo_ok := eqb (of_decimal lo e') x in
      let hi_ok := eqb (of_decimal (lo + 1) e') x in
      if lo_ok && hi_ok then
        (if (2 * rest <? p)%Z then lo
         else if (p <? 2 * rest)%Z then (lo + 1)%Z
         else if Z.even lo then lo else (lo + 1)%Z, e')
      else if lo_ok then (lo, e')
      else if hi_ok then ((lo + 1)%Z, e')
      else shortest_from x d e j'
  end.

(** The digits [s] and the exponent [n] that [Number::toString] prints
    for the positive value [m * 2^e2]: [s * 10^n] is the decimal with the
    fewest digits that rounds to it, and the nearest such. *)
Definition shortest (m e2 : Z) : Z * Z :=
  let '(d, e10) := expansion m e2 in
  shortest_from (Dyadic m e2) d e10 (String.length (Str.of_N (Z.to_N d)) - 1).

End Binary64.

Module JS.

(** [ToBoolean]. *)
Definition truthy (v : jsval) : bool :=
  match v with
  | JUndef | JNull => false
  | JBool b => b
  | JNum (Finite m e) => negb (Binary64.is_zero (Binary64.of_decimal m e))
  | JNum (Infinite _) => true
  | JNum NaN => false
  | JStr s => negb (s =? "")
  | JArr _ | JObj _ | JHost _ => true
  end.

(** [a || b]. *)
Definition or_else (a b : jsval) : jsval := if truthy a then a else b.

(** Own property of an object built by [JSON.parse]. *)
Fixpoint own (k : string) (props : list (string * jsval)) : option jsval :=
  match props with
  | [] => None
  | (k', v) :: rest => if k' =? k then Some v else own k rest
  end.

(** [v.k] for the property names the handlers read on JSON data
    ([choices], [message], [content], [fileUrl] and the seven item fields):
    none of them is an index, [length] or a prototype member, so only an
    object can have one.  Reading a property of [null] or [undefined]
    throws. *)
Definition get_field (v : jsval) (k : string) : option jsval :=
  match v with
  | JUndef | JNull => None
  | JObj props => Some (match own k props with Some x => x | None => JUndef end)
  | _ => Some JUndef
  end.

(** [v[0]]. *)
Definition get_index0 (v : jsval) : option jsval :=
  match v with
  | JUndef | JNull => None
  | JArr elems => Some (match elems with x :: _ => x | [] => JUndef end)
  | JStr s => Some (match s with String c _ => JStr (String c "") | EmptyString => JUndef end)
  | JObj props => Some (match own "0" props with Some x => x | None => JUndef end)
  | _ => Some JUndef
  end.

(** [v?.k]. *)
Definition get_field_opt (v : jsval) (k : string) : jsval :=
  match get_field v k with
  | Some x => x
  | None => JUndef
  end.

(** Trailing zeros of a digit string are moved into the exponent. *)
Fixpoint strip_zeros (s : string) : string * nat :=
  match s with
  | EmptyString => (EmptyString, O)
  | String c r =>
      let '(r', z) := strip_zeros r in
      if (r' =? "") && Ascii.eqb c "0" then (EmptyString, S z) else (String c r', z)
  end.

(** [Number::toString(x, 10)] on the digits [ds] of a positive number
    whose value is [ds * 10^e]. *)
Definition positive_to_string (ds : string) (e : Z) : string :=
  let k := Z.of_nat (String.length ds) in
  let n := (k + e)%Z in
  if (k <=? n)%Z && (n <=? 21)%Z then
    ds ++ Str.repeat "0" (Z.to_nat (n - k))
  else if (0 <? n)%Z && (n <=? 21)%Z then
    Str.take (Z.to_nat n) ds ++ "." ++ Str.drop (Z.to_nat n) ds
  else if (-6 <? n)%Z && (n <=? 0)%Z then
    "0." ++ Str.repeat "0" (Z.to_nat (- n)) ++ ds
  else
    let x := (n - 1)%Z in
    let exponent := (if (x <? 0)%Z then "-" else "+") ++ Str.of_N (Z.abs_N x) in
    if (k =? 1)%Z then ds ++ "e" ++ exponent
    else Str.take 1 ds ++ "." ++ Str.drop 1 ds ++ "e" ++ exponent.

(** The positive decimal [s * 10^n] in the notation of
    [Number::toString]. *)
Definition decimal_to_string (s n : Z) : string :=
  let '(ds, z) := strip_zeros (Str.of_N (Z.abs_N s)) in
  positive_to_string ds (n + Z.of_nat z).

(** [Number::toString(x, 10)]: the shortest decimal that reads back to
    the value of [x]. *)
Definition num_to_string (x : jsnum) : string :=
  match x with
  | NaN => "NaN"
  | Infinite false => "Infinity"
  | Infinite true => "-Infinity"
  | Finite m e =>
      match Binary64.of_decimal m e with
      | Binary64.Inf false => "Infinity"
      | Binary64.Inf true => "-Infinity"
      | Binary64.Dyadic m2 e2 =>
          if (m2 =? 0)%Z then "0"
          else
            let '(s, n) := Binary64.shortest (Z.abs m2) e2 in
            (if (m2 <? 0)%Z then "-" else "") ++ decimal_to_string s n
      end
  end.

(** [ToString].  An array prints its elements joined by commas, with
    [null] and [undefined] elements printed as nothing.  A plain object
    prints as [[object Object]] through [Object.prototype.toString],
    unless it has an own [toString] property: a JSON value is never
    callable, so the conversion then falls to [valueOf], which gives no
    primitive, and a TypeError is thrown ([None]). *)
Fixpoint to_string (v : jsval) : option string :=
  match v with
  | JUndef => Some "undefined"
  | JNull => Some "null"
  | JBool true => Some "true"
  | JBool false => Some "false"
  | JNum n => Some (num_to_string n)
  | JStr s => Some s
  | JHost c => Some ("[object " ++ c ++ "]")
  | JObj props =>
      match own "toString" props with
      | Some _ => None
      | None => Some "[object Object]"
      end
  | JArr elems =>
      (fix join (l : list jsval) : option string :=
         match l with
         | [] => Some ""
         | x :: rest =>
             let sx := match x with
                       | JUndef | JNull => Some ""
                       | _ => to_string x
                       end in
             match sx, rest with
             | None, _ => None
             | Some a, [] => Some a
             | Some a, _ :: _ =>
                 match join rest with
                 | Some b => Some (a ++ "," ++ b)
                 | None => None
                 end
             end
         end) elems
  end.

(** The integer that [Number.parseInt(text, 10)] reads: leading white
    space is dropped, one sign is read, then the longest run of decimal
    digits; [None] when no digit stands there. *)
Definition parseInt_mathInt (text : string) : option Z :=
  let s := Str.drop_while Str.is_space text in
  let '(negative, s') :=
    match s with
    | String c r =>
        if Ascii.eqb c "-" then (true, r)
        else if Ascii.eqb c "+" then (false, r)
        else (false, s)
    | EmptyString => (false, s)
    end in
  let z := Str.take_while Str.is_digit s' in
  if z =? "" then None
  else
    let n := Str.digits_val 0 z in
    Some (if negative then (- n)%Z else n).

(** The Number value of an integer: the integer itself up to [2^53] in
    magnitude, the nearest binary64 beyond, an infinity beyond the range. *)
Definition Number_of_Z (z : Z) : jsnum :=
  match Binary64.of_Z z with
  | Binary64.Dyadic m e => Finite (m * 2 ^ e) 0
  | Binary64.Inf negative => Infinite negative
  end.

(** [Number.parseInt(text, 10)] on a string: the Number value of the
    integer read, NaN when no digit stands there. *)
Definition parseInt_text (text : string) : jsnum :=
  match parseInt_mathInt text with
  | Some z => Number_of_Z z
  | None => NaN
  end.

(** [Number.parseInt(v, 10)]: the argument is converted with [ToString],
    which may throw. *)
Definition parseInt (v : jsval) : option jsnum :=
  match to_string v with
  | Some text => Some (parseInt_text text)
  | None => None
  end.

(** [JSON.stringify] on a number: a number that is not finite is written
    as [null]. *)
Definition stringify_number (x : jsnum) : string :=
  match x with
  | NaN | Infinite _ => "null"
  | Finite m e =>
      match Binary64.of_decimal m e with
      | Binary64.Inf _ => "null"
      | Binary64.Dyadic _ _ => num_to_string x
      end
  end.

End JS.

(** ** The two regular expressions and [split] *)

Module Regex.

(** The longest prefix of [s] that ends in a closing bracket. *)
Fixpoint upto_last_close (s : string) : option string :=
  match s with
  | EmptyString => None
  | String c r =>
      match upto_last_close r with
      | Some t => Some (String c t)
      | None => if Ascii.eqb c "]" then Some (String c "") else None
      end
  end.

(** [s.match(/\[[\s\S]*\]/)]: the match starts at the leftmost opening
    bracket that has a closing bracket somewhere after it, and the starred
    class, which accepts every code unit, is greedy: the match runs to the
    last closing bracket of the text. *)
Fixpoint match_array (s : string) : option string :=
  match s with
  | EmptyString => None
  | String c r =>
      if Ascii.eqb c "[" then
        match upto_last_close r with
        | Some t => Some (String c t)
        | None => match_array r
        end
      else match_array r
  end.

Definition ext_char (c : ascii) : bool :=
  negb (Ascii.eqb c "/" || Ascii.eqb c ".").

(** [s.replace(/\.[^/.]+$/, "")]: a dot followed, up to the end of the
    text, by one or more code units that are neither a slash nor a dot. *)
Fixpoint strip_ext (s : string) : string :=
  match s with
  | EmptyString => EmptyString
  | String c r =>
      if Ascii.eqb c "." && negb (r =? "") && Str.all ext_char r
      then EmptyString
      else String c (strip_ext r)
  end.

(** [s.split(d)] for a one-character separator. *)
Fixpoint split_on (d : ascii) (s : string) : list string :=
  match s with
  | EmptyString => [""]
  | String c r =>
      if Ascii.eqb c d then "" :: split_on d r
      else match split_on d r with
           | seg :: segs => String c seg :: segs
           | [] => [String c ""]
           end
  end.

End Regex.

(** ** The response normalizer (index.ts, lines 206-251) *)

(** The record as the handler builds it.  The three names, the date and the
    notes hold whatever value the expression [a || b] selects, which need
    not be a string.  [quantity] is the Number that [parseInt] returns, or
    0 in its place. *)
Record OrderLineItem : Type := {
  id : string;
  source_invoice_id : string;
  vendor_name : jsval;
  customer_name : jsval;
  style_number : jsval;
  quantity : jsnum;
  eta_date : jsval;
  created_at : string;
  source_file_url : string;
  notes : jsval;
  needs_review : bool
}.

(** What the normalizer reads from the request around it.  The hints are
    [formData.get(...) || ""]: a string, or a File when the client sent the
    field as a file part.  The clock is read while each item is mapped. *)
Record RequestContext : Type := {
  fileName : string;
  publicUrl : string;
  vendorName : jsval;
  customerName : jsval;
  now_ms : nat -> Z;            (* Date.now() while item i is mapped *)
  now_iso : nat -> string;      (* new Date().toISOString() for item i *)
  catch_ms : Z;                 (* the same two readings in the catch block *)
  catch_iso : string
}.

Notation "x <- c ;; k" :=
  (match c with Some x => k | None => None end)
  (at level 61, c at next level, right associativity).
Notation "' p <- c ;; k" :=
  (match c with Some p => k | None => None end)
  (at level 61, p pattern, c at next level, right associativity).

Section Normalizer.

Variable JSON_parse : string -> option jsval.
Variable ctx : RequestContext.

(** [n || 0] on a number. *)
Definition number_or_zero (n : jsnum) : jsnum :=
  if JS.truthy (JNum n) then n else Finite 0 0.

(** The arrow function passed to [parsedData.map] (lines 215-231). *)
Definition mapItem (item : jsval) (index : nat) : option OrderLineItem :=
  item_vendor_name <- JS.get_field item "vendor_name" ;;
  item_customer_name <- JS.get_field item "customer_name" ;;
  item_style_number <- JS.get_field item "style_number" ;;
  item_quantity <- JS.get_field item "quantity" ;;
  parsed_quantity <- JS.parseInt item_quantity ;;
  item_eta_date <- JS.get_field item "eta_date" ;;
  item_notes <- JS.get_field item "notes" ;;
  item_needs_review <- JS.get_field item "needs_review" ;;
  Some {|
    id := Str.of_Z (now_ms ctx index) ++ "-" ++ Str.of_nat index;
    source_invoice_id := Regex.strip_ext (fileName ctx);
    vendor_name :=
      JS.or_else item_vendor_name (JS.or_else (vendorName ctx) (JStr ""));
    customer_name :=
      JS.or_else item_customer_name (JS.or_else (customerName ctx) (JStr ""));
    style_number := JS.or_else item_style_number (JStr "");
    quantity := number_or_zero parsed_quantity;
    eta_date := JS.or_else item_eta_date JNull;
    created_at := now_iso ctx index;
    source_file_url := publicUrl ctx;
    notes := JS.or_else item_notes (JStr "");
    needs_review :=
      JS.truthy item_needs_review
      || negb (JS.truthy item_vendor_name)
      || negb (JS.truthy item_customer_name)
      || negb (JS.truthy item_style_number)
  |}.

(** [items.map(f)] from index [index] on; a throwing call ends the map. *)
Fixpoint map_from (index : nat) (items : list jsval)
  : option (list OrderLineItem) :=
  match items with
  | [] => Some []
  | item :: rest =>
      r <- mapItem item index ;;
      rs <- map_from (S index) rest ;;
      Some (r :: rs)
  end.

(** [parsedData.map(...)]: only an array has a callable [map]. *)
Definition mapParsed (parsedData : jsval) : option (list OrderLineItem) :=
  match parsedData with
  | JArr items => map_from 0 items
  | _ => None
  end.

(** Lines 211-212: the text handed to [JSON.parse]. *)
Definition jsonString (rawContent : string) : string :=
  match Regex.match_array rawContent with
  | Some m => m
  | None => "[]"
  end.

(** Lines 211-231 on a completion text. *)
Definition parseText (rawContent : string) : option (list OrderLineItem) :=
  parsedData <- JSON_parse (jsonString rawContent) ;;
  mapParsed parsedData.

(** Line 208: [openaiData.choices[0]?.message?.content || "[]"]. *)
Definition rawContent (openaiData : jsval) : option jsval :=
  choices <- JS.get_field openaiData "choices" ;;
  first <- JS.get_index0 choices ;;
  Some (JS.or_else
          (JS.get_field_opt (JS.get_field_opt first "message") "content")
          (JStr "[]")).

(** The body of the [try]: only a string has a callable [match]. *)
Definition tryExtract (openaiData : jsval) : option (list OrderLineItem) :=
  raw <- rawContent openaiData ;;
  match raw with
  | JStr text => parseText text
  | _ => None
  end.

(** The record of the [catch] block (lines 236-250). *)
Definition fallback : OrderLineItem := {|
  id := Str.of_Z (catch_ms ctx) ++ "-0";
  source_invoice_id := Regex.strip_ext (fileName ctx);
  vendor_name := JS.or_else (vendorName ctx) (JStr "");
  customer_name := JS.or_else (customerName ctx) (JStr "");
  style_number := JStr "";
  quantity := Finite 0 0;
  eta_date := JNull;
  created_at := catch_iso ctx;
  source_file_url := publicUrl ctx;
  notes := JStr "AI extraction failed - manual review required";
  needs_review := true
|}.

(** The [try]/[catch] on a completion text, and on the whole reply. *)
Definition normalizeText (rawContent : string) : list OrderLineItem :=
  match parseText rawContent with
  | Some items => items
  | None => [fallback]
  end.

Definition extractedData (openaiData : jsval) : list OrderLineItem :=
  match tryExtract openaiData with
  | Some items => items
  | None => [fallback]
  end.

End Normalizer.

(** ** A reference [JSON.parse]

    The JSON grammar of ECMA-404 on the strings of the model.  A number
    literal is kept as its decimal, which stands for the Number value that
    [JSON.parse] returns for it.  The strings of the model have no code
    unit from 256 on, so a text with a [\u] escape that names one is not
    in the domain of the reference parser, which gives [None] for it.  It
    is used to run the normalizer on concrete completions; the theorems
    quantify over the parser. *)

Module RefJSON.

Definition code (c : ascii) : nat := nat_of_ascii c.

Definition is_ws (c : ascii) : bool :=
  (code c =? 32)%nat || (code c =? 9)%nat || (code c =? 10)%nat
  || (code c =? 13)%nat.

Definition skip_ws : string -> string := Str.drop_while is_ws.

Definition hex_val (c : ascii) : option nat :=
  let n := code c in
  if (48 <=? n)%nat && (n <=? 57)%nat then Some (n - 48)%nat
  else if (65 <=? n)%nat && (n <=? 70)%nat then Some (n - 55)%nat
  else if (97 <=? n)%nat && (n <=? 102)%nat then Some (n - 87)%nat
  else None.

Definition simple_escape (c : ascii) : option ascii :=
  let n := code c in
  if (n =? 34)%nat || (n =? 92)%nat || (n =? 47)%nat then Some c
  else if (n =? 98)%nat then Some (ascii_of_nat 8)
  else if (n =? 102)%nat then Some (ascii_of_nat 12)
  else if (n =? 110)%nat then Some (ascii_of_nat 10)
  else if (n =? 114)%nat then Some (ascii_of_nat 13)
  else if (n =? 116)%nat then Some (ascii_of_nat 9)
  else None.

Definition cons_char (c : ascii) (r : option (string * string))
  : option (string * string) :=
  match r with
  | Some (body, rest) => Some (String c body, rest)
  | None => None
  end.

(** The characters of a string literal after its opening quote, and the
    text after its closing quote. *)
Fixpoint parse_chars (s : string) : option (string * string) :=
  match s with
  | EmptyString => None
  | String c r =>
      if (code c =? 34)%nat then Some (EmptyString, r)
      else if (code c <? 32)%nat then None
      else if (code c =? 92)%nat then
        match r with
        | EmptyString => None
        | String e r1 =>
            if (code e =? 117)%nat then
              match r1 with
              | String h1 (String h2 (String h3 (String h4 r2))) =>
                  match hex_val h1, hex_val h2, hex_val h3, hex_val h4 with
                  | Some 0%nat, Some 0%nat, Some a, Some b =>
                      cons_char (ascii_of_nat (16 * a + b)) (parse_chars r2)
                  | _, _, _, _ => None
                  end
              | _ => None
              end
            else
              match simple_escape e with
              | Some x => cons_char x (parse_chars r1)
              | None => None
              end
        end
      else cons_char c (parse_chars r)
  end.

(** [digits] is one or more decimal digits. *)
Definition read_digits (s : string) : option (string * string) :=
  let ds := Str.take_while Str.is_digit s in
  if ds =? "" then None else Some (ds, Str.drop_while Str.is_digit s).

Definition parse_number (s : string) : option (jsnum * string) :=
  let '(negative, s1) :=
    match s with String "-" r => (true, r) | _ => (false, s) end in
  '(int_part, s2) <- read_digits s1 ;;
  if String.prefix "0" int_part && negb (int_part =? "0") then None
  else
    '(frac, s3) <-
      match s2 with
      | String "." r => read_digits r
      | _ => Some (EmptyString, s2)
      end ;;
    '(exponent, s4) <-
      match s3 with
      | String "e" r | String "E" r =>
          match r with
          | String "-" r' => '(ds, t) <- read_digits r' ;; Some ((- Str.digits_val 0 ds)%Z, t)
          | String "+" r' => '(ds, t) <- read_digits r' ;; Some (Str.digits_val 0 ds, t)
          | _ => '(ds, t) <- read_digits r ;; Some (Str.digits_val 0 ds, t)
          end
      | _ => Some (0%Z, s3)
      end ;;
    let m := Str.digits_val 0 (int_part ++ frac) in
    Some (Finite (if negative then (- m)%Z else m)
                 (exponent - Z.of_nat (String.length frac)), s4).

(** A repeated key keeps its first position and takes the last value. *)
Fixpoint set_prop (k : string) (v : jsval) (props : list (string * jsval))
  : list (string * jsval) :=
  match props with
  | [] => [(k, v)]
  | (k', v') :: rest =>
      if k' =? k then (k', v) :: rest else (k', v') :: set_prop k v rest
  end.

Definition build_object (members : list (string * jsval)) : jsval :=
  JObj (fold_left (fun props kv => set_prop (fst kv) (snd kv) props) members []).

Fixpoint parse_value (fuel : nat) (s : string) {struct fuel}
  : option (jsval * string) :=
  match fuel with
  | O => None
  | S f =>
      match skip_ws s with
      | EmptyString => None
      | String c r as t =>
          if String.prefix "null" t then Some (JNull, Str.drop 4 t)
          else if String.prefix "true" t then Some (JBool true, Str.drop 4 t)
          else if String.prefix "false" t then Some (JBool false, Str.drop 5 t)
          else if (code c =? 34)%nat then
            '(body, rest) <- parse_chars r ;; Some (JStr body, rest)
          else if Ascii.eqb c "[" then
            match skip_ws r with
            | String "]" rest => Some (JArr [], rest)
            | r' => '(elems, rest) <- parse_elements f r' ;; Some (JArr elems, rest)
            end
          else if Ascii.eqb c "{" then
            match skip_ws r with
            | String "}" rest => Some (JObj [], rest)
            | r' => '(members, rest) <- parse_members f r' ;;
                    Some (build_object members, rest)
            end
          else '(n, rest) <- parse_number t ;; Some (JNum n, rest)
      end
  end

with parse_elements (fuel : nat) (s : string) {struct fuel}
  : option (list jsval * string) :=
  match fuel with
  | O => None
  | S f =>
      '(v, r) <- parse_value f s ;;
      match skip_ws r with
      | String "," r' => '(vs, rest) <- parse_elements f r' ;; Some (v :: vs, rest)
      | String "]" rest => Some ([v], rest)
      | _ => None
      end
  end

with parse_members (fuel : nat) (s : string) {struct fuel}
  : option (list (string * jsval) * string) :=
  match fuel with
  | O => None
  | S f =>
      match skip_ws s with
      | String q r =>
          if (code q =? 34)%nat then
            '(key, r1) <- parse_chars r ;;
            match skip_ws r1 with
            | String ":" r2 =>
                '(v, r3) <- parse_value f r2 ;;
                match skip_ws r3 with
                | String "," r4 =>
                    '(more, rest) <- parse_members f r4 ;;
                    Some ((key, v) :: more, rest)
                | String "}" rest => Some ([(key, v)], rest)
                | _ => None
                end
            | _ => None
            end
          else None
      | EmptyString => None
      end
  end.

Definition JSON_parse_ref (text : string) : option jsval :=
  '(v, rest) <- parse_value (2 * String.length text + 2) text ;;
  if skip_ws rest =? "" then Some v else None.

End RefJSON.

Definition JSON_parse_ref := RefJSON.JSON_parse_ref.

(** ** Text extraction from a PDF (index.ts, lines 127-140) *)

Definition MAX_TEXT_CHARS : nat := 15 * 1000.

(** An item of [textContent.items]: [str] when [typeof it.str] is
    ["string"], and [text] when [it.text] is neither null nor undefined. *)
Record TextItem : Type := {
  str : option string;
  text : option string
}.

(** A loaded document: [numPages] pages, each of which [getPage] and
    [getTextContent] deliver or fail to deliver. *)
Record PdfDocument : Type := {
  pages : list (outcome (list TextItem))
}.

Module Pdf.

Definition newline : string := String (ascii_of_nat 10) "".

Definition numPages (pdf : PdfDocument) : nat := List.length (pages pdf).

Definition item_text (it : TextItem) : string :=
  match str it with
  | Some s => s
  | None => match text it with Some t => t | None => "" end
  end.

Definition pageText (items : list TextItem) : string :=
  Str.join " " (map item_text items).

(** The piece added to [fullText] for page [i]. *)
Definition segment (i : nat) (items : list TextItem) : string :=
  newline ++ newline ++ "--- Page " ++ Str.of_nat i ++ " ---" ++ newline
  ++ pageText items.

(** The [for] loop from page [i] on, [rest] being the pages [i..numPages].
    It gives the numbers of the pages the loop body ran for, and
    [fullText] unless a page threw. *)
Fixpoint page_loop (i : nat) (rest : list (outcome (list TextItem)))
         (fullText : string) (visited : list nat)
  : list nat * outcome string :=
  match rest with
  | [] => (visited, Returns fullText)
  | page :: rest' =>
      match page with
      | Throws message => ((visited ++ [i])%list, Throws message)
      | Returns items =>
          let fullText' := fullText ++ segment i items in
          if (MAX_TEXT_CHARS <? String.length fullText')%nat
          then ((visited ++ [i])%list, Returns fullText')
          else page_loop (S i) rest' fullText' (visited ++ [i])%list
      end
  end.

(** Lines 127-140: the loop, then the cut to the budget. *)
Definition extract_text (pdf : PdfDocument) : list nat * outcome string :=
  match page_loop 1 (pages pdf) "" [] with
  | (visited, Throws message) => (visited, Throws message)
  | (visited, Returns fullText) =>
      (visited,
       Returns (if (MAX_TEXT_CHARS <? String.length fullText)%nat
                then Str.take MAX_TEXT_CHARS fullText
                else fullText))
  end.

(** The text of the first [k] pages with their markers, page 1 first,
    a page that cannot be read adding nothing. *)
Fixpoint accumulated_from (i : nat) (rest : list (outcome (list TextItem)))
         (k : nat) {struct k} : string :=
  match k, rest with
  | S k', Returns items :: rest' =>
      segment i items ++ accumulated_from (S i) rest' k'
  | S k', Throws _ :: rest' => accumulated_from (S i) rest' k'
  | _, _ => ""
  end.

Definition accumulated (pdf : PdfDocument) (k : nat) : string :=
  accumulated_from 1 (pages pdf) k.

End Pdf.

(** ** The main endpoint (index.ts, lines 56-264)

    The CORS headers, which every response carries, and the console output
    are left out: no property below reads them. *)

Record File : Type := {
  file_name : string;
  file_type : string;
  arrayBuffer : outcome (list Byte.byte)
}.

(** [formData.get(name)]: null, a string or a File. *)
Inductive FormEntry : Type :=
| FormAbsent
| FormText (s : string)
| FormFile (f : File).

Record FormData : Type := {
  form_file : FormEntry;
  form_vendorName : FormEntry;
  form_customerName : FormEntry
}.

Record Request : Type := {
  method : string;
  formData : outcome FormData
}.

Inductive ContentPart : Type :=
| TextPart (text : string)
| ImagePart (url : string) (detail : string).

Record OpenAIResponse : Type := {
  ok : bool;
  response_text : outcome string;
  response_json : outcome jsval
}.

Inductive Body : Type :=
| NoBody
| ErrorBody (error : string) (details : option string)
| DataBody (data : list OrderLineItem) (source_file_url : string)
| TextBody (text : string).

Record Response : Type := {
  status : nat;
  body : Body
}.

(** The calls that leave the function, with what they returned. *)
Inductive Event : Type :=
| EvFormData (result : outcome FormData)
| EvUpload (name : string) (result : outcome bool)
| EvPage (i : nat)
| EvInference (content : list ContentPart) (result : outcome OpenAIResponse).

(** Everything outside the function: the environment, the clock, the random
    source, the storage client, pdf.js and the inference endpoint. *)
Record World : Type := {
  SUPABASE_URL : option string;
  SUPABASE_SERVICE_ROLE_KEY : option string;
  OPENAI_API_KEY : option string;
  createClient : string -> string -> outcome unit;
  type_error_message : option string;  (* of the engine's TypeError *)
  upload_ms : Z;                       (* Date.now() for the file name *)
  random36 : string;    (* Math.random().toString(36).substring(7) *)
  storage_upload : string -> File -> outcome bool;  (* is uploadError set *)
  storage_publicUrl : string -> string;
  import_pdfjs : outcome unit;
  getDocument : list Byte.byte -> outcome PdfDocument;
  encode_image : list Byte.byte -> outcome string;
                        (* btoa(String.fromCharCode(...bytes)) *)
  fetch_openai : list ContentPart -> outcome OpenAIResponse;
  clock_ms : nat -> Z;
  clock_iso : nat -> string;
  clock_catch_ms : Z;
  clock_catch_iso : string
}.

(** A handler step: the calls made so far, and either the response that
    ends the request or a value to go on with. *)
Definition Step (A : Type) : Type := (list Event * (Response + A))%type.

Module Handler.

Definition ret {A} (a : A) : Step A := ([], inr a).

Definition respond {A} (st : nat) (b : Body) : Step A :=
  ([], inl {| status := st; body := b |}).

Definition emit (e : Event) : Step unit := ([e], inr tt).

Definition bind {A B} (m : Step A) (k : A -> Step B) : Step B :=
  match m with
  | (log, inl r) => (log, inl r)
  | (log, inr a) => let '(log', x) := k a in ((log ++ log')%list, x)
  end.

(** The outer [catch] (lines 257-263). *)
Definition internal_error {A} (message : option string) : Step A :=
  respond 500 (ErrorBody "Internal server error" message).

(** [await call] inside the outer [try]. *)
Definition await {A} (call : outcome A) : Step A :=
  match call with
  | Returns a => ret a
  | Throws message => internal_error message
  end.

Definition run (m : Step Response) : Response * list Event :=
  match m with
  | (log, inl r) => (r, log)
  | (log, inr r) => (r, log)
  end.

End Handler.

Notation "x <~ c ;; k" := (Handler.bind c (fun x => k))
  (at level 61, c at next level, right associativity).

Section Serve.

Variable JSON_parse : string -> option jsval.
Variable EXTRACTION_PROMPT : string.   (* the instruction text, lines 29-54 *)
Variable w : World.

Import Handler.

Definition or_empty (v : option string) : string :=
  match v with Some s => s | None => "" end.

Definition entry_value (e : FormEntry) : jsval :=
  match e with
  | FormAbsent => JNull
  | FormText s => JStr s
  | FormFile _ => JHost "File"
  end.

(** [`${hint}`] for a hint, which is a string or a File. *)
Definition hint_text (hint : jsval) : string :=
  or_empty (JS.to_string hint).

Definition prefilled (vendor customer : jsval) : string :=
  "Vendor: " ++ Str.dquote ++ hint_text vendor ++ Str.dquote ++ Pdf.newline
  ++ "Customer: " ++ Str.dquote ++ hint_text customer ++ Str.dquote.

(** Lines 142-151. *)
Definition pdf_content (vendor customer : jsval) (fullText : string)
  : list ContentPart :=
  [TextPart
     (EXTRACTION_PROMPT ++ Pdf.newline ++ Pdf.newline
      ++ "Prefilled data (use only if not clearly present in the text):"
      ++ Pdf.newline ++ prefilled vendor customer ++ Pdf.newline ++ Pdf.newline
      ++ "--- OCR/TEXT START ---" ++ Pdf.newline ++ fullText ++ Pdf.newline
      ++ "--- OCR/TEXT END ---")].

(** Lines 158-172. *)
Definition image_content (vendor customer : jsval) (mimeType base64 : string)
  : list ContentPart :=
  [TextPart
     (EXTRACTION_PROMPT ++ Pdf.newline ++ Pdf.newline
      ++ "Prefilled data (use if vendor/customer not found in image):"
      ++ Pdf.newline ++ prefilled vendor customer);
   ImagePart ("data:" ++ mimeType ++ ";base64," ++ base64) "high"].

(** Lines 111-173: the content for the model. *)
Definition prepare (file : File) (vendor customer : jsval)
  : Step (list ContentPart) :=
  if file_type file =? "application/pdf" then
    pdfBytes <~ await (arrayBuffer file) ;;
    _ <~ await (import_pdfjs w) ;;
    pdf <~ await (getDocument w pdfBytes) ;;
    let '(visited, result) := Pdf.extract_text pdf in
    _ <~ (map EvPage visited, inr tt) ;;
    fullText <~ await result ;;
    ret (pdf_content vendor customer fullText)
  else
    bytes <~ await (arrayBuffer file) ;;
    base64Image <~ await (encode_image w bytes) ;;
    ret (image_content vendor customer (file_type file) base64Image).

(** Lines 62-256, the body of the outer [try]. *)
Definition serve_try (req : Request) : Step Response :=
  _ <~ await (createClient w (or_empty (SUPABASE_URL w))
                             (or_empty (SUPABASE_SERVICE_ROLE_KEY w))) ;;
  if or_empty (OPENAI_API_KEY w) =? "" then
    respond 500 (ErrorBody "OpenAI API key not configured" None)
  else
    _ <~ emit (EvFormData (formData req)) ;;
    form <~ await (formData req) ;;
    let vendor := JS.or_else (entry_value (form_vendorName form)) (JStr "") in
    let customer := JS.or_else (entry_value (form_customerName form)) (JStr "") in
    match form_file form with
    | FormAbsent | FormText EmptyString =>
        respond 400 (ErrorBody "No file provided" None)
    | FormText _ =>
        (* [file.name] is undefined and [file.name.split] throws *)
        internal_error (type_error_message w)
    | FormFile file =>
        let fileExt := last (Regex.split_on "." (file_name file)) "" in
        let name :=
          "public/" ++ Str.of_Z (upload_ms w) ++ "-" ++ random36 w
          ++ "." ++ fileExt in
        _ <~ emit (EvUpload name (storage_upload w name file)) ;;
        uploadError <~ await (storage_upload w name file) ;;
        if (uploadError : bool) then
          respond 500 (ErrorBody "Failed to upload file" None)
        else
          let url := storage_publicUrl w name in
          content <~ prepare file vendor customer ;;
          _ <~ emit (EvInference content (fetch_openai w content)) ;;
          openaiResponse <~ await (fetch_openai w content) ;;
          if negb (ok openaiResponse) then
            errorText <~ await (response_text openaiResponse) ;;
            respond 500 (ErrorBody "Failed to process file with AI"
                                   (Some errorText))
          else
            openaiData <~ await (response_json openaiResponse) ;;
            let ctx := {|
              fileName := name;
              publicUrl := url;
              vendorName := vendor;
              customerName := customer;
              now_ms := clock_ms w;
              now_iso := clock_iso w;
              catch_ms := clock_catch_ms w;
              catch_iso := clock_catch_iso w
            |} in
            ret {| status := 200;
                   body := DataBody (extractedData JSON_parse ctx openaiData) url |}
    end.

(** The function given to [Deno.serve]. *)
Definition serve (req : Request) : Response * list Event :=
  if method req =? "OPTIONS" then ({| status := 200; body := NoBody |}, [])
  else run (serve_try req).

End Serve.

(** ** The alternate ingestion path (api/parse-invoice/index.ts) *)

Record FetchResponse : Type := {
  fetch_ok : bool;
  fetch_arrayBuffer : outcome (list Byte.byte)
}.

Record TextRequest : Type := {
  text_method : string;
  text_body : jsval                (* req.body *)
}.

Record TextWorld : Type := {
  remote_fetch : jsval -> outcome FetchResponse;       (* fetch(fileUrl) *)
  pdf_parse : list Byte.byte -> outcome string         (* (await pdf(buf)).text *)
}.

(** The calls of the text handler, with what they returned. *)
Inductive TextEvent : Type :=
| EvFetch (url : jsval) (result : outcome FetchResponse)
| EvArrayBuffer (result : outcome (list Byte.byte))
| EvPdf (result : outcome string).

Module TextHandler.

(** [const { fileUrl } = (req.body || {})]. *)
Definition fileUrl (req : TextRequest) : jsval :=
  JS.get_field_opt (JS.or_else (text_body req) (JObj [])) "fileUrl".

(** The [catch] (lines 22-24): [e.message || 'Parser failed']. *)
Definition parser_failed (message : option string) : Response :=
  {| status := 500;
     body := ErrorBody (match message with
                        | Some m => if m =? "" then "Parser failed" else m
                        | None => "Parser failed"
                        end) None |}.

Definition handler (w : TextWorld) (req : TextRequest)
  : Response * list TextEvent :=
  if text_method req =? "OPTIONS" then ({| status := 204; body := NoBody |}, [])
  else
    let url := fileUrl req in
    if negb (JS.truthy url) then
      ({| status := 400; body := ErrorBody "Missing fileUrl" None |}, [])
    else
      let fetched := remote_fetch w url in
      match fetched with
      | Throws message => (parser_failed message, [EvFetch url fetched])
      | Returns r =>
          if negb (fetch_ok r) then
            ({| status := 400; body := ErrorBody "Could not fetch fileUrl" None |},
             [EvFetch url fetched])
          else
            match fetch_arrayBuffer r with
            | Throws message =>
                (parser_failed message,
                 [EvFetch url fetched; EvArrayBuffer (fetch_arrayBuffer r)])
            | Returns buf =>
                match pdf_parse w buf with
                | Throws message =>
                    (parser_failed message,
                     [EvFetch url fetched; EvArrayBuffer (fetch_arrayBuffer r);
                      EvPdf (pdf_parse w buf)])
                | Returns text =>
                    ({| status := 200; body := TextBody text |},
                     [EvFetch url fetched; EvArrayBuffer (fetch_arrayBuffer r);
                      EvPdf (pdf_parse w buf)])
                end
            end
      end.

End TextHandler.


(** ** What the specification says, where it is compared with the code *)

Module Spec.

(** Follows the spec's words (section 4.4, step 1): the text after an
    opening bracket up to the bracket that closes it, brackets opened in
    between being closed first. *)
Fixpoint balanced_rest (depth : nat) (s : string) : option string :=
  match s with
  | EmptyString => None
  | String c r =>
      if Ascii.eqb c "[" then option_map (String c) (balanced_rest (S depth) r)
      else if Ascii.eqb c "]" then
        match depth with
        | O => Some (String c "")
        | S d => option_map (String c) (balanced_rest d r)
        end
      else option_map (String c) (balanced_rest depth r)
  end.

(** Follows the spec's words: the first substring that forms a balanced
    top-level array. *)
Fixpoint first_balanced_array (s : string) : option string :=
  match s with
  | EmptyString => None
  | String c r =>
      if Ascii.eqb c "[" then
        match balanced_rest 0 r with
        | Some t => Some (String c t)
        | None => first_balanced_array r
        end
      else first_balanced_array r
  end.

(** Follows the spec's words: that substring, or the empty-array text. *)
Definition jsonString (rawContent : string) : string :=
  match first_balanced_array rawContent with
  | Some m => m
  | None => "[]"
  end.

(** Follows the spec's words (section 3): a date of the form YYYY-MM-DD. *)
Definition is_iso_date (s : string) : bool :=
  match s with
  | String y1 (String y2 (String y3 (String y4 (String d1
      (String m1 (String m2 (String d2 (String a1 (String a2 EmptyString))))))))) =>
      Str.is_digit y1 && Str.is_digit y2 && Str.is_digit y3 && Str.is_digit y4
      && Ascii.eqb d1 "-" && Str.is_digit m1 && Str.is_digit m2
      && Ascii.eqb d2 "-" && Str.is_digit a1 && Str.is_digit a2
  | _ => false
  end.

(** Follows the spec's words: an ISO date string, or absent. *)
Definition iso_or_absent (v : jsval) : bool :=
  match v with
  | JNull => true
  | JStr s => is_iso_date s
  | _ => false
  end.

(** Follows the spec's words (section 3): true if the model declared it
    true, or if any of the three names is missing or empty after
    defaulting, that is in the record. *)
Definition needsReview (declared : jsval) (r : OrderLineItem) : bool :=
  JS.truthy declared
  || negb (JS.truthy (vendor_name r))
  || negb (JS.truthy (customer_name r))
  || negb (JS.truthy (style_number r)).

End Spec.

(** ** Sample requests, used to run the definitions *)

Module Sample.

Definition ctx : RequestContext := {|
  fileName := "public/1700000000000-k3x9q.pdf";
  publicUrl := "https://storage.example/invoices/public/1700000000000-k3x9q.pdf";
  vendorName := JStr "";
  customerName := JStr "";
  now_ms := fun _ => 1700000000123%Z;
  now_iso := fun _ => "2023-11-14T22:13:20.123Z";
  catch_ms := 1700000000124%Z;
  catch_iso := "2023-11-14T22:13:20.124Z"
|}.

(** The same request with a vendor hint. *)
Definition hinted_ctx : RequestContext := {|
  fileName := fileName ctx;
  publicUrl := publicUrl ctx;
  vendorName := JStr "Acme Apparel";
  customerName := JStr "";
  now_ms := now_ms ctx;
  now_iso := now_iso ctx;
  catch_ms := catch_ms ctx;
  catch_iso := catch_iso ctx
|}.

(** A complete line item, as the prompt asks for it. *)
Definition good_item : jsval :=
  JObj [("vendor_name", JStr "Acme Apparel");
        ("customer_name", JStr "Beta Stores");
        ("style_number", JStr "ABC-123");
        ("quantity", JNum (Finite 24 0));
        ("eta_date", JStr "2024-05-01");
        ("notes", JStr "");
        ("needs_review", JBool false)].

(** The model left the vendor out and reported [needs_review: false]. *)
Definition no_vendor_item : jsval :=
  JObj [("customer_name", JStr "Beta Stores");
        ("style_number", JStr "ABC-123");
        ("quantity", JNum (Finite 24 0));
        ("eta_date", JStr "2024-05-01");
        ("needs_review", JBool false)].

Definition q : string := Str.dquote.

(** A completion whose array holds one item and a null. *)
Definition batch_with_null : string :=
  "[{" ++ q ++ "vendor_name" ++ q ++ ": " ++ q ++ "Acme Apparel" ++ q ++ ", "
  ++ q ++ "customer_name" ++ q ++ ": " ++ q ++ "Beta Stores" ++ q ++ ", "
  ++ q ++ "style_number" ++ q ++ ": " ++ q ++ "ABC-123" ++ q ++ ", "
  ++ q ++ "quantity" ++ q ++ ": 24}, null]".

(** A three-page document whose first two pages already pass the budget. *)
Definition long_page : outcome (list TextItem) :=
  Returns [{| str := Some (Str.repeat "x" (8 * 1000)); text := None |};
           {| str := None; text := None |};
           {| str := Some "Style: ABC-123"; text := None |}].

Definition long_pdf : PdfDocument := {|
  pages := [long_page; long_page; long_page]
|}.

(** A one-page invoice. *)
Definition short_pdf : PdfDocument := {|
  pages := [Returns [{| str := Some "Style: ABC-123,"; text := None |};
                     {| str := Some "Qty: 24,"; text := None |};
                     {| str := Some "ETA: 2024-05-01"; text := None |}]]
|}.

(** An uploaded invoice and the services around the function. *)
Definition file : File := {|
  file_name := "invoice.v2.pdf";
  file_type := "application/pdf";
  arrayBuffer := Returns []
|}.

(** The completion: one complete line item and one without a vendor. *)
Definition completion_text : string :=
  "Here is the data: [{"
  ++ q ++ "vendor_name" ++ q ++ ": " ++ q ++ "Acme Apparel" ++ q ++ ", "
  ++ q ++ "customer_name" ++ q ++ ": " ++ q ++ "Beta Stores" ++ q ++ ", "
  ++ q ++ "style_number" ++ q ++ ": " ++ q ++ "ABC-123" ++ q ++ ", "
  ++ q ++ "quantity" ++ q ++ ": 24, "
  ++ q ++ "eta_date" ++ q ++ ": " ++ q ++ "2024-05-01" ++ q ++ ", "
  ++ q ++ "needs_review" ++ q ++ ": false}, {"
  ++ q ++ "style_number" ++ q ++ ": 17, "
  ++ q ++ "quantity" ++ q ++ ": " ++ q ++ "12 pcs" ++ q ++ ", "
  ++ q ++ "eta_date" ++ q ++ ": null}]".

Definition openai_reply : jsval :=
  JObj [("choices",
         JArr [JObj [("message",
                      JObj [("role", JStr "assistant");
                            ("content", JStr completion_text)])]])].

Definition configured (key : option string) : World := {|
  SUPABASE_URL := Some "https://project.supabase.co";
  SUPABASE_SERVICE_ROLE_KEY := Some "service-role-key";
  OPENAI_API_KEY := key;
  createClient := fun _ _ => Returns tt;
  type_error_message :=
    Some "Cannot read properties of undefined (reading 'split')";
  upload_ms := 1700000000000%Z;
  random36 := "k3x9q";
  storage_upload := fun _ _ => Returns false;
  storage_publicUrl := fun name => "https://storage.example/invoices/" ++ name;
  import_pdfjs := Returns tt;
  getDocument := fun _ => Returns short_pdf;
  encode_image := fun _ => Returns "aGVsbG8=";
  fetch_openai := fun _ =>
    Returns {| ok := true;
               response_text := Returns "";
               response_json := Returns openai_reply |};
  clock_ms := fun _ => 1700000000123%Z;
  clock_iso := fun _ => "2023-11-14T22:13:20.123Z";
  clock_catch_ms := 1700000000124%Z;
  clock_catch_iso := "2023-11-14T22:13:20.124Z"
|}.

Definition world : World := configured (Some "sk-test").

(** The same deployment without its OpenAI API key. *)
Definition unconfigured_world : World := configured None.

Definition form (f : FormEntry) : FormData := {|
  form_file := f;
  form_vendorName := FormText "Acme Apparel";
  form_customerName := FormAbsent
|}.

Definition request : Request := {|
  method := "POST";
  formData := Returns (form (FormFile file))
|}.

Definition request_without_file : Request := {|
  method := "POST";
  formData := Returns (form FormAbsent)
|}.

(** The text handler's world: the remote server answers 404. *)
Definition not_found : FetchResponse := {|
  fetch_ok := false;
  fetch_arrayBuffer := Returns []
|}.

Definition text_world : TextWorld := {|
  remote_fetch := fun _ => Returns not_found;
  pdf_parse := fun _ => Returns "Style: ABC-123"
|}.

Definition text_request : TextRequest := {|
  text_method := "POST";
  text_body := JObj [("fileUrl", JStr "https://files.example/missing.pdf")]
|}.

(** A deployment whose storage and model answer as given. *)
Definition world_with (uploadError : bool) (reply : outcome OpenAIResponse)
  : World := {|
  SUPABASE_URL := Some "https://project.supabase.co";
  SUPABASE_SERVICE_ROLE_KEY := Some "service-role-key";
  OPENAI_API_KEY := Some "sk-test";
  createClient := fun _ _ => Returns tt;
  type_error_message :=
    Some "Cannot read properties of undefined (reading 'split')";
  upload_ms := 1700000000000%Z;
  random36 := "k3x9q";
  storage_upload := fun _ _ => Returns uploadError;
  storage_publicUrl := fun name => "https://storage.example/invoices/" ++ name;
  import_pdfjs := Returns tt;
  getDocument := fun _ => Returns short_pdf;
  encode_image := fun _ => Returns "aGVsbG8=";
  fetch_openai := fun _ => reply;
  clock_ms := fun _ => 1700000000123%Z;
  clock_iso := fun _ => "2023-11-14T22:13:20.123Z";
  clock_catch_ms := 1700000000124%Z;
  clock_catch_iso := "2023-11-14T22:13:20.124Z"
|}.

(** The model's endpoint refuses the call. *)
Definition overloaded : OpenAIResponse := {|
  ok := false;
  response_text := Returns "rate limit exceeded";
  response_json := Throws None
|}.

Definition good_reply : OpenAIResponse := {|
  ok := true;
  response_text := Returns "";
  response_json := Returns openai_reply
|}.

(** A photographed invoice. *)
Definition photo : File := {|
  file_name := "scan.final.jpeg";
  file_type := "image/jpeg";
  arrayBuffer := Returns []
|}.

Definition request_of (f : FormEntry) : Request := {|
  method := "POST";
  formData := Returns (form f)
|}.

(** A document whose second page cannot be read. *)
Definition broken_pdf : PdfDocument := {|
  pages := [Returns [{| str := Some "Style: ABC-123"; text := None |}];
            Throws (Some "Invalid page structure");
            Returns [{| str := Some "Qty: 24"; text := None |}]]
|}.

(** The text handler's world when the remote file is a readable PDF. *)
Definition found : FetchResponse := {|
  fetch_ok := true;
  fetch_arrayBuffer := Returns []
|}.

Definition text_world_found : TextWorld := {|
  remote_fetch := fun _ => Returns found;
  pdf_parse := fun _ => Returns "Style: ABC-123"
|}.

(** The text handler's world when the parser rejects the file without a
    message. *)
Definition text_world_broken : TextWorld := {|
  remote_fetch := fun _ => Returns found;
  pdf_parse := fun _ => Throws (Some "")
|}.

(** A preflight that carries the same body as [text_request]. *)
Definition text_preflight : TextRequest := {|
  text_method := "OPTIONS";
  text_body := text_body text_request
|}.



End Sample.


(** ** Predicates used in the statements *)

(** An element the arrow function maps without throwing: it is neither
    [null] nor [undefined], and its [quantity] converts to a string. *)
Definition mappable (item : jsval) : bool :=
  match JS.get_field item "quantity" with
  | Some q => match JS.to_string q with Some _ => true | None => false end
  | None => false
  end.

(** A value with no own [toString] to trip [ToString]: anything but an
    object or an array. *)
Definition primitive (v : jsval) : bool :=
  match v with
  | JObj _ | JArr _ => false
  | _ => true
  end.

(** A text field after defaulting: a truthy value or the empty string,
    so neither [undefined] nor [null]. *)
Definition defaulted_text (v : jsval) : Prop :=
  JS.truthy v = true \/ v = JStr "".

(** The date after defaulting: a truthy value or [null]. *)
Definition defaulted_date (v : jsval) : Prop :=
  JS.truthy v = true \/ v = JNull.



(** The page-boundary marker written before the text of page [i]: two
    line feeds, [--- Page i ---] and a line feed. *)
Definition page_marker (i : nat) : string :=
  let line_feed := String (ascii_of_nat 10) "" in
  line_feed ++ line_feed ++ "--- Page " ++ Str.of_nat i ++ " ---" ++ line_feed.

(** The texts of consecutive pages, the first of them page [i], each
    behind its marker. *)
Fixpoint marked_pages (i : nat) (texts : list string) : string :=
  match texts with
  | [] => ""
  | page_text :: rest => page_marker i ++ page_text ++ marked_pages (S i) rest
  end.

(** The call behind a text-handler event threw. *)
Definition threw (e : TextEvent) : bool :=
  match e with
  | EvFetch _ (Throws _) | EvArrayBuffer (Throws _) | EvPdf (Throws _) => true
  | _ => false
  end.

(** An event of the main endpoint that reaches the storage or the model. *)
Definition outbound (e : Event) : bool :=
  match e with
  | EvUpload _ _ | EvInference _ _ => true
  | _ => false
  end.

(** The first code unit of [s] satisfies [p]. *)
Definition starts_with (p : ascii -> bool) (s : string) : bool :=
  match s with
  | String c _ => p c
  | EmptyString => false
  end.

Definition is_sign (c : ascii) : bool := Ascii.eqb c "-" || Ascii.eqb c "+".


(** The index that an [id] ends with: the digits after its last dash. *)
Definition id_index (id : string) : Z :=
  Str.digits_val 0 (last (Regex.split_on "-" id) "").

(** [getPage] and [getTextContent] deliver the page. *)
Definition readable (page : outcome (list TextItem)) : bool :=
  match page with
  | Returns _ => true
  | Throws _ => false
  end.

(** The extension that line 92 reads off a file name. *)
Definition fileExt (name : string) : string :=
  last (Regex.split_on "." name) "".

(** The storage key that lines 92-93 build for an uploaded file. *)
Definition upload_name (w : World) (file : File) : string :=
  "public/" ++ Str.of_Z (upload_ms w) ++ "-" ++ random36 w
  ++ "." ++ fileExt (file_name file).

(** The hint that line 79 or 80 reads from a form entry. *)
Definition hint_of (e : FormEntry) : jsval :=
  JS.or_else (entry_value e) (JStr "").

(** What the normalizer is given for a request whose file was stored. *)
Definition request_context (w : World) (form : FormData) (file : File)
  : RequestContext := {|
  fileName := upload_name w file;
  publicUrl := storage_publicUrl w (upload_name w file);
  vendorName := hint_of (form_vendorName form);
  customerName := hint_of (form_customerName form);
  now_ms := clock_ms w;
  now_iso := clock_iso w;
  catch_ms := clock_catch_ms w;
  catch_iso := clock_catch_iso w
|}.

(** The event of the main endpoint is an inference call. *)
Definition is_inference (e : Event) : bool :=
  match e with
  | EvInference _ _ => true
  | _ => false
  end.

(** The event of the main endpoint is the reading of a page. *)
Definition is_page (e : Event) : bool :=
  match e with
  | EvPage _ => true
  | _ => false
  end.

(** The same request with other hints. *)
Definition with_hints (ctx : RequestContext) (vendor customer : jsval)
  : RequestContext := {|
  fileName := fileName ctx;
  publicUrl := publicUrl ctx;
  vendorName := vendor;
  customerName := customer;
  now_ms := now_ms ctx;
  now_iso := now_iso ctx;
  catch_ms := catch_ms ctx;
  catch_iso := catch_iso ctx
|}.

(** The completion that line 208 reads from the first choice of a reply. *)
Definition first_content (first : jsval) : jsval :=
  JS.get_field_opt (JS.get_field_opt first "message") "content".

(** * Properties *)

(** ** Strings *)

Lemma append_nil_r (s : string) : s ++ "" = s.
Proof. induction s; simpl; congruence. Qed.

Lemma append_assoc (a b c : string) : (a ++ b) ++ c = a ++ (b ++ c).
Proof. induction a; simpl; congruence. Qed.

Lemma length_append (a b : string) :
  String.length (a ++ b) = (String.length a + String.length b)%nat.
Proof. induction a; simpl; auto. Qed.

Lemma mem_append (a : ascii) (x y : string) :
  Str.mem a (x ++ y) = Str.mem a x || Str.mem a y.
Proof.
  induction x as [|c x IH]; simpl; [reflexivity|].
  rewrite IH. now rewrite orb_assoc.
Qed.

Lemma length_take (n : nat) (s : string) :
  (String.length (Str.take n s) <= n)%nat.
Proof.
  revert s. induction n as [|n IH]; intros [|c s]; simpl; try lia.
  specialize (IH s). lia.
Qed.

Lemma take_all (n : nat) (s : string) :
  (String.length s <= n)%nat -> Str.take n s = s.
Proof.
  revert s. induction n as [|n IH]; intros [|c s]; simpl; intros H;
    try reflexivity; try lia.
  f_equal. apply IH. lia.
Qed.

(** ** The array search (lines 211-212) *)

Lemma upto_last_close_some (r t : string) :
  Regex.upto_last_close r = Some t ->
  exists mid post,
    r = mid ++ "]" ++ post /\ Str.mem "]" post = false /\ t = mid ++ "]".
Proof.
  revert t. induction r as [|c r IH]; simpl; intros t H; [discriminate|].
  destruct (Regex.upto_last_close r) as [t'|] eqn:E.
  - inversion H; subst t; clear H.
    destruct (IH t' eq_refl) as (mid & post & -> & Hpost & ->).
    exists (String c mid), post. simpl. auto.
  - destruct (Ascii.eqb c "]") eqn:Ec; [|discriminate].
    inversion H; subst t; clear H.
    apply Ascii.eqb_eq in Ec; subst c.
    exists "", r. simpl. split; [reflexivity|]. split; [|reflexivity].
    clear IH. induction r as [|d r IHr]; simpl in *; [reflexivity|].
    destruct (Regex.upto_last_close r) as [u|] eqn:Er; [discriminate|].
    destruct (Ascii.eqb d "]"); [discriminate|]. simpl. auto.
Qed.

Lemma upto_last_close_none (r : string) :
  Regex.upto_last_close r = None -> Str.mem "]" r = false.
Proof.
  induction r as [|d r IHr]; simpl; [reflexivity|].
  destruct (Regex.upto_last_close r) as [u|] eqn:Er; [discriminate|].
  destruct (Ascii.eqb d "]"); [discriminate|]. simpl. auto.
Qed.

Lemma match_array_some (s m : string) :
  Regex.match_array s = Some m ->
  exists pre mid post,
    s = pre ++ "[" ++ mid ++ "]" ++ post
    /\ Str.mem "[" pre = false /\ Str.mem "]" post = false
    /\ m = "[" ++ mid ++ "]".
Proof.
  revert m. induction s as [|c s IH]; simpl; intros m H; [discriminate|].
  destruct (Ascii.eqb c "[") eqn:Ec.
  - apply Ascii.eqb_eq in Ec; subst c.
    destruct (Regex.upto_last_close s) as [t|] eqn:E.
    + inversion H; subst m; clear H.
      destruct (upto_last_close_some _ _ E) as (mid & post & -> & Hpost & ->).
      exists "", mid, post. simpl. auto.
    + apply upto_last_close_none in E.
      destruct (IH m H) as (pre & mid & post & Hs & _ & _ & _).
      rewrite Hs in E. rewrite !mem_append in E. simpl in E.
      rewrite !orb_true_r in E. discriminate.
  - destruct (IH m H) as (pre & mid & post & -> & Hpre & Hpost & ->).
    exists (String c pre), mid, post. simpl. rewrite Ec. simpl. auto.
Qed.

Lemma match_array_none (s : string) :
  Regex.match_array s = None ->
  forall pre mid post, s <> pre ++ "[" ++ mid ++ "]" ++ post.
Proof.
  induction s as [|c s IH]; simpl; intros H pre mid post Hs.
  - destruct pre; discriminate.
  - destruct pre as [|p pre]; simpl in Hs.
    + inversion Hs; subst c s. rewrite Ascii.eqb_refl in H.
      destruct (Regex.upto_last_close (mid ++ String "]" post)) eqn:E;
        [discriminate|].
      apply upto_last_close_none in E.
      rewrite mem_append in E. simpl in E. rewrite orb_true_r in E. discriminate.
    + inversion Hs; subst p s.
      apply (IH) with (pre := pre) (mid := mid) (post := post); [|reflexivity].
      destruct (Ascii.eqb c "["); [|exact H].
      destruct (Regex.upto_last_close _); [discriminate | exact H].
Qed.

(** [C4]: the text handed to [JSON.parse] runs from the first opening bracket
    that has a closing bracket after it to the LAST closing bracket of the
    completion; a completion with no such pair gives the empty-array text. *)
Theorem jsonString_first_open_to_last_close (rawContent : string) :
  (exists pre mid post,
      rawContent = pre ++ "[" ++ mid ++ "]" ++ post
      /\ Str.mem "[" pre = false /\ Str.mem "]" post = false
      /\ jsonString rawContent = "[" ++ mid ++ "]")
  \/ ((forall pre mid post, rawContent <> pre ++ "[" ++ mid ++ "]" ++ post)
      /\ jsonString rawContent = "[]").
Proof.
  unfold jsonString.
  destruct (Regex.match_array rawContent) as [m|] eqn:E.
  - left. destruct (match_array_some _ _ E) as (pre & mid & post & H1 & H2 & H3 & H4).
    exists pre, mid, post. auto.
  - right. split; [|reflexivity]. now apply match_array_none.
Qed.

(** [C4], the claim as stated fails: on a balanced array followed by more
    bracketed text the code selects the whole span, which does not parse,
    where the first balanced array alone would have parsed. *)
Lemma jsonString_trailing_brackets :
  jsonString "[1] trailing [2]" = "[1] trailing [2]"
  /\ Spec.jsonString "[1] trailing [2]" = "[1]"
  /\ JSON_parse_ref (jsonString "[1] trailing [2]") = None
  /\ JSON_parse_ref (Spec.jsonString "[1] trailing [2]")
     = Some (JArr [JNum (Finite 1 0)]).
Proof. repeat split; vm_compute; reflexivity. Qed.

(** ** The fallback record (lines 234-251) *)

Lemma normalizeText_no_match JSON_parse ctx (rawContent : string) :
  Regex.match_array rawContent = None ->
  JSON_parse "[]" = Some (JArr []) ->
  normalizeText JSON_parse ctx rawContent = [].
Proof.
  intros Hm Hp. unfold normalizeText, parseText, jsonString.
  rewrite Hm, Hp. reflexivity.
Qed.

(** [C3]: when the bracket search finds a span and [JSON.parse] rejects it,
    the result is exactly the one fallback record, flagged for review, with
    quantity 0, no date and the note that extraction failed. *)
Theorem normalizeText_unparseable_span JSON_parse ctx (rawContent m : string) :
  Regex.match_array rawContent = Some m ->
  JSON_parse m = None ->
  normalizeText JSON_parse ctx rawContent = [fallback ctx]
  /\ needs_review (fallback ctx) = true
  /\ quantity (fallback ctx) = Finite 0 0
  /\ eta_date (fallback ctx) = JNull
  /\ notes (fallback ctx) = JStr "AI extraction failed - manual review required".
Proof.
  intros Hm Hp. unfold normalizeText, parseText, jsonString.
  rewrite Hm, Hp. repeat split.
Qed.

Lemma normalizeText_unparseable_span_witness :
  Regex.match_array "Items: [style ABC-123, 24 pcs]" = Some "[style ABC-123, 24 pcs]"
  /\ JSON_parse_ref "[style ABC-123, 24 pcs]" = None
  /\ (normalizeText JSON_parse_ref Sample.ctx "Items: [style ABC-123, 24 pcs]"
        = [fallback Sample.ctx]
      /\ needs_review (fallback Sample.ctx) = true
      /\ quantity (fallback Sample.ctx) = Finite 0 0
      /\ eta_date (fallback Sample.ctx) = JNull
      /\ notes (fallback Sample.ctx)
         = JStr "AI extraction failed - manual review required").
Proof.
  split; [reflexivity|]. split; [vm_compute; reflexivity|].
  apply (normalizeText_unparseable_span JSON_parse_ref Sample.ctx
           "Items: [style ABC-123, 24 pcs]" "[style ABC-123, 24 pcs]");
    vm_compute; reflexivity.
Defined.

(** [C3], the claim as stated fails: a completion that is prose, with no
    bracket at all, has the empty-array text parsed in its place and gives
    no record, not one fallback record. *)
Lemma normalizeText_prose_gives_no_record :
  Regex.match_array "I could not find any line items in this document." = None
  /\ normalizeText JSON_parse_ref Sample.ctx
       "I could not find any line items in this document." = []
  /\ List.length (normalizeText JSON_parse_ref Sample.ctx
       "I could not find any line items in this document.") = 0%nat.
Proof. repeat split; vm_compute; reflexivity. Qed.

(** ** Numbers *)

Lemma nearest_even_bounds (num den : Z) :
  (0 < den)%Z ->
  (num / den <= Binary64.nearest_even num den <= num / den + 1)%Z
  /\ (2 * Z.abs (num - Binary64.nearest_even num den * den) <= den)%Z.
Proof.
  intros Hden. unfold Binary64.nearest_even.
  pose proof (Z.div_mod num den ltac:(lia)) as Hdm.
  pose proof (Z.mod_pos_bound num den Hden) as Hr.
  remember (num / den)%Z as q eqn:Eq. remember (num mod den)%Z as r eqn:Er.
  clear Eq Er.
  destruct (Z.ltb_spec (2 * r) den); [split; [lia|nia]|].
  destruct (Z.ltb_spec den (2 * r)); [split; [lia|nia]|].
  destruct (Z.even q); split; try lia; nia.
Qed.

(** The significand of an integer beyond [2^53] has 53 bits. *)
Lemma significand_bounds (a : Z) :
  (2 ^ 53 < a)%Z ->
  let e := (Z.log2 a - 52)%Z in
  (1 <= e)%Z
  /\ (2 ^ 52 <= Binary64.nearest_even a (2 ^ e) <= 2 ^ 53)%Z.
Proof.
  intros Ha e.
  assert (Hpos : (0 < a)%Z) by (assert (0 < 2 ^ 53)%Z by (apply Z.pow_pos_nonneg; lia); lia).
  destruct (Z.log2_spec a Hpos) as [Hlo Hhi].
  assert (HL : (53 <= Z.log2 a)%Z).
  { replace 53%Z with (Z.log2 (2 ^ 53)) by (rewrite Z.log2_pow2; lia).
    apply Z.log2_le_mono. lia. }
  assert (He : (1 <= e)%Z) by (subst e; lia).
  split; [assumption|].
  assert (Hpe : (0 < 2 ^ e)%Z) by (apply Z.pow_pos_nonneg; lia).
  assert (H2L : (2 ^ Z.log2 a = 2 ^ 52 * 2 ^ e)%Z).
  { rewrite <- Z.pow_add_r by lia. f_equal. subst e. lia. }
  assert (H2S : (2 ^ Z.succ (Z.log2 a) = 2 ^ 53 * 2 ^ e)%Z).
  { rewrite <- Z.pow_add_r by lia. f_equal. subst e. lia. }
  destruct (nearest_even_bounds a (2 ^ e) Hpe) as [[Hq1 Hq2] _].
  assert (Hqlo : (2 ^ 52 <= a / 2 ^ e)%Z).
  { apply Z.div_le_lower_bound; [assumption|]. rewrite Z.mul_comm. lia. }
  assert (Hqhi : (a / 2 ^ e < 2 ^ 53)%Z).
  { apply Z.div_lt_upper_bound; [assumption|]. rewrite Z.mul_comm. lia. }
  lia.
Qed.

(** An integer up to [2^53] in magnitude is a Number value. *)
Lemma Number_of_Z_exact (z : Z) :
  (Z.abs z <= 2 ^ 53)%Z -> JS.Number_of_Z z = Finite z 0.
Proof.
  intros H. unfold JS.Number_of_Z, Binary64.of_Z.
  apply Z.leb_le in H. rewrite H. now rewrite Z.pow_0_r, Z.mul_1_r.
Qed.

(** Beyond, the Number value is an infinity or an integer with a
    significand of 53 bits that is within half a unit of its last bit. *)
Lemma Number_of_Z_rounded (z : Z) :
  (2 ^ 53 < Z.abs z)%Z ->
  JS.Number_of_Z z = Infinite (z <? 0)%Z
  \/ exists m e,
      JS.Number_of_Z z = Finite (m * 2 ^ e) 0
      /\ (1 <= e)%Z /\ (2 ^ 52 <= Z.abs m <= 2 ^ 53)%Z
      /\ (2 * Z.abs (z - m * 2 ^ e) <= 2 ^ e)%Z
      /\ ((m <? 0) = (z <? 0))%Z.
Proof.
  intros H. unfold JS.Number_of_Z, Binary64.of_Z.
  destruct (Z.leb_spec (Z.abs z) (2 ^ 53)) as [Hle|_]; [lia|].
  destruct (significand_bounds (Z.abs z) H) as [He HM].
  cbv zeta in HM.
  remember (Z.log2 (Z.abs z) - 52)%Z as e eqn:Ee.
  assert (Hpe : (0 < 2 ^ e)%Z) by (apply Z.pow_pos_nonneg; lia).
  destruct (nearest_even_bounds (Z.abs z) (2 ^ e) Hpe) as [_ Hnear].
  remember (Binary64.nearest_even (Z.abs z) (2 ^ e)) as M eqn:EM. clear EM.
  unfold Binary64.in_range.
  destruct ((971 <=? e)%Z && (2 ^ 53 <=? M * 2 ^ (e - 971))%Z); [now left|].
  right. assert (H52 : (0 < 2 ^ 52)%Z) by (apply Z.pow_pos_nonneg; lia).
  destruct (Z.ltb_spec z 0) as [Hneg|Hpos].
  - exists (- M)%Z, e. split; [reflexivity|]. split; [assumption|].
    split; [lia|]. split.
    + replace (z - - M * 2 ^ e)%Z with (- (Z.abs z - M * 2 ^ e))%Z by lia.
      now rewrite Z.abs_opp.
    + apply Z.ltb_lt. lia.
  - exists M, e. split; [reflexivity|]. split; [assumption|].
    split; [lia|]. split.
    + now replace z with (Z.abs z) at 1 by lia.
    + apply Z.ltb_ge. lia.
Qed.

(** From [2^1024] on it is an infinity. *)
Lemma Number_of_Z_huge (z : Z) :
  (2 ^ 1024 <= Z.abs z)%Z -> JS.Number_of_Z z = Infinite (z <? 0)%Z.
Proof.
  intros H.
  assert (H53 : (2 ^ 53 < 2 ^ 1024)%Z) by (apply Z.pow_lt_mono_r; lia).
  assert (Hbig : (2 ^ 53 < Z.abs z)%Z) by lia.
  unfold JS.Number_of_Z, Binary64.of_Z.
  destruct (Z.leb_spec (Z.abs z) (2 ^ 53)) as [Hle|_]; [lia|].
  destruct (significand_bounds (Z.abs z) Hbig) as [He HM]. cbv zeta in HM.
  assert (HL : (1024 <= Z.log2 (Z.abs z))%Z).
  { replace 1024%Z with (Z.log2 (2 ^ 1024)) by (rewrite Z.log2_pow2; lia).
    now apply Z.log2_le_mono. }
  remember (Z.log2 (Z.abs z) - 52)%Z as e eqn:Ee.
  remember (Binary64.nearest_even (Z.abs z) (2 ^ e)) as M eqn:EM. clear EM.
  unfold Binary64.in_range.
  assert (H1 : (971 <=? e)%Z = true) by (apply Z.leb_le; lia).
  assert (H2 : (2 ^ 53 <=? M * 2 ^ (e - 971))%Z = true).
  { apply Z.leb_le.
    assert (2 ^ 1 <= 2 ^ (e - 971))%Z by (apply Z.pow_le_mono_r; lia).
    replace (2 ^ 53)%Z with (2 ^ 52 * 2 ^ 1)%Z
      by (rewrite <- Z.pow_add_r by lia; reflexivity).
    assert (0 < 2 ^ 52)%Z by (apply Z.pow_pos_nonneg; lia).
    apply Z.mul_le_mono_nonneg; lia. }
  now rewrite H1, H2.
Qed.

(** The Number value of an integer is zero only for zero. *)
Lemma truthy_Number_of_Z (z : Z) :
  JS.truthy (JNum (JS.Number_of_Z z)) = negb (z =? 0)%Z.
Proof.
  destruct (Z.le_gt_cases (Z.abs z) (2 ^ 53)) as [Hle|Hgt].
  - rewrite (Number_of_Z_exact z Hle). cbn [JS.truthy].
    unfold Binary64.of_decimal. destruct (Z.eqb_spec z 0) as [->|Hz]; [reflexivity|].
    cbn [Z.leb Z.compare]. rewrite Z.pow_0_r, Z.mul_1_r.
    unfold Binary64.of_Z. apply Z.leb_le in Hle. rewrite Hle.
    cbn [Binary64.is_zero]. now apply Z.eqb_neq in Hz as ->.
  - assert (Hz : (z =? 0)%Z = false).
    { apply Z.eqb_neq. intros ->.
      assert (0 < 2 ^ 53)%Z by (apply Z.pow_pos_nonneg; lia). simpl in Hgt. lia. }
    rewrite Hz.
    destruct (Number_of_Z_rounded z Hgt) as [->|(m & e & -> & He & Hm & Hnear & Hs)];
      [reflexivity|].
    cbn [JS.truthy negb]. apply negb_true_iff.
    assert (H52 : (0 < 2 ^ 52)%Z) by (apply Z.pow_pos_nonneg; lia).
    assert (Hpe : (0 < 2 ^ e)%Z) by (apply Z.pow_pos_nonneg; lia).
    assert (Hme : (m * 2 ^ e <> 0)%Z) by nia.
    unfold Binary64.of_decimal. apply Z.eqb_neq in Hme as Hme'. rewrite Hme'.
    cbn [Z.leb Z.compare]. rewrite Z.pow_0_r, Z.mul_1_r.
    unfold Binary64.of_Z.
    destruct (Z.leb_spec (Z.abs (m * 2 ^ e)) (2 ^ 53)) as [_|Hbig].
    + cbn [Binary64.is_zero]. assumption.
    + destruct (significand_bounds _ Hbig) as [He' HM']. cbv zeta in HM'.
      unfold Binary64.in_range.
      destruct (_ && _); [reflexivity|]. cbn [Binary64.is_zero].
      destruct (m * 2 ^ e <? 0)%Z; apply Z.eqb_neq; lia.
Qed.

Lemma number_or_zero_Number_of_Z (z : Z) :
  number_or_zero (JS.Number_of_Z z) = JS.Number_of_Z z.
Proof.
  unfold number_or_zero. rewrite truthy_Number_of_Z.
  destruct (Z.eqb_spec z 0) as [->|_]; reflexivity.
Qed.

Lemma number_or_zero_NaN : number_or_zero NaN = JS.Number_of_Z 0.
Proof. reflexivity. Qed.

(** ** The arrow function (lines 215-231) *)

Lemma get_field_total (item : jsval) (k k' : string) (v : jsval) :
  JS.get_field item k = Some v -> exists v', JS.get_field item k' = Some v'.
Proof. destruct item; simpl; intros H; try discriminate; eauto. Qed.

(** What a mapped record is made of. *)
Lemma mapItem_inv ctx (item : jsval) (index : nat) (r : OrderLineItem) :
  mapItem ctx item index = Some r ->
  exists v c s q text e nt nr,
    JS.get_field item "vendor_name" = Some v
    /\ JS.get_field item "customer_name" = Some c
    /\ JS.get_field item "style_number" = Some s
    /\ JS.get_field item "quantity" = Some q
    /\ JS.to_string q = Some text
    /\ JS.get_field item "eta_date" = Some e
    /\ JS.get_field item "notes" = Some nt
    /\ JS.get_field item "needs_review" = Some nr
    /\ vendor_name r = JS.or_else v (JS.or_else (vendorName ctx) (JStr ""))
    /\ customer_name r = JS.or_else c (JS.or_else (customerName ctx) (JStr ""))
    /\ style_number r = JS.or_else s (JStr "")
    /\ quantity r = number_or_zero (JS.parseInt_text text)
    /\ eta_date r = JS.or_else e JNull
    /\ notes r = JS.or_else nt (JStr "")
    /\ needs_review r =
         JS.truthy nr || negb (JS.truthy v) || negb (JS.truthy c)
         || negb (JS.truthy s).
Proof.
  unfold mapItem, JS.parseInt. intros H.
  destruct (JS.get_field item "vendor_name") as [v|] eqn:E1; [|discriminate].
  destruct (JS.get_field item "customer_name") as [c|] eqn:E2; [|discriminate].
  destruct (JS.get_field item "style_number") as [s|] eqn:E3; [|discriminate].
  destruct (JS.get_field item "quantity") as [q|] eqn:E4; [|discriminate].
  destruct (JS.to_string q) as [text|] eqn:E5; [|discriminate].
  destruct (JS.get_field item "eta_date") as [e|] eqn:E6; [|discriminate].
  destruct (JS.get_field item "notes") as [nt|] eqn:E7; [|discriminate].
  destruct (JS.get_field item "needs_review") as [nr|] eqn:E8; [|discriminate].
  inversion H; subst r; clear H. simpl.
  exists v, c, s, q, text, e, nt, nr. repeat split; auto.
Qed.

(** The arrow function throws exactly on the elements that are not
    [mappable]. *)
Lemma mapItem_mappable ctx (item : jsval) (index : nat) :
  mappable item = true <-> exists r, mapItem ctx item index = Some r.
Proof.
  unfold mappable. split.
  - intros H. unfold mapItem, JS.parseInt.
    destruct (JS.get_field item "quantity") as [q|] eqn:Eq; [|discriminate].
    destruct (JS.to_string q) as [text|]; [|discriminate].
    destruct (get_field_total item _ "vendor_name" _ Eq) as [v ->].
    destruct (get_field_total item _ "customer_name" _ Eq) as [c ->].
    destruct (get_field_total item _ "style_number" _ Eq) as [s ->].
    destruct (get_field_total item _ "eta_date" _ Eq) as [e ->].
    destruct (get_field_total item _ "notes" _ Eq) as [nt ->].
    destruct (get_field_total item _ "needs_review" _ Eq) as [nr ->].
    eauto.
  - intros [r H]. apply mapItem_inv in H.
    destruct H as (v & c & s & q & text & e & nt & nr & _ & _ & _ & Hq & Ht & _).
    now rewrite Hq, Ht.
Qed.

(** Wrong types and missing keys do not make an element throw: an element
    that is not null, whose [quantity] is missing or is anything but an
    object or an array, is mapped. *)
Lemma mappable_primitive_quantity (item q : jsval) :
  JS.get_field item "quantity" = Some q -> primitive q = true ->
  mappable item = true.
Proof.
  unfold mappable. intros -> Hq.
  destruct q as [| |[]|n|s|l|l|c]; simpl in *; try reflexivity; discriminate.
Qed.

Lemma map_from_elementwise ctx (items : list jsval) (k : nat) :
  forallb mappable items = true ->
  exists records,
    map_from ctx k items = Some records
    /\ List.length records = List.length items
    /\ forall i item, nth_error items i = Some item ->
         exists r, nth_error records i = Some r
                   /\ mapItem ctx item (k + i) = Some r.
Proof.
  revert k. induction items as [|item items IH]; intros k H.
  - exists []. repeat split. intros [|i] item Hi; discriminate.
  - simpl in H. apply andb_true_iff in H. destruct H as [Hm Hall].
    destruct (proj1 (mapItem_mappable ctx item k) Hm) as [r Hr].
    destruct (IH (S k) Hall) as (records & Hmap & Hlen & Hnth).
    exists (r :: records). simpl. rewrite Hr, Hmap.
    split; [reflexivity|]. split; [simpl; congruence|].
    intros [|i] x Hi; simpl in *.
    + inversion Hi; subst x. exists r. rewrite Nat.add_0_r. auto.
    + destruct (Hnth i x Hi) as (r' & H1 & H2).
      exists r'. split; [assumption|].
      now replace (k + S i)%nat with (S k + i)%nat by lia.
Qed.

(** A null element makes the whole map throw. *)
Lemma map_from_unmappable ctx (items : list jsval) (k : nat) :
  forallb mappable items = false -> map_from ctx k items = None.
Proof.
  revert k. induction items as [|item items IH]; intros k H; [discriminate|].
  simpl in *. destruct (mapItem ctx item k) as [r|] eqn:Er; [|reflexivity].
  assert (Hm : mappable item = true) by (apply (mapItem_mappable ctx item k); eauto).
  rewrite Hm in H. simpl in H. now rewrite (IH (S k) H).
Qed.

(** [C5]: when the array parsed and none of its elements is null (more
    exactly, every element is [mappable]), the result has one record per
    element, in order, each made from its own element and index alone, and
    the batch is not replaced by the fallback record. *)
Theorem mapParsed_elementwise ctx (items : list jsval) :
  forallb mappable items = true ->
  exists records,
    mapParsed ctx (JArr items) = Some records
    /\ List.length records = List.length items
    /\ (forall i item, nth_error items i = Some item ->
          exists r, nth_error records i = Some r
                    /\ mapItem ctx item i = Some r)
    /\ (forall JSON_parse rawContent,
          JSON_parse (jsonString rawContent) = Some (JArr items) ->
          normalizeText JSON_parse ctx rawContent = records).
Proof.
  intros H. destruct (map_from_elementwise ctx items 0 H) as (records & Hm & Hl & Hn).
  exists records. simpl. repeat split; auto.
  intros JSON_parse rawContent Hp. unfold normalizeText, parseText.
  rewrite Hp. simpl. now rewrite Hm.
Qed.

Lemma mapParsed_elementwise_witness :
  forallb mappable
    [Sample.good_item; JNum (Finite 7 0); JStr "oops"; JObj [("quantity", JArr [])]]
  = true
  /\ exists records,
      mapParsed Sample.ctx
        (JArr [Sample.good_item; JNum (Finite 7 0); JStr "oops";
               JObj [("quantity", JArr [])]]) = Some records
      /\ List.length records
         = List.length [Sample.good_item; JNum (Finite 7 0); JStr "oops";
                        JObj [("quantity", JArr [])]]
      /\ (forall i item,
            nth_error [Sample.good_item; JNum (Finite 7 0); JStr "oops";
                       JObj [("quantity", JArr [])]] i = Some item ->
            exists r, nth_error records i = Some r
                      /\ mapItem Sample.ctx item i = Some r)
      /\ (forall JSON_parse rawContent,
            JSON_parse (jsonString rawContent)
            = Some (JArr [Sample.good_item; JNum (Finite 7 0); JStr "oops";
                          JObj [("quantity", JArr [])]]) ->
            normalizeText JSON_parse Sample.ctx rawContent = records).
Proof.
  split; [reflexivity|].
  apply (mapParsed_elementwise Sample.ctx
           [Sample.good_item; JNum (Finite 7 0); JStr "oops";
            JObj [("quantity", JArr [])]]).
  reflexivity.
Defined.

(** [C5], the claim as stated fails: an array that parsed, with one good
    element and one [null], yields the single fallback record; the good
    element, which maps on its own, is lost with it. *)
Lemma batch_with_null_is_replaced :
  JSON_parse_ref (jsonString Sample.batch_with_null)
  = Some (JArr [JObj [("vendor_name", JStr "Acme Apparel");
                      ("customer_name", JStr "Beta Stores");
                      ("style_number", JStr "ABC-123");
                      ("quantity", JNum (Finite 24 0))];
                JNull])
  /\ option_map needs_review
       (mapItem Sample.ctx
          (JObj [("vendor_name", JStr "Acme Apparel");
                 ("customer_name", JStr "Beta Stores");
                 ("style_number", JStr "ABC-123");
                 ("quantity", JNum (Finite 24 0))]) 0) = Some false
  /\ mapItem Sample.ctx JNull 1 = None
  /\ normalizeText JSON_parse_ref Sample.ctx Sample.batch_with_null
     = [fallback Sample.ctx].
Proof. repeat split; vm_compute; reflexivity. Qed.

(** ** The review flag (lines 226-230) *)


(** [C2]: the flag is set from the item as the model returned it, before the
    hints are applied: it is true exactly when the model's [needs_review] is
    truthy or one of the item's own [vendor_name], [customer_name],
    [style_number] is missing or falsy.  So it is true whenever the model
    declared it or a name is empty in the record. *)
Theorem needs_review_reads_raw_item ctx (item : jsval) (index : nat)
        (r : OrderLineItem) :
  mapItem ctx item index = Some r ->
  exists v c s nr,
    JS.get_field item "vendor_name" = Some v
    /\ JS.get_field item "customer_name" = Some c
    /\ JS.get_field item "style_number" = Some s
    /\ JS.get_field item "needs_review" = Some nr
    /\ needs_review r =
         JS.truthy nr || negb (JS.truthy v) || negb (JS.truthy c)
         || negb (JS.truthy s)
    /\ (Spec.needsReview nr r = true -> needs_review r = true).
Proof.
  intros H. apply mapItem_inv in H.
  destruct H as (v & c & s & q & text & e & nt & nr & Hv & Hc & Hs & _ & _ & _
                 & _ & Hnr & Ev & Ec & Es & _ & _ & _ & Eflag).
  exists v, c, s, nr. repeat split; auto.
  unfold Spec.needsReview. rewrite Eflag, Ev, Ec, Es. intros Hspec.
  destruct (JS.truthy nr); [reflexivity|]. simpl in *.
  destruct (JS.truthy v) eqn:Tv; [|reflexivity].
  destruct (JS.truthy c) eqn:Tc; [|reflexivity].
  destruct (JS.truthy s) eqn:Ts; [|reflexivity].
  unfold JS.or_else in Hspec. rewrite Tv, Tc, Ts in Hspec.
  rewrite Tv, Tc, Ts in Hspec. discriminate.
Qed.

Lemma needs_review_reads_raw_item_witness :
  option_map needs_review (mapItem Sample.hinted_ctx Sample.good_item 0)
  = Some false
  /\ exists r,
      mapItem Sample.hinted_ctx Sample.good_item 0 = Some r
      /\ exists v c s nr,
          JS.get_field Sample.good_item "vendor_name" = Some v
          /\ JS.get_field Sample.good_item "customer_name" = Some c
          /\ JS.get_field Sample.good_item "style_number" = Some s
          /\ JS.get_field Sample.good_item "needs_review" = Some nr
          /\ needs_review r =
               JS.truthy nr || negb (JS.truthy v) || negb (JS.truthy c)
               || negb (JS.truthy s)
          /\ (Spec.needsReview nr r = true -> needs_review r = true).
Proof.
  split; [vm_compute; reflexivity|].
  eexists. split; [vm_compute; reflexivity|].
  apply (needs_review_reads_raw_item Sample.hinted_ctx Sample.good_item 0).
  vm_compute; reflexivity.
Defined.

(** [C2], the claim as stated fails: the model left the vendor out and
    reported [needs_review: false], the caller's hint filled the vendor in,
    no name is empty after defaulting, and the record is flagged all the
    same, where the claim has it unflagged. *)
Lemma hint_filled_vendor_still_flagged :
  exists r,
    mapItem Sample.hinted_ctx Sample.no_vendor_item 0 = Some r
    /\ JS.get_field Sample.no_vendor_item "needs_review" = Some (JBool false)
    /\ vendor_name r = JStr "Acme Apparel"
    /\ customer_name r = JStr "Beta Stores"
    /\ style_number r = JStr "ABC-123"
    /\ Spec.needsReview (JBool false) r = false
    /\ needs_review r = true.
Proof. eexists. repeat split; vm_compute; reflexivity. Qed.

(** ** The date (line 222) *)

(** [C8]: the date is the item's [eta_date] unchanged whenever that value is
    truthy, whatever its form or type, and [null] otherwise; nothing checks
    that it is a date. *)
Theorem eta_date_is_raw_or_null ctx (item : jsval) (index : nat)
        (r : OrderLineItem) :
  mapItem ctx item index = Some r ->
  exists e,
    JS.get_field item "eta_date" = Some e
    /\ eta_date r = (if JS.truthy e then e else JNull)
    /\ (Spec.iso_or_absent e = true -> eta_date r = e).
Proof.
  intros H. apply mapItem_inv in H.
  destruct H as (v & c & s & q & text & e & nt & nr & _ & _ & _ & _ & _ & He
                 & _ & _ & _ & _ & _ & _ & Ee & _).
  exists e. split; [assumption|]. rewrite Ee. unfold JS.or_else.
  split; [reflexivity|]. intros Hiso.
  destruct e as [| |b|n|d|l|l|cl]; simpl in *; try discriminate; try reflexivity.
  destruct d; [discriminate|reflexivity].
Qed.

Lemma eta_date_is_raw_or_null_witness :
  option_map eta_date (mapItem Sample.ctx Sample.good_item 0)
  = Some (JStr "2024-05-01")
  /\ exists r,
      mapItem Sample.ctx Sample.good_item 0 = Some r
      /\ exists e,
          JS.get_field Sample.good_item "eta_date" = Some e
          /\ eta_date r = (if JS.truthy e then e else JNull)
          /\ (Spec.iso_or_absent e = true -> eta_date r = e).
Proof.
  split; [vm_compute; reflexivity|].
  eexists. split; [vm_compute; reflexivity|].
  apply (eta_date_is_raw_or_null Sample.ctx Sample.good_item 0).
  vm_compute; reflexivity.
Defined.

(** [C8], the claim as stated fails: a date the model did not normalize, and
    a value that is no string at all, are forwarded as they are. *)
Lemma unnormalized_date_is_forwarded :
  option_map eta_date
    (mapItem Sample.ctx (JObj [("eta_date", JStr "next Friday")]) 0)
  = Some (JStr "next Friday")
  /\ Spec.iso_or_absent (JStr "next Friday") = false
  /\ option_map eta_date
       (mapItem Sample.ctx (JObj [("eta_date", JStr "05/01/2024")]) 0)
     = Some (JStr "05/01/2024")
  /\ Spec.iso_or_absent (JStr "05/01/2024") = false
  /\ option_map eta_date
       (mapItem Sample.ctx (JObj [("eta_date", JNum (Finite 20240501 0))]) 0)
     = Some (JNum (Finite 20240501 0))
  /\ Spec.iso_or_absent (JNum (Finite 20240501 0)) = false.
Proof. repeat split; vm_compute; reflexivity. Qed.

(** ** The quantity (line 221) *)

Lemma take_drop_while (p : ascii -> bool) (s : string) :
  s = Str.take_while p s ++ Str.drop_while p s.
Proof.
  induction s as [|c s IH]; simpl; [reflexivity|].
  destruct (p c); simpl; [now rewrite <- IH | reflexivity].
Qed.

Lemma all_take_while (p : ascii -> bool) (s : string) :
  Str.all p (Str.take_while p s) = true.
Proof.
  induction s as [|c s IH]; simpl; [reflexivity|].
  destruct (p c) eqn:E; simpl; [now rewrite E | reflexivity].
Qed.

Lemma starts_with_drop_while (p : ascii -> bool) (s : string) :
  starts_with p (Str.drop_while p s) = false.
Proof.
  induction s as [|c s IH]; simpl; [reflexivity|].
  destruct (p c) eqn:E; simpl; assumption.
Qed.

Lemma digit_val_nonneg (c : ascii) :
  Str.is_digit c = true -> (0 <= Str.digit_val c <= 9)%Z.
Proof.
  unfold Str.is_digit, Str.digit_val. intros H.
  apply andb_true_iff in H. destruct H as [H1 H2].
  apply Nat.leb_le in H1, H2.
  remember (nat_of_ascii c) as n eqn:En. clear En. lia.
Qed.

Lemma digits_val_nonneg (ds : string) (acc : Z) :
  Str.all Str.is_digit ds = true -> (0 <= acc)%Z ->
  (0 <= Str.digits_val acc ds)%Z.
Proof.
  revert acc. induction ds as [|c ds IH]; intros acc H Hacc;
    cbn [Str.digits_val Str.all] in *; [assumption|].
  apply andb_true_iff in H. destruct H as [Hc Hds].
  apply IH; [assumption|]. pose proof (digit_val_nonneg c Hc).
  remember (Str.digit_val c) as d eqn:Ed. clear Ed. lia.
Qed.

Lemma number_or_zero_parseInt_text (text : string) :
  number_or_zero (JS.parseInt_text text)
  = JS.Number_of_Z (match JS.parseInt_mathInt text with
                    | Some z => z
                    | None => 0%Z
                    end).
Proof.
  unfold JS.parseInt_text. destruct (JS.parseInt_mathInt text) as [z|].
  - apply number_or_zero_Number_of_Z.
  - reflexivity.
Qed.

(** The integer that [Number.parseInt(text, 10)] reads is the signed value
    of the digits that follow the leading white space and one optional
    sign. *)
Lemma parseInt_text_signed_digits (text : string) :
  exists sign ds rest,
    Str.drop_while Str.is_space text = sign ++ ds ++ rest
    /\ (sign = "-" \/ sign = "+"
        \/ (sign = ""
            /\ starts_with is_sign (Str.drop_while Str.is_space text) = false))
    /\ Str.all Str.is_digit ds = true
    /\ starts_with Str.is_digit rest = false
    /\ number_or_zero (JS.parseInt_text text)
       = JS.Number_of_Z
           (if (sign =? "-")%string then - Str.digits_val 0 ds
            else Str.digits_val 0 ds)%Z.
Proof.
  rewrite number_or_zero_parseInt_text. unfold JS.parseInt_mathInt.
  set (body := Str.drop_while Str.is_space text).
  assert (Hfin : forall (negative : bool) (s' : string),
    JS.Number_of_Z
      (match (if Str.take_while Str.is_digit s' =? "" then None
              else Some (if negative
                         then (- Str.digits_val 0 (Str.take_while Str.is_digit s'))%Z
                         else Str.digits_val 0 (Str.take_while Str.is_digit s')))
       with
       | Some z => z
       | None => 0%Z
       end)
    = JS.Number_of_Z
        (if negative then - Str.digits_val 0 (Str.take_while Str.is_digit s')
         else Str.digits_val 0 (Str.take_while Str.is_digit s'))%Z).
  { intros negative s'.
    destruct (String.eqb_spec (Str.take_while Str.is_digit s') "") as [->|_].
    - destruct negative; reflexivity.
    - reflexivity. }
  destruct body as [|c r] eqn:Eb.
  - exists "", "", "". simpl. repeat split; auto.
  - destruct (Ascii.eqb c "-") eqn:Em; [|destruct (Ascii.eqb c "+") eqn:Ep].
    + apply Ascii.eqb_eq in Em; subst c.
      exists "-", (Str.take_while Str.is_digit r), (Str.drop_while Str.is_digit r).
      split; [simpl; f_equal; apply take_drop_while|].
      split; [auto|]. split; [apply all_take_while|].
      split; [apply starts_with_drop_while|]. apply (Hfin true).
    + apply Ascii.eqb_eq in Ep; subst c.
      exists "+", (Str.take_while Str.is_digit r), (Str.drop_while Str.is_digit r).
      split; [simpl; f_equal; apply take_drop_while|].
      split; [auto|]. split; [apply all_take_while|].
      split; [apply starts_with_drop_while|]. apply (Hfin false).
    + exists "", (Str.take_while Str.is_digit (String c r)),
        (Str.drop_while Str.is_digit (String c r)).
      split; [apply take_drop_while|].
      split; [right; right; split; [reflexivity|];
              unfold starts_with, is_sign; now rewrite Em, Ep|].
      split; [apply all_take_while|].
      split; [apply starts_with_drop_while|]. apply (Hfin false).
Qed.

(** [C6]: the quantity keeps its sign and is the Number value of an
    integer: of the value of the decimal digits that follow the leading
    white space and one optional sign in the string form of the item's
    [quantity], negated after a minus sign, and of 0 when no digit stands
    there.  Up to [2^53] in magnitude it is that integer; beyond, it is the
    binary64 within half a unit of its last bit; from [2^1024] on it is an
    infinity. *)
Theorem quantity_is_signed_leading_integer ctx (item : jsval) (index : nat)
        (r : OrderLineItem) :
  mapItem ctx item index = Some r ->
  exists raw text sign ds rest value,
    JS.get_field item "quantity" = Some raw
    /\ JS.to_string raw = Some text
    /\ Str.drop_while Str.is_space text = sign ++ ds ++ rest
    /\ (sign = "-" \/ sign = "+"
        \/ (sign = ""
            /\ starts_with is_sign (Str.drop_while Str.is_space text) = false))
    /\ Str.all Str.is_digit ds = true
    /\ starts_with Str.is_digit rest = false
    /\ (0 <= Str.digits_val 0 ds)%Z
    /\ value
       = (if (sign =? "-")%string then - Str.digits_val 0 ds else Str.digits_val 0 ds)%Z
    /\ quantity r = JS.Number_of_Z value
    /\ ((Z.abs value <= 2 ^ 53)%Z -> quantity r = Finite value 0)
    /\ ((2 ^ 53 < Z.abs value)%Z ->
        quantity r = Infinite (value <? 0)%Z
        \/ exists m e,
            quantity r = Finite (m * 2 ^ e) 0
            /\ (1 <= e)%Z /\ (2 ^ 52 <= Z.abs m <= 2 ^ 53)%Z
            /\ (2 * Z.abs (value - m * 2 ^ e) <= 2 ^ e)%Z
            /\ ((m <? 0) = (value <? 0))%Z)
    /\ ((2 ^ 1024 <= Z.abs value)%Z -> quantity r = Infinite (value <? 0)%Z).
Proof.
  intros H. apply mapItem_inv in H.
  destruct H as (v & c & s & q & text & e & nt & nr & _ & _ & _ & Hq & Ht & _
                 & _ & _ & _ & _ & _ & Equ & _).
  destruct (parseInt_text_signed_digits text)
    as (sign & ds & rest & H1 & H2 & H3 & H4 & H5).
  exists q, text, sign, ds, rest. eexists.
  do 6 (split; [eassumption|]).
  split; [apply digits_val_nonneg; [assumption | lia]|].
  split; [reflexivity|]. rewrite Equ, H5.
  split; [reflexivity|].
  split; [apply Number_of_Z_exact|].
  split; [apply Number_of_Z_rounded | apply Number_of_Z_huge].
Qed.

Lemma quantity_is_signed_leading_integer_witness :
  option_map quantity
    (mapItem Sample.ctx (JObj [("quantity", JStr "  12 pcs")]) 0)
  = Some (Finite 12 0)
  /\ exists r,
      mapItem Sample.ctx (JObj [("quantity", JStr "  12 pcs")]) 0 = Some r
      /\ exists raw text sign ds rest value,
          JS.get_field (JObj [("quantity", JStr "  12 pcs")]) "quantity" = Some raw
          /\ JS.to_string raw = Some text
          /\ Str.drop_while Str.is_space text = sign ++ ds ++ rest
          /\ (sign = "-" \/ sign = "+"
              \/ (sign = ""
                  /\ starts_with is_sign (Str.drop_while Str.is_space text)
                     = false))
          /\ Str.all Str.is_digit ds = true
          /\ starts_with Str.is_digit rest = false
          /\ (0 <= Str.digits_val 0 ds)%Z
          /\ value
             = (if (sign =? "-")%string then - Str.digits_val 0 ds
                else Str.digits_val 0 ds)%Z
          /\ quantity r = JS.Number_of_Z value
          /\ ((Z.abs value <= 2 ^ 53)%Z -> quantity r = Finite value 0)
          /\ ((2 ^ 53 < Z.abs value)%Z ->
              quantity r = Infinite (value <? 0)%Z
              \/ exists m e,
                  quantity r = Finite (m * 2 ^ e) 0
                  /\ (1 <= e)%Z /\ (2 ^ 52 <= Z.abs m <= 2 ^ 53)%Z
                  /\ (2 * Z.abs (value - m * 2 ^ e) <= 2 ^ e)%Z
                  /\ ((m <? 0) = (value <? 0))%Z)
          /\ ((2 ^ 1024 <= Z.abs value)%Z -> quantity r = Infinite (value <? 0)%Z).
Proof.
  split; [vm_compute; reflexivity|].
  eexists. split; [vm_compute; reflexivity|].
  apply (quantity_is_signed_leading_integer Sample.ctx
           (JObj [("quantity", JStr "  12 pcs")]) 0).
  vm_compute; reflexivity.
Defined.

(** The quantities the specification names, and a few more. *)
Lemma quantity_samples :
  let quantity_of q :=
    option_map quantity (mapItem Sample.ctx (JObj [("quantity", q)]) 0) in
  quantity_of (JStr "12 pcs") = Some (Finite 12 0)
  /\ quantity_of (JStr "") = Some (Finite 0 0)
  /\ quantity_of (JStr "twelve") = Some (Finite 0 0)
  /\ quantity_of (JNum (Finite 24 0)) = Some (Finite 24 0)
  /\ quantity_of (JNum (Finite 125 (-1))) = Some (Finite 12 0)
  /\ quantity_of (JNum (Finite 1 21)) = Some (Finite 1 0)
  /\ quantity_of (JNum (Finite 9007199254740993 0))
     = Some (Finite 9007199254740992 0)
  /\ quantity_of (JStr "9007199254740993 pcs")
     = Some (Finite 9007199254740992 0)
  /\ quantity_of (JNum (Finite 999999999999999999999 0)) = Some (Finite 1 0)
  /\ quantity_of JNull = Some (Finite 0 0)
  /\ quantity_of (JArr [JNum (Finite 6 0)]) = Some (Finite 6 0)
  /\ option_map quantity (mapItem Sample.ctx (JObj []) 0) = Some (Finite 0 0).
Proof. repeat apply conj; vm_compute; reflexivity. Qed.

(** [C6], the claim as stated fails: a quantity with a minus sign, as a
    string or as a number, comes out negative, and a run of 400 digits
    comes out as Infinity, which is no integer. *)
Lemma negative_quantity_is_kept :
  option_map quantity
    (mapItem Sample.ctx (JObj [("quantity", JStr "-5")]) 0)
  = Some (Finite (-5) 0)
  /\ option_map quantity
       (mapItem Sample.ctx (JObj [("quantity", JNum (Finite (-5) 0))]) 0)
     = Some (Finite (-5) 0)
  /\ (-5 <? 0)%Z = true
  /\ option_map quantity
       (mapItem Sample.ctx (JObj [("quantity", JStr (Str.repeat "9" 400))]) 0)
     = Some (Infinite false).
Proof. repeat apply conj; vm_compute; reflexivity. Qed.

(** ** Text extraction (lines 127-140) *)

(* The budget is a large unary number: the proofs never unfold it. *)
Opaque MAX_TEXT_CHARS.

Lemma seq_sorted (a n : nat) : StronglySorted lt (seq a n).
Proof.
  revert a. induction n as [|n IH]; intros a; simpl; constructor.
  - apply IH.
  - apply Forall_forall. intros x Hx. apply in_seq in Hx. lia.
Qed.

(** The loop invariant: what the loop returns is the text it was given
    followed by the segments of the next [k] pages, in page order; it
    visited exactly those pages, each of which was read, each while the
    text was within budget, and it left pages out only because the budget
    was passed. *)
Lemma page_loop_returns (rest : list (outcome (list TextItem))) :
  forall (i : nat) (fullText : string) (visited visited' : list nat)
         (result : string),
    (String.length fullText <= MAX_TEXT_CHARS)%nat ->
    Pdf.page_loop i rest fullText visited = (visited', Returns result) ->
    exists k,
      (k <= List.length rest)%nat
      /\ visited' = (visited ++ seq i k)%list
      /\ result = fullText ++ Pdf.accumulated_from i rest k
      /\ (forall j, (j < k)%nat ->
            (String.length (fullText ++ Pdf.accumulated_from i rest j)
             <= MAX_TEXT_CHARS)%nat)
      /\ ((k < List.length rest)%nat ->
          (MAX_TEXT_CHARS < String.length result)%nat)
      /\ exists read, firstn k rest = map Returns read.
Proof.
  induction rest as [|page rest IH]; intros i fullText visited visited' result
    Hlen H.
  - simpl in H. inversion H; subst. exists 0%nat. simpl.
    rewrite app_nil_r, append_nil_r.
    repeat split; auto; try (intros; lia). now exists [].
  - cbn [Pdf.page_loop] in H. destruct page as [items|message]; [|discriminate].
    destruct (MAX_TEXT_CHARS <? String.length (fullText ++ Pdf.segment i items))%nat
      eqn:Eover.
    + inversion H; subst. exists 1%nat. cbn [Pdf.accumulated_from seq List.length].
      rewrite append_nil_r. apply Nat.ltb_lt in Eover.
      repeat split; auto; try lia.
      * intros j Hj. assert (j = 0)%nat by lia. subst j.
        cbn [Pdf.accumulated_from]. now rewrite append_nil_r.
      * now exists [items].
    + apply Nat.ltb_ge in Eover.
      destruct (IH (S i) _ _ _ _ Eover H)
        as (k & Hk & Hv & Hr & Hj & Hstop & read & Hread).
      exists (S k). cbn [Pdf.accumulated_from seq List.length].
      split; [lia|]. split; [now rewrite Hv, <- app_assoc|].
      split; [now rewrite Hr, append_assoc|].
      split; [|split].
      * intros [|j] Hlt; cbn [Pdf.accumulated_from].
        -- now rewrite append_nil_r.
        -- rewrite <- append_assoc. apply Hj. lia.
      * intros Hlt. apply Hstop. lia.
      * exists (items :: read). cbn [firstn map]. now rewrite Hread.
Qed.

(** What the loop adds for a page is the marker of the page and the text
    of the page, so the text of pages that were read is their texts, each
    behind its marker, in page order. *)
Lemma accumulated_from_marked (rest : list (outcome (list TextItem))) :
  forall (i k : nat) (read : list (list TextItem)),
    firstn k rest = map Returns read ->
    Pdf.accumulated_from i rest k = marked_pages i (map Pdf.pageText read).
Proof.
  induction rest as [|page rest IH]; intros i k read H.
  - rewrite firstn_nil in H. destruct read; [|discriminate].
    destruct k; reflexivity.
  - destruct k as [|k]; cbn [firstn] in H.
    + destruct read; [reflexivity | discriminate].
    + destruct read as [|items read]; [discriminate|].
      cbn [map] in H. inversion H; subst page.
      cbn [Pdf.accumulated_from map marked_pages].
      rewrite (IH (S i) k read) by assumption.
      unfold Pdf.segment, page_marker, Pdf.newline.
      cbn [String.append]. rewrite !append_assoc. reflexivity.
Qed.

(** [C7]: the text of a PDF never exceeds the budget of 15,000 code units.
    It is the budget-long prefix of the texts of the visited pages, each
    behind the marker [--- Page i ---] of its page, the markers numbered
    1, 2, 3 and so on in strictly increasing order.  The loop stops early:
    a page is visited only while the text accumulated from the pages
    before it is within budget, and pages are left out only once the
    budget is passed. *)
Theorem extract_text_within_budget (pdf : PdfDocument) (visited : list nat)
        (fullText : string) :
  Pdf.extract_text pdf = (visited, Returns fullText) ->
  (String.length fullText <= MAX_TEXT_CHARS)%nat
  /\ visited = seq 1 (List.length visited)
  /\ StronglySorted lt visited
  /\ (List.length visited <= Pdf.numPages pdf)%nat
  /\ fullText
     = Str.take MAX_TEXT_CHARS (Pdf.accumulated pdf (List.length visited))
  /\ (exists read,
        firstn (List.length visited) (pages pdf) = map Returns read
        /\ fullText
           = Str.take MAX_TEXT_CHARS (marked_pages 1 (map Pdf.pageText read)))
  /\ (forall k, (k < List.length visited)%nat ->
        (String.length (Pdf.accumulated pdf k) <= MAX_TEXT_CHARS)%nat)
  /\ ((List.length visited < Pdf.numPages pdf)%nat ->
      (MAX_TEXT_CHARS
       < String.length (Pdf.accumulated pdf (List.length visited)))%nat).
Proof.
  unfold Pdf.extract_text, Pdf.accumulated, Pdf.numPages. intros H.
  destruct (Pdf.page_loop 1 (pages pdf) "" []) as [visited' [result|message]] eqn:E;
    [|discriminate].
  inversion H; subst visited fullText; clear H.
  destruct (page_loop_returns (pages pdf) 1 "" [] visited' result
              (Nat.le_0_l _) E) as (k & Hk & Hv & Hr & Hj & Hstop & read & Hread).
  cbn [app String.append] in Hv, Hr, Hj. subst visited' result.
  rewrite length_seq.
  assert (Hcut : (if (MAX_TEXT_CHARS <? String.length (Pdf.accumulated_from 1 (pages pdf) k))%nat
                  then Str.take MAX_TEXT_CHARS (Pdf.accumulated_from 1 (pages pdf) k)
                  else Pdf.accumulated_from 1 (pages pdf) k)
                 = Str.take MAX_TEXT_CHARS (Pdf.accumulated_from 1 (pages pdf) k)).
  { destruct (MAX_TEXT_CHARS <? _)%nat eqn:Eover; [reflexivity|].
    apply Nat.ltb_ge in Eover. symmetry. now apply take_all. }
  rewrite Hcut.
  split; [apply length_take|].
  split; [reflexivity|]. split; [apply seq_sorted|]. split; [assumption|].
  split; [reflexivity|].
  split; [|split; assumption].
  exists read. split; [assumption|].
  now rewrite (accumulated_from_marked (pages pdf) 1 k read Hread).
Qed.

Lemma extract_text_within_budget_witness :
  Pdf.extract_text Sample.long_pdf
  = ([1; 2]%nat, Returns (Str.take MAX_TEXT_CHARS (Pdf.accumulated Sample.long_pdf 2)))
  /\ (String.length (Str.take MAX_TEXT_CHARS (Pdf.accumulated Sample.long_pdf 2))
      <= MAX_TEXT_CHARS)%nat
  /\ [1; 2]%nat = seq 1 (List.length [1; 2]%nat)
  /\ StronglySorted lt [1; 2]%nat
  /\ (List.length [1; 2]%nat <= Pdf.numPages Sample.long_pdf)%nat
  /\ Str.take MAX_TEXT_CHARS (Pdf.accumulated Sample.long_pdf 2)
     = Str.take MAX_TEXT_CHARS
         (Pdf.accumulated Sample.long_pdf (List.length [1; 2]%nat))
  /\ (exists read,
        firstn (List.length [1; 2]%nat) (pages Sample.long_pdf) = map Returns read
        /\ Str.take MAX_TEXT_CHARS (Pdf.accumulated Sample.long_pdf 2)
           = Str.take MAX_TEXT_CHARS (marked_pages 1 (map Pdf.pageText read)))
  /\ (forall k, (k < List.length [1; 2]%nat)%nat ->
        (String.length (Pdf.accumulated Sample.long_pdf k) <= MAX_TEXT_CHARS)%nat)
  /\ ((List.length [1; 2]%nat < Pdf.numPages Sample.long_pdf)%nat ->
      (MAX_TEXT_CHARS
       < String.length
           (Pdf.accumulated Sample.long_pdf (List.length [1; 2]%nat)))%nat).
Proof.
  split; [vm_compute; reflexivity|].
  apply (extract_text_within_budget Sample.long_pdf [1; 2]%nat).
  vm_compute; reflexivity.
Defined.

(** The text of a short document, markers included. *)
Lemma extract_text_short :
  Pdf.extract_text Sample.short_pdf
  = ([1%nat],
     Returns (Pdf.newline ++ Pdf.newline ++ "--- Page 1 ---" ++ Pdf.newline
              ++ "Style: ABC-123, Qty: 24, ETA: 2024-05-01"))
  /\ Pdf.extract_text {| pages := [Returns [{| str := Some "a"; text := None |}];
                                   Returns [];
                                   Returns [{| str := None; text := Some "c" |}]] |}
     = ([1; 2; 3]%nat,
        Returns (page_marker 1 ++ "a" ++ page_marker 2 ++ page_marker 3 ++ "c")).
Proof. split; vm_compute; reflexivity. Qed.

(** ** The main endpoint *)

Ltac atomic x :=
  lazymatch x with
  | context [match _ with _ => _ end] => fail
  | _ => idtac
  end.

(** Case analysis on every call of a handler, innermost first. *)
Ltac step_cases :=
  repeat match goal with
         | |- context [match ?x with _ => _ end] =>
             atomic x; destruct x eqn:?; cbn beta iota zeta
         end.

Ltac unfold_steps :=
  unfold serve, serve_try, prepare, Handler.run, Handler.bind, Handler.await,
    Handler.internal_error, Handler.respond, Handler.emit, Handler.ret.

(** Case analysis on where an event stands in a log. *)
Ltac log_cases :=
  repeat match goal with
         | H : In _ (_ ++ _) |- _ => apply in_app_or in H; destruct H
         | H : In _ (map _ _) |- _ =>
             apply in_map_iff in H; destruct H as (? & ? & ?)
         | H : In _ (_ :: _) |- _ => destruct H
         | H : In _ [] |- _ => destruct H
         | H : @eq Event _ _ |- _ =>
             first [discriminate H | inversion H; clear H; subst]
         end.













(** A reply that is no JSON object, a completion that is no string, and a
    completion whose array does not parse all end in the fallback record,
    inside a response with status 200. *)
Lemma extractedData_degrades :
  extractedData JSON_parse_ref Sample.ctx JNull = [fallback Sample.ctx]
  /\ extractedData JSON_parse_ref Sample.ctx
       (JObj [("choices",
               JArr [JObj [("message", JObj [("content", JNum (Finite 5 0))])]])])
     = [fallback Sample.ctx]
  /\ extractedData JSON_parse_ref Sample.ctx
       (JObj [("choices",
               JArr [JObj [("message", JObj [("content", JStr "[1, 2")])]])])
     = []
  /\ extractedData JSON_parse_ref Sample.ctx
       (JObj [("choices",
               JArr [JObj [("message", JObj [("content", JStr "[1, 2,]")])]])])
     = [fallback Sample.ctx]
  /\ extractedData JSON_parse_ref Sample.ctx (JObj [("choices", JArr [])]) = [].
Proof. repeat split; vm_compute; reflexivity. Qed.

Lemma defaulted_text_defined (v : jsval) :
  defaulted_text v -> v <> JUndef /\ v <> JNull.
Proof. intros [H|H]; split; intros ->; discriminate. Qed.

Lemma defaulted_date_defined (v : jsval) : defaulted_date v -> v <> JUndef.
Proof. intros [H|H]; intros ->; discriminate. Qed.

(** The text of a PDF reaches the prompt as the extraction returned it. *)
Lemma extract_text_length (pdf : PdfDocument) (visited : list nat)
      (fullText : string) :
  Pdf.extract_text pdf = (visited, Returns fullText) ->
  (String.length fullText <= MAX_TEXT_CHARS)%nat.
Proof.
  unfold Pdf.extract_text.
  destruct (Pdf.page_loop 1 (pages pdf) "" []) as [v [result|message]];
    [|discriminate].
  intros H; inversion H; subst.
  destruct (MAX_TEXT_CHARS <? String.length result)%nat eqn:E.
  - apply length_take.
  - now apply Nat.ltb_ge in E.
Qed.

Lemma prepare_pdf_text PROMPT (w : World) (file : File) (vendor customer : jsval)
      (log : list Event) (content : list ContentPart) :
  file_type file = "application/pdf" ->
  prepare PROMPT w file vendor customer = (log, inr content) ->
  exists bytes pdf visited fullText,
    arrayBuffer file = Returns bytes
    /\ getDocument w bytes = Returns pdf
    /\ Pdf.extract_text pdf = (visited, Returns fullText)
    /\ (String.length fullText <= MAX_TEXT_CHARS)%nat
    /\ log = map EvPage visited
    /\ content = pdf_content PROMPT vendor customer fullText.
Proof.
  intros Htype. unfold prepare. rewrite Htype, String.eqb_refl.
  unfold Handler.bind, Handler.await, Handler.internal_error, Handler.respond,
    Handler.ret.
  destruct (arrayBuffer file) as [bytes|] eqn:Eb; [|discriminate].
  destruct (import_pdfjs w); [|discriminate].
  destruct (getDocument w bytes) as [pdf|] eqn:Ed; [|discriminate].
  destruct (Pdf.extract_text pdf) as [visited [fullText|message]] eqn:E;
    cbn; intros H; inversion H; subst.
  exists bytes, pdf, visited, fullText.
  split; [reflexivity|]. split; [assumption|]. split; [assumption|].
  split; [now apply (extract_text_length pdf visited)|].
  split; [now rewrite app_nil_r | reflexivity].
Qed.

(** ** The missing file (lines 62-87) *)

(** Whatever the deployment, a form without the file field leads to no
    call to the storage or to the model. *)
Lemma missing_file_no_outbound_call JSON_parse PROMPT (w : World)
      (req : Request) (form : FormData) :
  formData req = Returns form -> form_file form = FormAbsent ->
  existsb outbound (snd (serve JSON_parse PROMPT w req)) = false.
Proof.
  intros Hform Hfile. unfold_steps. rewrite Hform.
  destruct (method req =? "OPTIONS"); [reflexivity|].
  destruct (createClient w _ _); [|reflexivity].
  destruct (or_empty (OPENAI_API_KEY w) =? ""); [reflexivity|].
  cbn. rewrite Hfile. reflexivity.
Qed.

(** [C9]: on a deployment whose storage client is built and whose OpenAI
    API key is set, a request that is not a preflight and whose form lacks
    the file field is answered with status 400 and the error body
    [No file provided]; the only call made is the reading of the form, so
    neither the upload nor the inference call is attempted. *)
Theorem missing_file_is_rejected JSON_parse PROMPT (w : World) (req : Request)
        (form : FormData) :
  method req <> "OPTIONS" ->
  createClient w (or_empty (SUPABASE_URL w))
                 (or_empty (SUPABASE_SERVICE_ROLE_KEY w)) = Returns tt ->
  or_empty (OPENAI_API_KEY w) <> "" ->
  formData req = Returns form ->
  form_file form = FormAbsent ->
  serve JSON_parse PROMPT w req
  = ({| status := 400; body := ErrorBody "No file provided" None |},
     [EvFormData (Returns form)])
  /\ existsb outbound (snd (serve JSON_parse PROMPT w req)) = false.
Proof.
  intros Hmethod Hclient Hkey Hform Hfile.
  split; [|now apply (missing_file_no_outbound_call _ _ _ _ form)].
  unfold_steps.
  apply String.eqb_neq in Hmethod, Hkey. rewrite Hmethod, Hclient, Hkey, Hform.
  cbn. rewrite Hfile. reflexivity.
Qed.

Lemma missing_file_is_rejected_witness :
  serve JSON_parse_ref "PROMPT" Sample.world Sample.request_without_file
  = ({| status := 400; body := ErrorBody "No file provided" None |},
     [EvFormData (Returns (Sample.form FormAbsent))])
  /\ existsb outbound
       (snd (serve JSON_parse_ref "PROMPT" Sample.world
               Sample.request_without_file)) = false.
Proof.
  apply (missing_file_is_rejected JSON_parse_ref "PROMPT" Sample.world
           Sample.request_without_file (Sample.form FormAbsent));
    try reflexivity; vm_compute; discriminate.
Defined.

(** [C9], the claim as stated fails: the API key is looked up before the
    form is read, so on a deployment without the key the same request, whose
    form lacks the file field, is answered with status 500. *)
Lemma missing_file_without_api_key :
  formData Sample.request_without_file = Returns (Sample.form FormAbsent)
  /\ form_file (Sample.form FormAbsent) = FormAbsent
  /\ serve JSON_parse_ref "PROMPT" Sample.unconfigured_world
       Sample.request_without_file
     = ({| status := 500;
           body := ErrorBody "OpenAI API key not configured" None |}, []).
Proof. repeat split; vm_compute; reflexivity. Qed.

(** ** The alternate ingestion path *)

(** [C10]: for a request that is not a preflight and whose [fileUrl] is
    present, when the remote fetch returns a response that is not ok the
    answer is status 400 with the error body [Could not fetch fileUrl],
    and the fetch is the only call made; and status 500 is answered
    exactly when the fetch, the reading of its body or the PDF parser
    threw. *)
Theorem unfetchable_file_is_400 (w : TextWorld) (req : TextRequest) :
  (forall r : FetchResponse,
      text_method req <> "OPTIONS" ->
      JS.truthy (TextHandler.fileUrl req) = true ->
      remote_fetch w (TextHandler.fileUrl req) = Returns r ->
      fetch_ok r = false ->
      TextHandler.handler w req
      = ({| status := 400; body := ErrorBody "Could not fetch fileUrl" None |},
         [EvFetch (TextHandler.fileUrl req) (Returns r)]))
  /\ (status (fst (TextHandler.handler w req)) = 500%nat
      <-> existsb threw (snd (TextHandler.handler w req)) = true)
  /\ (status (fst (TextHandler.handler w req)) = 500%nat
      <-> text_method req <> "OPTIONS"
          /\ JS.truthy (TextHandler.fileUrl req) = true
          /\ ((exists message,
                  remote_fetch w (TextHandler.fileUrl req) = Throws message)
              \/ exists r,
                  remote_fetch w (TextHandler.fileUrl req) = Returns r
                  /\ fetch_ok r = true
                  /\ ((exists message, fetch_arrayBuffer r = Throws message)
                      \/ exists buf message,
                          fetch_arrayBuffer r = Returns buf
                          /\ pdf_parse w buf = Throws message))).
Proof.
  unfold TextHandler.handler, TextHandler.parser_failed.
  split; [|split].
  - intros r Hmethod Hurl Hfetch Hok.
    apply String.eqb_neq in Hmethod. rewrite Hmethod, Hurl, Hfetch, Hok.
    reflexivity.
  - step_cases; cbn [fst snd status existsb threw orb]; split; intros H;
      try discriminate; try reflexivity.
  - destruct (String.eqb_spec (text_method req) "OPTIONS") as [Hm|Hm].
    { cbn [fst status]. split; [discriminate | intros [H _]; contradiction]. }
    destruct (JS.truthy (TextHandler.fileUrl req)) eqn:Hurl; cbn [negb].
    2: { cbn [fst status]. split; [discriminate | intros (_ & H & _); discriminate]. }
    destruct (remote_fetch w (TextHandler.fileUrl req)) as [r|message] eqn:Hfetch.
    2: { cbn [fst status]. split; [|reflexivity]. intros _.
         split; [assumption|]. split; [reflexivity|]. left. now exists message. }
    destruct (fetch_ok r) eqn:Hok; cbn [negb].
    2: { cbn [fst status]. split; [discriminate|].
         intros (_ & _ & [[message H]|(r' & H & Hok' & _)]); [discriminate|].
         inversion H; subst r'. congruence. }
    destruct (fetch_arrayBuffer r) as [buf|message] eqn:Hbuf.
    2: { cbn [fst status]. split; [|reflexivity]. intros _.
         split; [assumption|]. split; [reflexivity|]. right. exists r.
         split; [reflexivity|]. split; [assumption|]. left. now exists message. }
    destruct (pdf_parse w buf) as [text|message] eqn:Hpdf; cbn [fst status].
    + split; [discriminate|].
      intros (_ & _ & [[message H]|(r' & H & _ & [[message H']|(buf' & message & H' & H'')])]);
        try discriminate; inversion H; subst r'; congruence.
    + split; [|reflexivity]. intros _.
      split; [assumption|]. split; [reflexivity|]. right. exists r.
      split; [reflexivity|]. split; [assumption|]. right. now exists buf, message.
Qed.

Lemma unfetchable_file_is_400_witness :
  TextHandler.handler Sample.text_world Sample.text_request
  = ({| status := 400; body := ErrorBody "Could not fetch fileUrl" None |},
     [EvFetch (TextHandler.fileUrl Sample.text_request)
        (Returns Sample.not_found)]).
Proof.
  apply (proj1 (unfetchable_file_is_400 Sample.text_world Sample.text_request)
           Sample.not_found).
  - discriminate.
  - reflexivity.
  - reflexivity.
  - reflexivity.
Defined.

(** [C10], the claim as stated fails: a preflight is answered before the
    body is looked at, so a request with the method OPTIONS, whose
    [fileUrl] is present and cannot be fetched, gets status 204 and no
    error body, and nothing is fetched. *)
Lemma preflight_with_unfetchable_file :
  text_method Sample.text_preflight = "OPTIONS"
  /\ JS.truthy (TextHandler.fileUrl Sample.text_preflight) = true
  /\ remote_fetch Sample.text_world (TextHandler.fileUrl Sample.text_preflight)
     = Returns Sample.not_found
  /\ fetch_ok Sample.not_found = false
  /\ TextHandler.handler Sample.text_world Sample.text_preflight
     = ({| status := 204; body := NoBody |}, []).
Proof. repeat split. Qed.

(** ** The definitions at work *)

Example to_string_samples :
  JS.to_string (JNum (Finite 24 0)) = Some "24"
  /\ JS.to_string (JNum (Finite (-125) (-1))) = Some "-12.5"
  /\ JS.to_string (JNum (Finite 1 (-1))) = Some "0.1"
  /\ JS.to_string (JNum (Finite 30000000000000004 (-17)))
     = Some "0.30000000000000004"
  /\ JS.to_string (JNum (Finite 1 21)) = Some "1e+21"
  /\ JS.to_string (JNum (Finite 15 (-8))) = Some "1.5e-7"
  /\ JS.to_string (JNum (Finite 1200 (-6))) = Some "0.0012"
  /\ JS.to_string (JNum (Finite 9007199254740993 0)) = Some "9007199254740992"
  /\ JS.to_string (JNum (Finite 999999999999999999999 0)) = Some "1e+21"
  /\ JS.to_string (JNum (Finite 1 400)) = Some "Infinity"
  /\ JS.to_string (JNum (Finite 1 (-400))) = Some "0"
  /\ JS.to_string (JNum (Finite 5 (-324))) = Some "5e-324"
  /\ JS.truthy (JNum (Finite 1 (-400))) = false
  /\ JS.to_string (JArr [JNum (Finite 12 0); JNull; JStr "x"]) = Some "12,,x"
  /\ JS.to_string (JObj [("toString", JNum (Finite 1 0))]) = None.
Proof. repeat apply conj; vm_compute; reflexivity. Qed.

(** The rounding: one tenth, the first integers past [2^53], the largest
    value, the decimal half way from it to [2^1024], the smallest normal
    and subnormal values and the decimal half way from zero; and the
    shortest digits of some values. *)
Example binary64_samples :
  Binary64.of_decimal 1 (-1) = Binary64.Dyadic 7205759403792794 (-56)
  /\ Binary64.of_decimal 9007199254740993 0 = Binary64.Dyadic (2 ^ 52) 1
  /\ Binary64.of_decimal 9007199254740995 0 = Binary64.Dyadic (2 ^ 52 + 2) 1
  /\ Binary64.of_decimal 17976931348623157 292
     = Binary64.Dyadic (2 ^ 53 - 1) 971
  /\ Binary64.of_decimal 179769313486231580793 288
     = Binary64.Dyadic (2 ^ 53 - 1) 971
  /\ Binary64.of_decimal 17976931348623159 292 = Binary64.Inf false
  /\ Binary64.of_decimal (-2) 308 = Binary64.Inf true
  /\ Binary64.of_decimal 22250738585072014 (-324)
     = Binary64.Dyadic (2 ^ 52) (-1074)
  /\ Binary64.of_decimal 24703282292062328 (-340) = Binary64.Dyadic 1 (-1074)
  /\ Binary64.of_decimal 24703282292062327 (-340) = Binary64.Dyadic 0 (-1074)
  /\ JS.to_string (JNum (Finite 9007199254740995 0)) = Some "9007199254740996"
  /\ JS.to_string (JNum (Finite 1152921504606846976 0))
     = Some "1152921504606847000"
  /\ JS.to_string (JNum (Finite 123456789012345680000 0))
     = Some "123456789012345680000"
  /\ JS.to_string (JNum (Finite 29999999999999996 (-16)))
     = Some "2.9999999999999996".
Proof. repeat apply conj; vm_compute; reflexivity. Qed.

Example parseInt_samples :
  JS.parseInt_text "12 pcs" = Finite 12 0
  /\ JS.parseInt_text "  -5" = Finite (-5) 0
  /\ JS.parseInt_text "" = NaN
  /\ JS.parseInt_text "pcs 12" = NaN
  /\ JS.parseInt_text "+7.9" = Finite 7 0
  /\ JS.parseInt_text "9007199254740993" = Finite 9007199254740992 0
  /\ JS.parseInt_text "9007199254740995" = Finite 9007199254740996 0
  /\ JS.parseInt_text (Str.repeat "9" 309) = Infinite false
  /\ JS.parseInt_text ("-" ++ Str.repeat "9" 309) = Infinite true
  /\ JS.stringify_number (JS.parseInt_text (Str.repeat "9" 309)) = "null"
  /\ JS.stringify_number (JS.parseInt_text "144") = "144".
Proof. repeat apply conj; vm_compute; reflexivity. Qed.

Example match_array_samples :
  Regex.match_array "Here you go: [1, [2]] thanks" = Some "[1, [2]]"
  /\ Regex.match_array "no array ] here [" = None
  /\ Regex.match_array "[1] trailing [2]" = Some "[1] trailing [2]"
  /\ Regex.strip_ext "public/17-abc.pdf" = "public/17-abc"
  /\ Regex.strip_ext "public/17-abc." = "public/17-abc."
  /\ Regex.split_on "." "scan.v2.pdf" = ["scan"; "v2"; "pdf"].
Proof. repeat split; reflexivity. Qed.

Example JSON_parse_ref_samples :
  JSON_parse_ref "[]" = Some (JArr [])
  /\ JSON_parse_ref " [ 1, -2.50, 1e3, null, true ] " =
       Some (JArr [JNum (Finite 1 0); JNum (Finite (-250) (-2));
                   JNum (Finite 1 3); JNull; JBool true])
  /\ JSON_parse_ref "[1] trailing [2]" = None
  /\ JSON_parse_ref "[01]" = None
  /\ JSON_parse_ref "[{'a': 1}]" = None
  /\ JSON_parse_ref "{}" = Some (JObj [])
  /\ JSON_parse_ref "[1, 2" = None.
Proof. repeat split; vm_compute; reflexivity. Qed.

(** * Further properties of the code *)

(** ** [split], [join] and the file extension (lines 92-93, 217) *)

Lemma split_on_nonempty (d : ascii) (s : string) : Regex.split_on d s <> [].
Proof.
  destruct s as [|c r]; simpl; [discriminate|].
  destruct (Ascii.eqb c d); [discriminate|].
  destruct (Regex.split_on d r); discriminate.
Qed.

Lemma last_cons (A : Type) (x : A) (l : list A) (d : A) :
  l <> [] -> last (x :: l) d = last l d.
Proof. destruct l; [congruence | reflexivity]. Qed.

(** Joining the segments with the separator gives the text back. *)
Lemma join_cons (sep x : string) (l : list string) :
  l <> [] -> Str.join sep (x :: l) = x ++ sep ++ Str.join sep l.
Proof. destruct l; [congruence | reflexivity]. Qed.

Lemma join_split_on (d : ascii) (s : string) :
  Str.join (String d "") (Regex.split_on d s) = s.
Proof.
  induction s as [|c r IH]; [reflexivity|]. cbn [Regex.split_on].
  pose proof (split_on_nonempty d r) as Hne.
  destruct (Ascii.eqb c d) eqn:E.
  - apply Ascii.eqb_eq in E; subst c.
    rewrite join_cons by assumption. now rewrite IH.
  - destruct (Regex.split_on d r) as [|seg segs]; [congruence|].
    destruct segs as [|seg' segs].
    + simpl in *. now rewrite IH.
    + rewrite join_cons by discriminate.
      rewrite join_cons in IH by discriminate.
      rewrite <- IH. reflexivity.
Qed.

Lemma split_on_segments (d : ascii) (s : string) :
  Forall (fun seg => Str.mem d seg = false) (Regex.split_on d s).
Proof.
  induction s as [|c r IH]; simpl; [repeat constructor|].
  destruct (Ascii.eqb c d) eqn:E; [constructor; auto|].
  destruct (Regex.split_on d r) as [|seg segs]; [repeat constructor; simpl; now rewrite E|].
  inversion IH; subst. constructor; [simpl; now rewrite E | assumption].
Qed.

Lemma join_last (sep : string) (l : list string) :
  l <> [] ->
  Str.join sep l = last l ""
  \/ exists pre, Str.join sep l = pre ++ sep ++ last l "".
Proof.
  induction l as [|x l IH]; [congruence|]. intros _.
  destruct l as [|y l]; [left; reflexivity|].
  right. rewrite last_cons by discriminate.
  destruct IH as [H|[pre H]]; [discriminate| |].
  - exists x. rewrite join_cons by discriminate. now rewrite H.
  - exists (x ++ sep ++ pre). rewrite join_cons by discriminate. rewrite H.
    now rewrite !append_assoc.
Qed.

Lemma fileExt_no_dot (name : string) : Str.mem "." (fileExt name) = false.
Proof.
  unfold fileExt.
  pose proof (split_on_segments "." name) as H.
  pose proof (split_on_nonempty "." name) as Hne.
  induction (Regex.split_on "." name) as [|x l IH]; [congruence|].
  inversion H; subst. destruct l as [|y l]; [assumption|].
  rewrite last_cons by discriminate. apply IH; [assumption | discriminate].
Qed.

(** [X1]: the extension is the text after the last dot of the name, or the whole
    name when it has no dot; it never holds a dot itself. *)
Theorem fileExt_is_after_last_dot (name : string) :
  Str.mem "." (fileExt name) = false
  /\ (name = fileExt name \/ exists pre, name = pre ++ "." ++ fileExt name).
Proof.
  split; [apply fileExt_no_dot|]. unfold fileExt.
  - pose proof (join_last "." (Regex.split_on "." name)
                  (split_on_nonempty "." name)) as H.
    now rewrite (join_split_on "." name) in H.
Qed.

Lemma all_append (p : ascii -> bool) (a b : string) :
  Str.all p (a ++ b) = Str.all p a && Str.all p b.
Proof.
  induction a as [|c a IH]; simpl; [reflexivity|].
  now rewrite IH, andb_assoc.
Qed.

Lemma strip_ext_no_dot (s : string) :
  Str.mem "." s = false -> Regex.strip_ext s = s.
Proof.
  induction s as [|c r IH]; simpl; [reflexivity|]. intros H.
  apply orb_false_iff in H. destruct H as [Hc Hr].
  rewrite Hc. simpl. now rewrite IH.
Qed.

Lemma all_ext_char_slash (s : string) :
  Str.mem "." s = false ->
  Str.all Regex.ext_char s = negb (Str.mem "/" s).
Proof.
  induction s as [|c r IH]; simpl; [reflexivity|]. intros H.
  apply orb_false_iff in H. destruct H as [Hc Hr].
  rewrite (IH Hr). unfold Regex.ext_char. rewrite Hc.
  destruct (Ascii.eqb c "/"); reflexivity.
Qed.

(** [X2]: the invoice id of a storage key: the key without the extension that
    the file name gave it; a key whose extension is empty or holds a slash
    is kept whole. *)
Theorem source_invoice_id_strips_fileExt (stem name : string) :
  Regex.strip_ext (stem ++ "." ++ fileExt name)
  = if (fileExt name =? "") || Str.mem "/" (fileExt name)
    then stem ++ "." ++ fileExt name
    else stem.
Proof.
  pose proof (fileExt_no_dot name) as Hdot.
  set (ext := fileExt name) in *. clearbody ext.
  induction stem as [|c stem IH].
  - cbn [String.append Regex.strip_ext]. rewrite Ascii.eqb_refl.
    rewrite (all_ext_char_slash ext Hdot).
    destruct (String.eqb_spec ext "") as [->|Hne]; [reflexivity|].
    cbn [negb andb orb]. destruct (Str.mem "/" ext); cbn [negb andb].
    + now rewrite (strip_ext_no_dot ext Hdot).
    + reflexivity.
  - cbn [String.append Regex.strip_ext].
    change (stem ++ "." ++ ext) with (stem ++ String "." ext) in IH.
    assert (Hall : Str.all Regex.ext_char (stem ++ String "." ext) = false).
    { rewrite all_append. cbn [Str.all]. unfold Regex.ext_char at 2.
      rewrite Ascii.eqb_refl. cbn. now rewrite andb_false_r. }
    rewrite Hall, andb_false_r, IH.
    destruct ((ext =? "") || Str.mem "/" ext); reflexivity.
Qed.

(** ** The array search, once more (lines 211-212) *)

Lemma upto_last_close_closed (mid : string) :
  Regex.upto_last_close (mid ++ "]") = Some (mid ++ "]").
Proof.
  induction mid as [|c mid IH]; simpl; [reflexivity|]. now rewrite IH.
Qed.

(** [X3]: what is handed to [JSON.parse] always opens with a bracket and closes
    with one, and searching it again selects the whole of it. *)
Theorem jsonString_bracketed_idempotent (rawContent : string) :
  (exists mid, jsonString rawContent = "[" ++ mid ++ "]")
  /\ jsonString (jsonString rawContent) = jsonString rawContent.
Proof.
  unfold jsonString at 1 3 4.
  destruct (Regex.match_array rawContent) as [m|] eqn:E.
  - destruct (match_array_some _ _ E) as (pre & mid & post & _ & _ & _ & ->).
    split; [now exists mid|].
    unfold jsonString. cbn [String.append Regex.match_array].
    rewrite Ascii.eqb_refl. now rewrite upto_last_close_closed.
  - split; [now exists ""| reflexivity].
Qed.

(** ** Decimal printing and [parseInt] (lines 216, 221) *)

Lemma digits_val_of_uint_acc (d : Decimal.uint) (acc : positive) :
  Str.digits_val (Zpos acc) (NilEmpty.string_of_uint d)
  = Zpos (Pos.of_uint_acc d acc).
Proof.
  revert acc. induction d; intros acc; cbn [NilEmpty.string_of_uint
    Str.digits_val Pos.of_uint_acc]; [reflexivity|..];
    match goal with
    | |- context [Str.digit_val ?c] =>
        let v := eval vm_compute in (Str.digit_val c) in
        change (Str.digit_val c) with v
    end;
    rewrite <- IHd; f_equal; lia.
Qed.

Lemma digits_val_of_uint (d : Decimal.uint) :
  Str.digits_val 0 (NilEmpty.string_of_uint d) = Z.of_N (Pos.of_uint d).
Proof.
  induction d; cbn [NilEmpty.string_of_uint Str.digits_val Pos.of_uint];
    [reflexivity | exact IHd |..];
    match goal with
    | |- context [Str.digit_val ?c] =>
        let v := eval vm_compute in (Str.digit_val c) in
        change (Str.digit_val c) with v
    end;
    cbn [Z.of_N]; rewrite <- digits_val_of_uint_acc; f_equal.
Qed.

Lemma all_digits_of_uint (d : Decimal.uint) :
  Str.all Str.is_digit (NilEmpty.string_of_uint d) = true.
Proof. induction d; simpl; auto. Qed.

Lemma of_N_uint (n : N) :
  Str.of_N n = NilEmpty.string_of_uint (N.to_uint n).
Proof.
  unfold Str.of_N, NilZero.string_of_uint.
  destruct (N.to_uint n) eqn:E; try reflexivity.
  destruct n; simpl in E; [discriminate|].
  now apply DecimalPos.Unsigned.to_uint_nonnil in E.
Qed.

(** Reading back what was printed. *)
Lemma digits_val_of_N (n : N) : Str.digits_val 0 (Str.of_N n) = Z.of_N n.
Proof.
  rewrite of_N_uint, digits_val_of_uint.
  change (Pos.of_uint (N.to_uint n)) with (N.of_uint (N.to_uint n)).
  now rewrite DecimalN.Unsigned.of_to.
Qed.

Lemma all_digits_of_N (n : N) : Str.all Str.is_digit (Str.of_N n) = true.
Proof. rewrite of_N_uint. apply all_digits_of_uint. Qed.

Lemma of_N_not_empty (n : N) : Str.of_N n <> "".
Proof.
  rewrite of_N_uint. destruct (N.to_uint n) eqn:E; simpl; try discriminate.
  destruct n; simpl in E; [discriminate|].
  now apply DecimalPos.Unsigned.to_uint_nonnil in E.
Qed.

Lemma take_while_all (p : ascii -> bool) (s : string) :
  Str.all p s = true -> Str.take_while p s = s.
Proof.
  induction s as [|c r IH]; simpl; [reflexivity|]. intros H.
  apply andb_true_iff in H. destruct H as [Hc Hr]. rewrite Hc. now rewrite IH.
Qed.

Lemma digit_not_special (c : ascii) :
  Str.is_digit c = true ->
  Str.is_space c = false /\ Ascii.eqb c "-" = false /\ Ascii.eqb c "+" = false.
Proof.
  destruct c as [[|] [|] [|] [|] [|] [|] [|] [|]]; intros H;
    try discriminate; repeat split; reflexivity.
Qed.

(** [parseInt] reads a printed integer back, sign included. *)
Lemma mathInt_of_Z (z : Z) : JS.parseInt_mathInt (Str.of_Z z) = Some z.
Proof.
  assert (Hpos : forall n, JS.parseInt_mathInt (Str.of_N n) = Some (Z.of_N n)).
  { intros n. unfold JS.parseInt_mathInt.
    pose proof (all_digits_of_N n) as Hall. pose proof (of_N_not_empty n) as Hne.
    destruct (Str.of_N n) as [|c r] eqn:E; [congruence|].
    cbn [Str.all] in Hall. apply andb_true_iff in Hall. destruct Hall as [Hc Hr].
    destruct (digit_not_special c Hc) as (Hs & Hm & Hp).
    cbn [Str.drop_while]. rewrite Hs, Hm, Hp.
    rewrite take_while_all by (cbn [Str.all]; now rewrite Hc).
    cbn [String.eqb]. rewrite <- E. now rewrite digits_val_of_N. }
  unfold Str.of_Z. destruct (Z.ltb_spec z 0) as [Hneg|Hge].
  - unfold JS.parseInt_mathInt. cbn [String.append Str.drop_while].
    change (Str.is_space "-") with false. cbn iota. rewrite Ascii.eqb_refl.
    rewrite take_while_all by apply all_digits_of_N.
    destruct (String.eqb_spec (Str.of_N (Z.abs_N z)) "") as [E|_];
      [now apply of_N_not_empty in E|].
    rewrite digits_val_of_N. f_equal. lia.
  - rewrite Hpos. f_equal. lia.
Qed.

Lemma strip_zeros_restore (s : string) :
  Str.all Str.is_digit s = true ->
  fst (JS.strip_zeros s) ++ Str.repeat "0" (snd (JS.strip_zeros s)) = s
  /\ (String.length (fst (JS.strip_zeros s)) + snd (JS.strip_zeros s)
      = String.length s)%nat.
Proof.
  induction s as [|c r IH]; [split; reflexivity|].
  intros H. cbn [Str.all] in H. apply andb_true_iff in H. destruct H as [Hc Hr].
  destruct (IH Hr) as [IH1 IH2]. cbn [JS.strip_zeros].
  destruct (JS.strip_zeros r) as [r' z]. cbn [fst snd] in *.
  destruct ((r' =? "") && Ascii.eqb c "0") eqn:E; cbn [fst snd].
  - apply andb_true_iff in E. destruct E as [E1 E2].
    apply String.eqb_eq in E1. apply Ascii.eqb_eq in E2. subst r' c.
    cbn [String.append String.length Nat.add] in *. cbn [Str.repeat].
    split; [now rewrite IH1 | now rewrite IH2].
  - cbn [String.append String.length]. split; [now rewrite IH1 | now rewrite <- IH2].
Qed.

Lemma string_of_revapp (l acc : Decimal.uint) :
  NilEmpty.string_of_uint (Decimal.revapp l acc)
  = NilEmpty.string_of_uint (Decimal.revapp l Decimal.Nil)
    ++ NilEmpty.string_of_uint acc.
Proof.
  revert acc. induction l; intros acc; cbn [Decimal.revapp];
    [reflexivity|..];
    rewrite IHl; symmetry; rewrite IHl; rewrite append_assoc; reflexivity.
Qed.

(** Ten times a number is printed with one more zero. *)
Lemma of_N_tenfold (n : N) :
  n <> 0%N -> Str.of_N (10 * n) = Str.of_N n ++ "0".
Proof.
  intros Hn. rewrite !of_N_uint. destruct n as [|p]; [congruence|].
  pose proof (DecimalPos.Unsigned.to_ldec_tenfold p) as H.
  change (10 * N.pos p)%N with (N.pos (10 * p)) in *.
  cbn [DecimalPos.Unsigned.to_lu] in H.
  cbn [N.to_uint]. unfold Pos.to_uint, Decimal.rev. rewrite H.
  cbn [Decimal.revapp]. now rewrite string_of_revapp.
Qed.

Lemma strip_zeros_tenfold (s : string) :
  JS.strip_zeros (s ++ "0")
  = (fst (JS.strip_zeros s), S (snd (JS.strip_zeros s))).
Proof.
  induction s as [|c r IH]; [reflexivity|].
  cbn [String.append JS.strip_zeros]. rewrite IH.
  destruct (JS.strip_zeros r) as [r' z]. cbn [fst snd].
  destruct ((r' =? "") && Ascii.eqb c "0"); reflexivity.
Qed.

(** Zeros at the end of the digits count as exponent. *)
Lemma decimal_to_string_tenfold (s n : Z) :
  (0 < s)%Z ->
  JS.decimal_to_string (10 * s) n = JS.decimal_to_string s (n + 1).
Proof.
  intros Hs. unfold JS.decimal_to_string.
  replace (Z.abs_N (10 * s)) with (10 * Z.abs_N s)%N by lia.
  rewrite of_N_tenfold by lia. rewrite strip_zeros_tenfold.
  destruct (JS.strip_zeros (Str.of_N (Z.abs_N s))) as [ds z]. cbn [fst snd].
  f_equal. lia.
Qed.

Lemma decimal_to_string_shift (s : Z) (n : nat) :
  (0 < s)%Z ->
  JS.decimal_to_string s (Z.of_nat n)
  = JS.decimal_to_string (s * 10 ^ Z.of_nat n) 0.
Proof.
  intros Hs. revert s Hs. induction n as [|n IH]; intros s Hs.
  - now rewrite Z.pow_0_r, Z.mul_1_r.
  - replace (Z.of_nat (S n)) with (Z.of_nat n + 1)%Z by lia.
    rewrite <- decimal_to_string_tenfold by assumption.
    rewrite IH by lia. f_equal.
    rewrite Z.pow_add_r by lia. rewrite Z.pow_1_r. lia.
Qed.

(** A printed number starts with a digit that is not zero, and so is at
    least the power of ten of its other digits. *)
Lemma digits_val_lower (s : string) (acc : Z) :
  Str.all Str.is_digit s = true -> (0 <= acc)%Z ->
  (acc * 10 ^ Z.of_nat (String.length s) <= Str.digits_val acc s)%Z.
Proof.
  revert acc. induction s as [|c r IH]; intros acc H Hacc.
  - cbn. lia.
  - cbn [Str.all] in H. apply andb_true_iff in H. destruct H as [Hc Hr].
    pose proof (digit_val_nonneg c Hc) as Hd.
    cbn [Str.digits_val String.length].
    remember (Str.digit_val c) as d eqn:Ed. clear Ed.
    specialize (IH (10 * acc + d)%Z Hr ltac:(lia)).
    replace (Z.of_nat (S (String.length r))) with (Z.of_nat (String.length r) + 1)%Z
      by lia.
    rewrite Z.pow_add_r, Z.pow_1_r by lia.
    assert (0 <= 10 ^ Z.of_nat (String.length r))%Z by (apply Z.pow_nonneg; lia).
    remember (10 ^ Z.of_nat (String.length r))%Z as t eqn:Et. clear Et.
    remember (Str.digits_val (10 * acc + d) r) as v eqn:Ev. clear Ev.
    nia.
Qed.

Lemma of_N_no_leading_zero (n : N) (r : string) :
  n <> 0%N -> Str.of_N n <> String "0" r.
Proof.
  intros Hn H. rewrite of_N_uint in H.
  pose proof (DecimalN.Unsigned.to_of (N.to_uint n)) as Hu.
  rewrite DecimalN.Unsigned.of_to in Hu.
  unfold Decimal.unorm in Hu.
  destruct (Decimal.nzhead (N.to_uint n)) as [|d|d|d|d|d|d|d|d|d|d] eqn:E;
    rewrite Hu in H; cbn in H; try discriminate.
  - apply (f_equal N.of_uint) in Hu. rewrite DecimalN.Unsigned.of_to in Hu.
    cbn in Hu. congruence.
  - now apply DecimalFacts.nzhead_nonzero in E.
Qed.

Lemma length_of_N (n : N) (k : nat) :
  n <> 0%N -> (Z.of_N n < 10 ^ Z.of_nat k)%Z ->
  (String.length (Str.of_N n) <= k)%nat.
Proof.
  intros Hn Hlt.
  - pose proof (all_digits_of_N n) as Hall.
    pose proof (digits_val_of_N n) as Hval.
    pose proof (of_N_no_leading_zero n) as Hlead.
    destruct (Str.of_N n) as [|c r] eqn:E; [cbn; lia|].
    cbn [Str.all] in Hall. apply andb_true_iff in Hall. destruct Hall as [Hc Hr].
    cbn [Str.digits_val] in Hval.
    assert (Hd : (1 <= Str.digit_val c)%Z).
    { pose proof (digit_val_nonneg c Hc) as Hd.
      destruct (Z.eq_dec (Str.digit_val c) 0) as [H0|]; [|lia].
      exfalso. apply (Hlead r Hn). f_equal.
      unfold Str.digit_val in H0. unfold Str.is_digit in Hc.
      apply andb_true_iff in Hc. destruct Hc as [Hc1 _]. apply Nat.leb_le in Hc1.
      rewrite <- (ascii_nat_embedding c).
      replace (nat_of_ascii c) with 48%nat by lia. reflexivity. }
    pose proof (digits_val_lower r (0 * 10 + Str.digit_val c)%Z Hr ltac:(lia)) as Hlow.
    replace (10 * 0 + Str.digit_val c)%Z with (0 * 10 + Str.digit_val c)%Z in Hval by lia.
    rewrite Hval in Hlow. cbn [String.length].
    destruct (Nat.le_gt_cases (S (String.length r)) k) as [|Hgt]; [assumption|].
    exfalso.
    assert (10 ^ Z.of_nat k <= 10 ^ Z.of_nat (String.length r))%Z
      by (apply Z.pow_le_mono_r; lia).
    assert (0 < 10 ^ Z.of_nat (String.length r))%Z by (apply Z.pow_pos_nonneg; lia).
    nia.
Qed.

(** A decimal of at most 21 digits that is an integer is printed as that
    integer. *)
Lemma decimal_to_string_integer (a : Z) :
  (0 < a)%Z -> (String.length (Str.of_N (Z.abs_N a)) <= 21)%nat ->
  JS.decimal_to_string a 0 = Str.of_N (Z.abs_N a).
Proof.
  intros Ha Hlen. unfold JS.decimal_to_string.
  destruct (strip_zeros_restore _ (all_digits_of_N (Z.abs_N a))) as [H1 H2].
  destruct (JS.strip_zeros (Str.of_N (Z.abs_N a))) as [ds z]. cbn [fst snd] in *.
  unfold JS.positive_to_string.
  replace ((Z.of_nat (String.length ds) <=? Z.of_nat (String.length ds) + (0 + Z.of_nat z))%Z
           && (Z.of_nat (String.length ds) + (0 + Z.of_nat z) <=? 21)%Z)
    with true by (symmetry; apply andb_true_iff; split; apply Z.leb_le; lia).
  replace (Z.to_nat (Z.of_nat (String.length ds) + (0 + Z.of_nat z)
                     - Z.of_nat (String.length ds))) with z by lia.
  exact H1.
Qed.

(** The search for the shortest decimal of an integer below [2^53] ends on
    the integer itself, its zeros at the end taken as exponent. *)
Lemma shortest_from_integer (a : Z) (j : nat) :
  (0 < a < 2 ^ 53)%Z ->
  exists s n,
    Binary64.shortest_from (Binary64.Dyadic a 0) a 0 j = (s, Z.of_nat n)
    /\ (0 < s)%Z /\ (s * 10 ^ Z.of_nat n = a)%Z.
Proof.
  intros Ha. induction j as [|j IH].
  - exists a, 0%nat. cbn. split; [reflexivity|]. lia.
  - cbn [Binary64.shortest_from].
    remember (10 ^ Z.of_nat (S j))%Z as p eqn:Ep.
    assert (Hp : (1 < p)%Z).
    { subst p. replace (Z.of_nat (S j)) with (Z.of_nat j + 1)%Z by lia.
      rewrite Z.pow_add_r, Z.pow_1_r by lia.
      assert (0 < 10 ^ Z.of_nat j)%Z by (apply Z.pow_pos_nonneg; lia). lia. }
    pose proof (Z.div_mod a p ltac:(lia)) as Hdm.
    pose proof (Z.mod_pos_bound a p ltac:(lia)) as Hr.
    assert (Hlo0 : (0 <= a / p)%Z) by (apply Z.div_pos; lia).
    remember (a / p)%Z as lo eqn:Elo. remember (a mod p)%Z as rest eqn:Erest.
    clear Elo Erest.
    assert (Hhi : Binary64.eqb (Binary64.of_decimal (lo + 1) (0 + Z.of_nat (S j)))
                    (Binary64.Dyadic a 0) = false).
    { unfold Binary64.of_decimal.
      destruct (Z.eqb_spec (lo + 1) 0) as [|_]; [lia|].
      destruct (Z.leb_spec 0 (0 + Z.of_nat (S j))) as [_|]; [|lia].
      rewrite Z.add_0_l, <- Ep. unfold Binary64.of_Z.
      destruct (Z.leb_spec (Z.abs ((lo + 1) * p)) (2 ^ 53)) as [_|Hbig].
      - cbn [Binary64.eqb]. rewrite Z.min_id, Z.sub_diag, Z.pow_0_r, !Z.mul_1_r.
        apply Z.eqb_neq. nia.
      - destruct (significand_bounds _ Hbig) as [He HM]. cbv zeta in HM.
        remember (Z.log2 (Z.abs ((lo + 1) * p)) - 52)%Z as e eqn:Ee.
        remember (Binary64.nearest_even (Z.abs ((lo + 1) * p)) (2 ^ e)) as M eqn:EM.
        clear EM. unfold Binary64.in_range.
        destruct (_ && _); [reflexivity|].
        replace ((lo + 1) * p <? 0)%Z with false by (symmetry; apply Z.ltb_ge; nia).
        cbn [Binary64.eqb]. rewrite Z.min_r by lia.
        rewrite Z.sub_0_r, Z.sub_diag, Z.pow_0_r, Z.mul_1_r.
        apply Z.eqb_neq.
        assert (2 ^ 1 <= 2 ^ e)%Z by (apply Z.pow_le_mono_r; lia).
        assert (H53 : (2 ^ 53 = 2 ^ 52 * 2 ^ 1)%Z)
          by (rewrite <- Z.pow_add_r by lia; reflexivity).
        assert (0 < 2 ^ 52)%Z by (apply Z.pow_pos_nonneg; lia).
        assert (2 ^ 52 * 2 ^ 1 <= M * 2 ^ e)%Z
          by (apply Z.mul_le_mono_nonneg; lia).
        lia. }
    rewrite Hhi, andb_false_r.
    destruct (Binary64.eqb (Binary64.of_decimal lo (0 + Z.of_nat (S j)))
                (Binary64.Dyadic a 0)) eqn:Hlo; [|exact IH].
    exists lo, (S j). rewrite Z.add_0_l. split; [reflexivity|].
    unfold Binary64.of_decimal in Hlo.
    destruct (Z.eqb_spec lo 0) as [->|Hne].
    + cbn [Binary64.eqb] in Hlo. rewrite Z.min_id, Z.sub_diag, Z.pow_0_r in Hlo.
      apply Z.eqb_eq in Hlo. lia.
    + destruct (Z.leb_spec 0 (0 + Z.of_nat (S j))) as [_|]; [|lia].
      rewrite Z.add_0_l, <- Ep in Hlo. unfold Binary64.of_Z in Hlo.
      destruct (Z.leb_spec (Z.abs (lo * p)) (2 ^ 53)) as [_|Hbig]; [|nia].
      cbn [Binary64.eqb] in Hlo.
      rewrite Z.min_id, Z.sub_diag, Z.pow_0_r, !Z.mul_1_r in Hlo.
      apply Z.eqb_eq in Hlo. split; [lia|]. rewrite <- Ep. exact Hlo.
Qed.

(** [ToString] of an integer below [2^53] in magnitude is its decimal
    form. *)
Lemma num_to_string_integer (m : Z) :
  (Z.abs m < 2 ^ 53)%Z -> JS.num_to_string (Finite m 0) = Str.of_Z m.
Proof.
  intros Hm. unfold JS.num_to_string, Binary64.of_decimal.
  destruct (Z.eqb_spec m 0) as [->|Hne]; [reflexivity|].
  assert (Habs : (0 < Z.abs m < 2 ^ 53)%Z) by lia.
  cbn [Z.leb Z.compare]. rewrite Z.pow_0_r, Z.mul_1_r.
  unfold Binary64.of_Z.
  destruct (Z.leb_spec (Z.abs m) (2 ^ 53)) as [_|]; [|lia].
  apply Z.eqb_neq in Hne as ->.
  unfold Binary64.shortest, Binary64.expansion. cbn [Z.leb Z.compare].
  rewrite Z.pow_0_r, Z.mul_1_r.
  destruct (shortest_from_integer (Z.abs m)
              (String.length (Str.of_N (Z.to_N (Z.abs m))) - 1) Habs)
    as (s & n & -> & Hs & Hsn).
  rewrite (decimal_to_string_shift s n Hs), Hsn.
  assert (H1021 : (2 ^ 53 < 10 ^ Z.of_nat 21)%Z) by reflexivity.
  rewrite decimal_to_string_integer;
    [|lia|apply length_of_N; lia].
  unfold Str.of_Z. replace (Z.abs_N (Z.abs m)) with (Z.abs_N m) by lia.
  destruct (m <? 0)%Z; reflexivity.
Qed.

(** [X4]: a quantity that the model gives as an integer below [2^53] in
    magnitude is kept as it is, sign included: the number is printed with
    its own digits and read back. *)
Theorem integer_quantity_is_kept ctx (item : jsval) (index : nat) (m : Z) :
  JS.get_field item "quantity" = Some (JNum (Finite m 0)) ->
  (Z.abs m < 2 ^ 53)%Z ->
  option_map quantity (mapItem ctx item index) = Some (Finite m 0).
Proof.
  intros Hq Hsafe.
  assert (Hm : mappable item = true) by (unfold mappable; now rewrite Hq).
  destruct (proj1 (mapItem_mappable ctx item index) Hm) as [r Hr].
  rewrite Hr. cbn [option_map]. apply mapItem_inv in Hr.
  destruct Hr as (v & c & s & q & text & e & nt & nr & _ & _ & _ & Hq' & Ht & _
                  & _ & _ & _ & _ & _ & Equ & _).
  rewrite Hq in Hq'. inversion Hq'; subst q.
  change (JS.to_string (JNum (Finite m 0)))
    with (Some (JS.num_to_string (Finite m 0))) in Ht.
  rewrite (num_to_string_integer m Hsafe) in Ht. inversion Ht; subst text.
  rewrite Equ, number_or_zero_parseInt_text, mathInt_of_Z.
  f_equal. apply Number_of_Z_exact. lia.
Qed.

Lemma integer_quantity_is_kept_witness :
  option_map quantity
    (mapItem Sample.ctx (JObj [("quantity", JNum (Finite (-1200) 0))]) 3)
  = Some (Finite (-1200) 0).
Proof.
  apply (integer_quantity_is_kept Sample.ctx
           (JObj [("quantity", JNum (Finite (-1200) 0))]) 3 (-1200)%Z);
    reflexivity.
Defined.

(** ** The ids of a response (line 216) *)

Lemma mem_not_in_all (p : ascii -> bool) (a : ascii) (s : string) :
  p a = false -> Str.all p s = true -> Str.mem a s = false.
Proof.
  intros Ha. induction s as [|c r IH]; simpl; [reflexivity|]. intros H.
  apply andb_true_iff in H. destruct H as [Hc Hr]. rewrite (IH Hr).
  destruct (Ascii.eqb_spec c a) as [->|_]; [congruence | reflexivity].
Qed.

Lemma split_on_no_sep (d : ascii) (s : string) :
  Str.mem d s = false -> Regex.split_on d s = [s].
Proof.
  induction s as [|c r IH]; simpl; [reflexivity|]. intros H.
  apply orb_false_iff in H. destruct H as [Hc Hr].
  rewrite Hc, (IH Hr). reflexivity.
Qed.

Lemma split_on_two (d : ascii) (a b : string) :
  exists seg seg' segs,
    Regex.split_on d (a ++ String d b) = seg :: seg' :: segs.
Proof.
  induction a as [|c a IH]; cbn [String.append Regex.split_on].
  - rewrite Ascii.eqb_refl.
    destruct (Regex.split_on d b) as [|x l] eqn:E;
      [now apply split_on_nonempty in E | eauto].
  - destruct IH as (seg & seg' & segs & ->).
    destruct (Ascii.eqb c d); eauto.
Qed.

Lemma last_split_append (d : ascii) (a b : string) :
  last (Regex.split_on d (a ++ String d b)) ""
  = last (Regex.split_on d b) "".
Proof.
  induction a as [|c a IH]; cbn [String.append Regex.split_on].
  - rewrite Ascii.eqb_refl. apply last_cons, split_on_nonempty.
  - destruct (split_on_two d a b) as (seg & seg' & segs & E).
    rewrite E in *. destruct (Ascii.eqb c d).
    + now rewrite last_cons by discriminate.
    + rewrite last_cons by discriminate.
      now rewrite last_cons in IH by discriminate.
Qed.

Lemma id_index_of_id (t : Z) (i : nat) :
  id_index (Str.of_Z t ++ "-" ++ Str.of_nat i) = Z.of_nat i.
Proof.
  unfold id_index. cbn [String.append]. rewrite last_split_append.
  unfold Str.of_nat.
  rewrite split_on_no_sep
    by (apply (mem_not_in_all Str.is_digit); [reflexivity | apply all_digits_of_N]).
  cbn [last]. rewrite digits_val_of_N. apply nat_N_Z.
Qed.

Lemma mapItem_id ctx (item : jsval) (index : nat) (r : OrderLineItem) :
  mapItem ctx item index = Some r ->
  id r = Str.of_Z (now_ms ctx index) ++ "-" ++ Str.of_nat index.
Proof.
  unfold mapItem. intros H.
  repeat match type of H with
         | match ?x with _ => _ end = _ => destruct x; [|discriminate]
         end.
  now inversion H.
Qed.

Lemma map_from_id_indices ctx (items : list jsval) :
  forall k records,
    map_from ctx k items = Some records ->
    map (fun r => id_index (id r)) records
    = map Z.of_nat (seq k (List.length items)).
Proof.
  induction items as [|item items IH]; intros k records H; simpl in H.
  - now inversion H.
  - destruct (mapItem ctx item k) as [r|] eqn:Er; [|discriminate].
    destruct (map_from ctx (S k) items) as [rs|] eqn:Ers; [|discriminate].
    inversion H; subst. cbn [map seq List.length].
    rewrite (mapItem_id _ _ _ _ Er), id_index_of_id. f_equal. now apply IH.
Qed.

Lemma NoDup_map_injective (A B : Type) (f : A -> B) (l : list A) :
  (forall x y, f x = f y -> x = y) -> NoDup l -> NoDup (map f l).
Proof.
  intros Hinj H. induction H as [|x l Hx Hl IH]; simpl; constructor; auto.
  intros Hin. apply in_map_iff in Hin. destruct Hin as (y & Hy & Hin).
  apply Hinj in Hy. now subst.
Qed.

(** [X5]: the records of one response have pairwise distinct ids, whatever
    the clock reads while they are made: each id ends with the dash and the
    index of its record. *)
Theorem ids_are_distinct JSON_parse ctx (openaiData : jsval) :
  NoDup (map id (extractedData JSON_parse ctx openaiData)).
Proof.
  unfold extractedData.
  destruct (tryExtract JSON_parse ctx openaiData) as [items|] eqn:E.
  - unfold tryExtract in E.
    destruct (rawContent openaiData) as [[| | | |content| | |]|]; try discriminate.
    unfold parseText in E.
    destruct (JSON_parse (jsonString content)) as [[| | | | |elems| |]|];
      try discriminate.
    simpl in E. apply NoDup_map_inv with (f := id_index). rewrite map_map.
    rewrite (map_from_id_indices ctx elems 0 items E).
    apply NoDup_map_injective; [apply Nat2Z.inj | apply seq_NoDup].
  - repeat constructor. intros [].
Qed.

(** ** The calls of the main endpoint (lines 77-205) *)

(** What stands behind a response that carries data. *)
Lemma serve_data_trace JSON_parse PROMPT (w : World) (req : Request)
      (items : list OrderLineItem) (url : string) :
  body (fst (serve JSON_parse PROMPT w req)) = DataBody items url ->
  exists form file content resp data visited,
    formData req = Returns form
    /\ form_file form = FormFile file
    /\ url = storage_publicUrl w (upload_name w file)
    /\ ok resp = true
    /\ response_json resp = Returns data
    /\ items = extractedData JSON_parse (request_context w form file) data
    /\ snd (serve JSON_parse PROMPT w req)
       = EvFormData (Returns form)
         :: EvUpload (upload_name w file) (Returns false)
         :: map EvPage visited ++ [EvInference content (Returns resp)].
Proof.
  unfold_steps.
  step_cases; cbn [fst snd body status]; intros H; try discriminate.
  all: inversion H; subst; clear H.
  all: match goal with Hn : negb (ok _) = false |- _ =>
         apply negb_false_iff in Hn end.
  - match goal with
    | Hd : response_json ?r = Returns ?d, Hf : form_file ?fm = FormFile ?f,
      Hp : Pdf.extract_text _ = (?l, Returns ?t) |- _ =>
        exists fm, f, (pdf_content PROMPT (hint_of (form_vendorName fm))
                         (hint_of (form_customerName fm)) t), r, d, l
    end.
    repeat split; auto. cbn [app map]. now rewrite ?app_nil_r.
  - match goal with
    | Hd : response_json ?r = Returns ?d, Hf : form_file ?fm = FormFile ?f,
      He : encode_image _ _ = Returns ?b |- _ =>
        exists fm, f, (image_content PROMPT (hint_of (form_vendorName fm))
                         (hint_of (form_customerName fm)) (file_type f) b),
          r, d, []
    end.
    repeat split; auto.
Qed.

(** [X6]: a response that carries data was made by reading the form, then
    one upload that reported no error, then the pages of the document, then
    one inference call that was answered ok; nothing else was called. *)
Theorem data_response_calls JSON_parse PROMPT (w : World) (req : Request)
        (items : list OrderLineItem) (url : string) :
  body (fst (serve JSON_parse PROMPT w req)) = DataBody items url ->
  status (fst (serve JSON_parse PROMPT w req)) = 200%nat
  /\ exists form name visited content resp,
      ok resp = true
      /\ snd (serve JSON_parse PROMPT w req)
         = EvFormData (Returns form)
           :: EvUpload name (Returns false)
           :: map EvPage visited ++ [EvInference content (Returns resp)].
Proof.
  intros H. split.
  - revert H. unfold_steps.
    step_cases; cbn [fst snd body status]; intros H; try discriminate;
      reflexivity.
  - destruct (serve_data_trace _ _ _ _ _ _ H)
      as (form & file & content & resp & data & visited & _ & _ & _ & Hok & _
          & _ & Hlog).
    exists form, (upload_name w file), visited, content, resp. auto.
Qed.

Lemma data_response_calls_witness :
  exists items url,
    body (fst (serve JSON_parse_ref "PROMPT" Sample.world Sample.request))
    = DataBody items url
    /\ status (fst (serve JSON_parse_ref "PROMPT" Sample.world Sample.request))
       = 200%nat
    /\ exists form name visited content resp,
        ok resp = true
        /\ snd (serve JSON_parse_ref "PROMPT" Sample.world Sample.request)
           = EvFormData (Returns form)
             :: EvUpload name (Returns false)
             :: map EvPage visited ++ [EvInference content (Returns resp)].
Proof.
  eexists. eexists. split; [vm_compute; reflexivity|].
  eapply (data_response_calls JSON_parse_ref "PROMPT" Sample.world
            Sample.request).
  vm_compute; reflexivity.
Defined.

Lemma extractedData_locators JSON_parse ctx (openaiData : jsval) :
  Forall (fun r => source_file_url r = publicUrl ctx
                   /\ source_invoice_id r = Regex.strip_ext (fileName ctx))
         (extractedData JSON_parse ctx openaiData).
Proof.
  unfold extractedData.
  destruct (tryExtract JSON_parse ctx openaiData) as [items|] eqn:E.
  - unfold tryExtract in E.
    destruct (rawContent openaiData) as [[| | | |content| | |]|]; try discriminate.
    unfold parseText in E.
    destruct (JSON_parse (jsonString content)) as [[| | | | |elems| |]|];
      try discriminate.
    simpl in E. revert items E. generalize 0%nat.
    induction elems as [|item elems IH]; intros k items E; simpl in E.
    + inversion E. constructor.
    + destruct (mapItem ctx item k) as [r|] eqn:Er; [|discriminate].
      destruct (map_from ctx (S k) elems) as [rs|] eqn:Ers; [|discriminate].
      inversion E; subst. constructor; [|eauto].
      unfold mapItem in Er.
      repeat match type of Er with
             | match ?x with _ => _ end = _ => destruct x; [|discriminate]
             end.
      inversion Er. split; reflexivity.
  - repeat constructor.
Qed.

(** [X7]: every record of a response points at the stored file: its
    [source_file_url] is the response's own, and its [source_invoice_id] is
    the storage key of the upload without its extension. *)
Theorem records_carry_the_stored_file JSON_parse PROMPT (w : World)
        (req : Request) (items : list OrderLineItem) (url : string) :
  body (fst (serve JSON_parse PROMPT w req)) = DataBody items url ->
  exists name,
    In (EvUpload name (Returns false)) (snd (serve JSON_parse PROMPT w req))
    /\ url = storage_publicUrl w name
    /\ Forall (fun r => source_file_url r = url
                        /\ source_invoice_id r = Regex.strip_ext name) items.
Proof.
  intros H.
  destruct (serve_data_trace _ _ _ _ _ _ H)
    as (form & file & content & resp & data & visited & _ & _ & Hurl & _ & _
        & Hitems & Hlog).
  exists (upload_name w file). rewrite Hlog. split; [right; left; reflexivity|].
  split; [assumption|]. subst items url.
  apply (extractedData_locators JSON_parse (request_context w form file) data).
Qed.

Lemma records_carry_the_stored_file_witness :
  exists items url,
    body (fst (serve JSON_parse_ref "PROMPT" Sample.world Sample.request))
    = DataBody items url
    /\ exists name,
        In (EvUpload name (Returns false))
           (snd (serve JSON_parse_ref "PROMPT" Sample.world Sample.request))
        /\ url = storage_publicUrl Sample.world name
        /\ Forall (fun r => source_file_url r = url
                            /\ source_invoice_id r = Regex.strip_ext name) items.
Proof.
  eexists. eexists. split; [vm_compute; reflexivity|].
  eapply (records_carry_the_stored_file JSON_parse_ref "PROMPT" Sample.world
            Sample.request).
  vm_compute; reflexivity.
Defined.

(** [X8]: when the upload reports an error the answer is status 500 with
    [Failed to upload file], and when it throws the answer is the internal
    error with the thrown message; in both cases the model is never
    called and no page is read. *)
Theorem failed_upload_stops_the_request JSON_parse PROMPT (w : World)
        (req : Request) (name : string) (result : outcome bool) :
  In (EvUpload name result) (snd (serve JSON_parse PROMPT w req)) ->
  result <> Returns false ->
  fst (serve JSON_parse PROMPT w req)
  = {| status := 500;
       body := match result with
               | Returns _ => ErrorBody "Failed to upload file" None
               | Throws message => ErrorBody "Internal server error" message
               end |}
  /\ existsb is_inference (snd (serve JSON_parse PROMPT w req)) = false
  /\ existsb is_page (snd (serve JSON_parse PROMPT w req)) = false.
Proof.
  unfold_steps.
  step_cases; cbn [fst snd]; intros Hin Hres; log_cases;
    try congruence; repeat split; reflexivity.
Qed.

Lemma failed_upload_stops_the_request_witness :
  fst (serve JSON_parse_ref "PROMPT"
         (Sample.world_with true (Returns Sample.good_reply)) Sample.request)
  = {| status := 500; body := ErrorBody "Failed to upload file" None |}
  /\ existsb is_inference
       (snd (serve JSON_parse_ref "PROMPT"
               (Sample.world_with true (Returns Sample.good_reply))
               Sample.request)) = false
  /\ existsb is_page
       (snd (serve JSON_parse_ref "PROMPT"
               (Sample.world_with true (Returns Sample.good_reply))
               Sample.request)) = false.
Proof.
  apply (failed_upload_stops_the_request JSON_parse_ref "PROMPT"
           (Sample.world_with true (Returns Sample.good_reply)) Sample.request
           "public/1700000000000-k3x9q.pdf" (Returns true)).
  - vm_compute. right. left. reflexivity.
  - discriminate.
Defined.

(** [X9]: the model is called only after the file was stored: a log with an
    inference call holds, before it, an upload that reported no error. *)
Theorem inference_follows_a_stored_file JSON_parse PROMPT (w : World)
        (req : Request) (content : list ContentPart)
        (result : outcome OpenAIResponse) :
  In (EvInference content result) (snd (serve JSON_parse PROMPT w req)) ->
  exists form file before,
    snd (serve JSON_parse PROMPT w req)
    = EvFormData (Returns form)
      :: EvUpload (upload_name w file) (Returns false)
      :: before ++ [EvInference content result]
    /\ form_file form = FormFile file
    /\ forallb is_page before = true.
Proof.
  unfold_steps.
  step_cases; cbn [fst snd]; intros Hin; log_cases; try discriminate.
  all: match goal with
       | Hf : form_file ?fm = FormFile ?f |- _ => exists fm, f
       end.
  all: cbn [app map]; rewrite ?app_nil_r.
  all: try (match goal with
            | |- context [map EvPage ?l] => exists (map EvPage l)
            end;
            split; [reflexivity|]; split; [assumption|];
            rewrite forallb_forall; intros e He; apply in_map_iff in He;
            destruct He as (? & <- & _); reflexivity).
  all: exists []; split; [reflexivity|]; split; [assumption | reflexivity].
Qed.

Lemma inference_follows_a_stored_file_witness :
  exists content result form file before,
    In (EvInference content result)
       (snd (serve JSON_parse_ref "PROMPT" Sample.world
               (Sample.request_of (FormFile Sample.photo))))
    /\ snd (serve JSON_parse_ref "PROMPT" Sample.world
              (Sample.request_of (FormFile Sample.photo)))
       = EvFormData (Returns form)
         :: EvUpload (upload_name Sample.world file) (Returns false)
         :: before ++ [EvInference content result]
    /\ form_file form = FormFile file
    /\ forallb is_page before = true.
Proof.
  eexists. eexists.
  assert (Hin : In (EvInference
                      (image_content "PROMPT" (JStr "Acme Apparel") (JStr "")
                         "image/jpeg" "aGVsbG8=")
                      (Returns Sample.good_reply))
                   (snd (serve JSON_parse_ref "PROMPT" Sample.world
                           (Sample.request_of (FormFile Sample.photo)))))
    by (vm_compute; right; right; left; reflexivity).
  destruct (inference_follows_a_stored_file JSON_parse_ref "PROMPT"
              Sample.world (Sample.request_of (FormFile Sample.photo)) _ _ Hin)
    as (form & file & before & H1 & H2 & H3).
  exists form, file, before. repeat split; eassumption.
Defined.

(** [X10]: when the model's endpoint answers with a status that is not ok,
    the request ends with status 500, the error
    [Failed to process file with AI] and the upstream body as details; no
    record is made of it. *)
Theorem refused_inference_is_reported JSON_parse PROMPT (w : World)
        (req : Request) (content : list ContentPart) (resp : OpenAIResponse)
        (errorText : string) :
  In (EvInference content (Returns resp)) (snd (serve JSON_parse PROMPT w req)) ->
  ok resp = false ->
  response_text resp = Returns errorText ->
  fst (serve JSON_parse PROMPT w req)
  = {| status := 500;
       body := ErrorBody "Failed to process file with AI" (Some errorText) |}.
Proof.
  unfold_steps.
  step_cases; cbn [fst snd]; intros Hin Hok Htext; log_cases;
    try discriminate; try congruence;
    repeat match goal with
           | H : fetch_openai _ _ = Returns _, H' : fetch_openai _ _ = _ |- _ =>
               rewrite H in H'; first [discriminate H' | injection H' as ?; subst]
           | H : negb (ok ?r) = false, H' : ok ?r = false |- _ =>
               rewrite H' in H; discriminate H
           | H : response_text ?r = _, H' : response_text ?r = _ |- _ =>
               rewrite H in H'; first [discriminate H' | injection H' as ?; subst]
           end;
    try reflexivity.
Qed.

Lemma refused_inference_is_reported_witness :
  fst (serve JSON_parse_ref "PROMPT"
         (Sample.world_with false (Returns Sample.overloaded)) Sample.request)
  = {| status := 500;
       body := ErrorBody "Failed to process file with AI"
                         (Some "rate limit exceeded") |}.
Proof.
  eapply (refused_inference_is_reported JSON_parse_ref "PROMPT"
            (Sample.world_with false (Returns Sample.overloaded))
            Sample.request _ Sample.overloaded).
  - vm_compute. right. right. right. left. reflexivity.
  - reflexivity.
  - reflexivity.
Defined.

(** [X11]: a [file] field that arrives as text is never stored: an empty
    text is answered like a missing file, with status 400, and any other
    text ends in the internal error, since a string has no [name] to take
    an extension from; no upload and no inference call is made. *)
Theorem text_in_file_field_is_not_stored JSON_parse PROMPT (w : World)
        (req : Request) (form : FormData) (s : string) :
  In (EvFormData (Returns form)) (snd (serve JSON_parse PROMPT w req)) ->
  form_file form = FormText s ->
  serve JSON_parse PROMPT w req
  = ((if s =? ""
      then {| status := 400; body := ErrorBody "No file provided" None |}
      else {| status := 500;
              body := ErrorBody "Internal server error"
                                (type_error_message w) |}),
     [EvFormData (Returns form)]).
Proof.
  unfold_steps.
  step_cases; cbn [fst snd]; intros Hin Hfile; log_cases;
    try discriminate; try congruence;
    match goal with
    | H : form_file ?f = FormText ?a, H' : form_file ?f = FormText ?b,
      E : (?b =? "") = _ |- _ =>
        rewrite H in H'; injection H' as ?; subst; cbn in E;
        first [discriminate E | reflexivity]
    end.
Qed.

Lemma text_in_file_field_is_not_stored_witness :
  serve JSON_parse_ref "PROMPT" Sample.world
    (Sample.request_of (FormText "invoice.pdf"))
  = ({| status := 500;
        body := ErrorBody "Internal server error"
                  (type_error_message Sample.world) |},
     [EvFormData (Returns (Sample.form (FormText "invoice.pdf")))]).
Proof.
  apply (text_in_file_field_is_not_stored JSON_parse_ref "PROMPT" Sample.world
           (Sample.request_of (FormText "invoice.pdf"))
           (Sample.form (FormText "invoice.pdf")) "invoice.pdf").
  - vm_compute. left. reflexivity.
  - reflexivity.
Defined.



(** ** The hints and the reply (lines 208, 218-220) *)

(** [X13]: the caller's hints only fill gaps: an item to which the model gave
    a vendor and a customer is mapped to the same record whatever the hints
    are. *)
Theorem hints_do_not_touch_complete_items ctx (vendor customer : jsval)
        (item v c : jsval) (index : nat) :
  JS.get_field item "vendor_name" = Some v -> JS.truthy v = true ->
  JS.get_field item "customer_name" = Some c -> JS.truthy c = true ->
  mapItem (with_hints ctx vendor customer) item index = mapItem ctx item index.
Proof.
  intros Hv Tv Hc Tc. unfold mapItem. rewrite Hv, Hc.
  repeat match goal with
         | |- match ?x with _ => _ end = match ?x with _ => _ end => destruct x
         end; try reflexivity.
  unfold JS.or_else. rewrite Tv, Tc. reflexivity.
Qed.

Lemma hints_do_not_touch_complete_items_witness :
  mapItem (with_hints Sample.ctx (JStr "Other Vendor") (JStr "Other Customer"))
    Sample.good_item 0
  = mapItem Sample.ctx Sample.good_item 0.
Proof.
  apply (hints_do_not_touch_complete_items Sample.ctx (JStr "Other Vendor")
           (JStr "Other Customer") Sample.good_item (JStr "Acme Apparel")
           (JStr "Beta Stores") 0); reflexivity.
Defined.

(** [X14]: on a reply that has a first choice, the records are those of the
    completion text of that choice: the text itself when it is a string
    that is not empty, the empty-array text when the content is missing or
    falsy; a content that is truthy and no string gives the fallback
    record. *)
Theorem reply_content_is_normalized JSON_parse ctx
        (openaiData choices first : jsval) :
  JS.get_field openaiData "choices" = Some choices ->
  JS.get_index0 choices = Some first ->
  extractedData JSON_parse ctx openaiData
  = if JS.truthy (first_content first)
    then match first_content first with
         | JStr text => normalizeText JSON_parse ctx text
         | _ => [fallback ctx]
         end
    else normalizeText JSON_parse ctx "[]".
Proof.
  intros Hc Hf. unfold extractedData, tryExtract, rawContent, normalizeText.
  rewrite Hc, Hf. fold (first_content first). unfold JS.or_else.
  destruct (JS.truthy (first_content first)) eqn:T; [|reflexivity].
  destruct (first_content first); reflexivity.
Qed.

Lemma reply_content_is_normalized_witness :
  extractedData JSON_parse_ref Sample.ctx Sample.openai_reply
  = if JS.truthy
         (first_content
            (JObj [("message",
                    JObj [("role", JStr "assistant");
                          ("content", JStr Sample.completion_text)])]))
    then match first_content
                 (JObj [("message",
                         JObj [("role", JStr "assistant");
                               ("content", JStr Sample.completion_text)])]) with
         | JStr text => normalizeText JSON_parse_ref Sample.ctx text
         | _ => [fallback Sample.ctx]
         end
    else normalizeText JSON_parse_ref Sample.ctx "[]".
Proof.
  apply (reply_content_is_normalized JSON_parse_ref Sample.ctx
           Sample.openai_reply
           (JArr [JObj [("message",
                         JObj [("role", JStr "assistant");
                               ("content", JStr Sample.completion_text)])]])
           (JObj [("message",
                   JObj [("role", JStr "assistant");
                         ("content", JStr Sample.completion_text)])]));
    reflexivity.
Defined.

(** [X15]: a reply that is [null], or whose [choices] is missing or [null],
    gives exactly the fallback record: line 208 reads [choices[0]] without
    a guard and the throw is caught. *)
Theorem reply_without_choices_falls_back JSON_parse ctx (openaiData : jsval) :
  JS.get_field_opt openaiData "choices" = JUndef
  \/ JS.get_field_opt openaiData "choices" = JNull ->
  extractedData JSON_parse ctx openaiData = [fallback ctx].
Proof.
  unfold extractedData, tryExtract, rawContent, JS.get_field_opt.
  destruct (JS.get_field openaiData "choices") as [choices|]; [|reflexivity].
  intros [->| ->]; reflexivity.
Qed.

Lemma reply_without_choices_falls_back_witness :
  extractedData JSON_parse_ref Sample.ctx
    (JObj [("error", JObj [("message", JStr "model overloaded")])])
  = [fallback Sample.ctx].
Proof.
  apply (reply_without_choices_falls_back JSON_parse_ref Sample.ctx
           (JObj [("error", JObj [("message", JStr "model overloaded")])])).
  left. reflexivity.
Defined.

(** ** Text extraction, the other cases (lines 127-140) *)

Lemma page_loop_complete (rest : list (outcome (list TextItem))) :
  forall (i : nat) (fullText : string) (visited : list nat),
    forallb readable rest = true ->
    (String.length (fullText ++ Pdf.accumulated_from i rest (List.length rest))
     <= MAX_TEXT_CHARS)%nat ->
    Pdf.page_loop i rest fullText visited
    = ((visited ++ seq i (List.length rest))%list,
       Returns (fullText ++ Pdf.accumulated_from i rest (List.length rest))).
Proof.
  induction rest as [|page rest IH]; intros i fullText visited Hr Hlen.
  - cbn [Pdf.page_loop List.length seq Pdf.accumulated_from].
    now rewrite app_nil_r, append_nil_r.
  - cbn [forallb] in Hr. apply andb_true_iff in Hr. destruct Hr as [Hp Hr].
    destruct page as [items|]; [|discriminate].
    cbn [Pdf.page_loop List.length seq Pdf.accumulated_from] in *.
    rewrite <- append_assoc in Hlen.
    assert (Hfit : (String.length (fullText ++ Pdf.segment i items)
                    <= MAX_TEXT_CHARS)%nat).
    { rewrite length_append in Hlen. lia. }
    apply Nat.ltb_ge in Hfit. rewrite Hfit.
    rewrite (IH (S i) _ _ Hr Hlen). now rewrite <- app_assoc, append_assoc.
Qed.

(** [X16]: a document whose pages can all be read and whose text with its
    markers fits the budget is extracted whole: every page is visited, in
    order, and nothing is cut. *)
Theorem short_document_is_extracted_whole (pdf : PdfDocument) :
  forallb readable (pages pdf) = true ->
  (String.length (Pdf.accumulated pdf (Pdf.numPages pdf)) <= MAX_TEXT_CHARS)%nat ->
  Pdf.extract_text pdf
  = (seq 1 (Pdf.numPages pdf),
     Returns (Pdf.accumulated pdf (Pdf.numPages pdf))).
Proof.
  unfold Pdf.extract_text, Pdf.accumulated, Pdf.numPages. intros Hr Hlen.
  rewrite (page_loop_complete (pages pdf) 1 "" [] Hr Hlen).
  cbn [app String.append]. apply Nat.ltb_ge in Hlen. now rewrite Hlen.
Qed.

Lemma short_document_is_extracted_whole_witness :
  Pdf.extract_text Sample.short_pdf
  = (seq 1 (Pdf.numPages Sample.short_pdf),
     Returns (Pdf.accumulated Sample.short_pdf (Pdf.numPages Sample.short_pdf))).
Proof.
  apply (short_document_is_extracted_whole Sample.short_pdf).
  - reflexivity.
  - apply Nat.leb_le. vm_compute. reflexivity.
Defined.

Lemma page_loop_throws (good : list (outcome (list TextItem))) :
  forall (i : nat) (fullText : string) (visited : list nat)
         (message : option string) (rest : list (outcome (list TextItem))),
    forallb readable good = true ->
    (String.length (fullText ++ Pdf.accumulated_from i good (List.length good))
     <= MAX_TEXT_CHARS)%nat ->
    Pdf.page_loop i (good ++ Throws message :: rest) fullText visited
    = ((visited ++ seq i (S (List.length good)))%list, Throws message).
Proof.
  induction good as [|page good IH]; intros i fullText visited message rest Hr Hlen.
  - reflexivity.
  - cbn [forallb] in Hr. apply andb_true_iff in Hr. destruct Hr as [Hp Hr].
    destruct page as [items|]; [|discriminate].
    cbn [Pdf.page_loop List.length seq Pdf.accumulated_from app] in *.
    rewrite <- append_assoc in Hlen.
    assert (Hfit : (String.length (fullText ++ Pdf.segment i items)
                    <= MAX_TEXT_CHARS)%nat).
    { rewrite length_append in Hlen. lia. }
    apply Nat.ltb_ge in Hfit. rewrite Hfit.
    rewrite (IH (S i) _ _ message rest Hr Hlen). now rewrite <- app_assoc.
Qed.

(** [X17]: a page that cannot be read fails the extraction with its error,
    when the text of the pages before it is within the budget: these pages
    and the failing one are visited, the later ones are not. *)
Theorem unreadable_page_fails_extraction
        (good rest : list (outcome (list TextItem))) (message : option string) :
  forallb readable good = true ->
  (String.length (Pdf.accumulated {| pages := good |} (List.length good))
   <= MAX_TEXT_CHARS)%nat ->
  Pdf.extract_text {| pages := good ++ Throws message :: rest |}
  = (seq 1 (S (List.length good)), Throws message).
Proof.
  unfold Pdf.extract_text, Pdf.accumulated. cbn [pages]. intros Hr Hlen.
  now rewrite (page_loop_throws good 1 "" [] message rest Hr Hlen).
Qed.

Lemma unreadable_page_fails_extraction_witness :
  Pdf.extract_text Sample.broken_pdf
  = ([1; 2]%nat, Throws (Some "Invalid page structure")).
Proof.
  apply (unreadable_page_fails_extraction
           [Returns [{| str := Some "Style: ABC-123"; text := None |}]]
           [Returns [{| str := Some "Qty: 24"; text := None |}]]
           (Some "Invalid page structure")).
  - reflexivity.
  - apply Nat.leb_le. vm_compute. reflexivity.
Defined.

(** ** The alternate ingestion path, the other answers *)

Lemma fileUrl_of_body (req : TextRequest) :
  TextHandler.fileUrl req
  = match text_body req with
    | JObj props =>
        match JS.own "fileUrl" props with Some v => v | None => JUndef end
    | _ => JUndef
    end.
Proof.
  unfold TextHandler.fileUrl, JS.or_else, JS.get_field_opt.
  destruct (text_body req) as [| |[]|n|s| | |]; try reflexivity;
    destruct (JS.truthy _); reflexivity.
Qed.

(** [X18]: a request that is not a preflight and whose body is no object, or
    an object without a [fileUrl], or with a [fileUrl] that is empty, null,
    0 or false, is answered with status 400 and [Missing fileUrl], and
    nothing is fetched. *)
Theorem request_without_fileUrl_is_400 (w : TextWorld) (req : TextRequest) :
  text_method req <> "OPTIONS" ->
  (forall props v,
      text_body req = JObj props -> JS.own "fileUrl" props = Some v ->
      JS.truthy v = false) ->
  TextHandler.handler w req
  = ({| status := 400; body := ErrorBody "Missing fileUrl" None |}, []).
Proof.
  intros Hm Hbody. unfold TextHandler.handler.
  apply String.eqb_neq in Hm. rewrite Hm.
  assert (Hf : JS.truthy (TextHandler.fileUrl req) = false).
  { rewrite fileUrl_of_body. destruct (text_body req); try reflexivity.
    destruct (JS.own "fileUrl" props) as [v|] eqn:E; [|reflexivity].
    now apply (Hbody props v). }
  now rewrite Hf.
Qed.

Lemma request_without_fileUrl_is_400_witness :
  TextHandler.handler Sample.text_world
    {| text_method := "POST"; text_body := JStr "https://files.example/a.pdf" |}
  = ({| status := 400; body := ErrorBody "Missing fileUrl" None |}, []).
Proof.
  apply (request_without_fileUrl_is_400 Sample.text_world
           {| text_method := "POST";
              text_body := JStr "https://files.example/a.pdf" |}).
  - discriminate.
  - intros props v H. discriminate H.
Defined.

(** [X19]: the text handler answers status 200 only after the fetch returned
    an ok response, its body was read and the parser returned; the body of
    the answer is then the parser's text, unchanged, and these three calls
    are all that was done. *)
Theorem text_answer_is_the_parsed_text (w : TextWorld) (req : TextRequest) :
  status (fst (TextHandler.handler w req)) = 200%nat ->
  exists r buf parsed,
    remote_fetch w (TextHandler.fileUrl req) = Returns r
    /\ fetch_ok r = true
    /\ fetch_arrayBuffer r = Returns buf
    /\ pdf_parse w buf = Returns parsed
    /\ TextHandler.handler w req
       = ({| status := 200; body := TextBody parsed |},
          [EvFetch (TextHandler.fileUrl req) (Returns r);
           EvArrayBuffer (Returns buf); EvPdf (Returns parsed)]).
Proof.
  unfold TextHandler.handler, TextHandler.parser_failed.
  step_cases; cbn [fst snd status]; intros H; try discriminate.
  match goal with
  | Hr : remote_fetch _ _ = Returns ?r, Hb : fetch_arrayBuffer _ = Returns ?b,
    Hp : pdf_parse _ _ = Returns ?t, Hn : negb (fetch_ok _) = false |- _ =>
      exists r, b, t; apply negb_false_iff in Hn; repeat split; auto
  end.
Qed.

Lemma text_answer_is_the_parsed_text_witness :
  exists r buf parsed,
    remote_fetch Sample.text_world_found
      (TextHandler.fileUrl Sample.text_request) = Returns r
    /\ fetch_ok r = true
    /\ fetch_arrayBuffer r = Returns buf
    /\ pdf_parse Sample.text_world_found buf = Returns parsed
    /\ TextHandler.handler Sample.text_world_found Sample.text_request
       = ({| status := 200; body := TextBody parsed |},
          [EvFetch (TextHandler.fileUrl Sample.text_request) (Returns r);
           EvArrayBuffer (Returns buf); EvPdf (Returns parsed)]).
Proof.
  apply (text_answer_is_the_parsed_text Sample.text_world_found
           Sample.text_request).
  reflexivity.
Defined.

(** [X20]: an answer of the text handler with status 500 always names an
    error: the message of what was thrown, or [Parser failed] when that
    message is missing or empty. *)
Theorem text_failure_names_an_error (w : TextWorld) (req : TextRequest) :
  status (fst (TextHandler.handler w req)) = 500%nat ->
  exists error,
    body (fst (TextHandler.handler w req)) = ErrorBody error None
    /\ error <> ""
    /\ (error = "Parser failed"
        \/ exists e,
            In e (snd (TextHandler.handler w req))
            /\ (e = EvFetch (TextHandler.fileUrl req) (Throws (Some error))
                \/ e = EvArrayBuffer (Throws (Some error))
                \/ e = EvPdf (Throws (Some error)))).
Proof.
  unfold TextHandler.handler, TextHandler.parser_failed.
  step_cases; cbn [fst snd status body]; intros H; try discriminate;
    eexists; (split; [reflexivity|]);
    (split; [first [discriminate
                   | match goal with
                     | E : (_ =? "") = false |- _ => now apply String.eqb_neq in E
                     end]|]);
    first [left; reflexivity
          | right; eexists; split;
            [ cbn [In]; eauto
            | first [ left; reflexivity
                    | right; left; reflexivity
                    | right; right; reflexivity ] ] ].
Qed.

Lemma text_failure_names_an_error_witness :
  exists error,
    body (fst (TextHandler.handler Sample.text_world_broken Sample.text_request))
    = ErrorBody error None
    /\ error <> ""
    /\ (error = "Parser failed"
        \/ exists e,
            In e (snd (TextHandler.handler Sample.text_world_broken
                         Sample.text_request))
            /\ (e = EvFetch (TextHandler.fileUrl Sample.text_request)
                      (Throws (Some error))
                \/ e = EvArrayBuffer (Throws (Some error))
                \/ e = EvPdf (Throws (Some error)))).
Proof.
  apply (text_failure_names_an_error Sample.text_world_broken
           Sample.text_request).
  reflexivity.
Defined.

(** ** The records, the other cases (lines 215-251) *)

(** [X21]: one element that makes the arrow function throw, a [null] or an
    element whose [quantity] has no string form, replaces the whole batch
    by the fallback record, wherever it stands in the array. *)
Theorem unmappable_element_replaces_the_batch JSON_parse ctx
        (rawContent : string) (items : list jsval) :
  JSON_parse (jsonString rawContent) = Some (JArr items) ->
  forallb mappable items = false ->
  normalizeText JSON_parse ctx rawContent = [fallback ctx].
Proof.
  intros Hp Hm. unfold normalizeText, parseText. rewrite Hp.
  cbn [mapParsed]. now rewrite (map_from_unmappable ctx items 0 Hm).
Qed.

Lemma unmappable_element_replaces_the_batch_witness :
  normalizeText JSON_parse_ref Sample.ctx "[null, 1, 2]" = [fallback Sample.ctx].
Proof.
  apply (unmappable_element_replaces_the_batch JSON_parse_ref Sample.ctx
           "[null, 1, 2]"
           [JNull; JNum (Finite 1 0); JNum (Finite 2 0)]);
    vm_compute; reflexivity.
Defined.

(** [X22]: a record that is not flagged for review is complete and owes
    nothing to the hints: its three names are the values the model gave,
    each truthy, and the model's own [needs_review] is falsy. *)
Theorem unflagged_record_is_complete ctx (item : jsval) (index : nat)
        (r : OrderLineItem) :
  mapItem ctx item index = Some r ->
  needs_review r = false ->
  JS.get_field item "vendor_name" = Some (vendor_name r)
  /\ JS.get_field item "customer_name" = Some (customer_name r)
  /\ JS.get_field item "style_number" = Some (style_number r)
  /\ JS.truthy (vendor_name r) = true
  /\ JS.truthy (customer_name r) = true
  /\ JS.truthy (style_number r) = true
  /\ JS.truthy (JS.get_field_opt item "needs_review") = false.
Proof.
  intros H Hflag. apply mapItem_inv in H.
  destruct H as (v & c & s & q & text & e & nt & nr & Hv & Hc & Hs & _ & _ & _
                 & _ & Hnr & Ev & Ec & Es & _ & _ & _ & Eflag).
  rewrite Hflag in Eflag. symmetry in Eflag.
  apply orb_false_iff in Eflag. destruct Eflag as [Eflag Ts].
  apply orb_false_iff in Eflag. destruct Eflag as [Eflag Tc].
  apply orb_false_iff in Eflag. destruct Eflag as [Tn Tv].
  apply negb_false_iff in Tv, Tc, Ts.
  unfold JS.or_else in Ev, Ec, Es. rewrite Tv in Ev. rewrite Tc in Ec.
  rewrite Ts in Es. rewrite Ev, Ec, Es.
  unfold JS.get_field_opt. rewrite Hnr. repeat split; auto.
Qed.

Lemma unflagged_record_is_complete_witness :
  exists r,
    mapItem Sample.hinted_ctx Sample.good_item 0 = Some r
    /\ JS.get_field Sample.good_item "vendor_name" = Some (vendor_name r)
    /\ JS.get_field Sample.good_item "customer_name" = Some (customer_name r)
    /\ JS.get_field Sample.good_item "style_number" = Some (style_number r)
    /\ JS.truthy (vendor_name r) = true
    /\ JS.truthy (customer_name r) = true
    /\ JS.truthy (style_number r) = true
    /\ JS.truthy (JS.get_field_opt Sample.good_item "needs_review") = false.
Proof.
  eexists. split; [vm_compute; reflexivity|].
  apply (unflagged_record_is_complete Sample.hinted_ctx Sample.good_item 0);
    vm_compute; reflexivity.
Defined.

Lemma take_while_append (p : ascii -> bool) (a b : string) :
  Str.all p a = true -> starts_with p b = false ->
  Str.take_while p (a ++ b) = a.
Proof.
  intros Ha Hb. induction a as [|c a IH]; cbn [String.append].
  - destruct b as [|d b]; [reflexivity|]. simpl in *. now rewrite Hb.
  - cbn [Str.all] in Ha. apply andb_true_iff in Ha. destruct Ha as [Hc Ha].
    cbn [Str.take_while]. rewrite Hc. now rewrite (IH Ha).
Qed.

Lemma drop_while_prefix (p : ascii -> bool) (a b : string) :
  Str.all p a = true -> Str.drop_while p (a ++ b) = Str.drop_while p b.
Proof.
  intros Ha. induction a as [|c a IH]; cbn [String.append]; [reflexivity|].
  cbn [Str.all] in Ha. apply andb_true_iff in Ha. destruct Ha as [Hc Ha].
  cbn [Str.drop_while]. rewrite Hc. now apply IH.
Qed.

Lemma mathInt_skips_space (ws t : string) :
  Str.all Str.is_space ws = true ->
  JS.parseInt_mathInt (ws ++ t) = JS.parseInt_mathInt t.
Proof.
  intros H. unfold JS.parseInt_mathInt. now rewrite (drop_while_prefix _ ws t H).
Qed.

Lemma mathInt_digits (s : string) :
  starts_with Str.is_digit s = true ->
  JS.parseInt_mathInt s
  = if Str.take_while Str.is_digit s =? "" then None
    else Some (Str.digits_val 0 (Str.take_while Str.is_digit s)).
Proof.
  destruct s as [|c r]; [discriminate|]. cbn [starts_with]. intros Hc.
  destruct (digit_not_special c Hc) as (Hs & Hm & Hp).
  unfold JS.parseInt_mathInt. cbn [Str.drop_while]. now rewrite Hs, Hm, Hp.
Qed.

Lemma mathInt_leading (ws rest : string) (z : Z) :
  Str.all Str.is_space ws = true -> starts_with Str.is_digit rest = false ->
  JS.parseInt_mathInt (ws ++ Str.of_Z z ++ rest) = Some z.
Proof.
  intros Hws Hrest. rewrite (mathInt_skips_space _ _ Hws).
  assert (Hdigits : forall n,
             (if Str.take_while Str.is_digit (Str.of_N n ++ rest) =? ""
              then None
              else Some (Str.digits_val 0
                           (Str.take_while Str.is_digit (Str.of_N n ++ rest))))
             = Some (Z.of_N n)).
  { intros n. rewrite (take_while_append _ _ _ (all_digits_of_N n) Hrest).
    destruct (String.eqb_spec (Str.of_N n) "") as [E|_];
      [now apply of_N_not_empty in E|]. now rewrite digits_val_of_N. }
  unfold Str.of_Z. destruct (Z.ltb_spec z 0) as [Hneg|Hge].
  - unfold JS.parseInt_mathInt. cbn [String.append Str.drop_while].
    change (Str.is_space "-") with false. cbn iota. rewrite Ascii.eqb_refl.
    specialize (Hdigits (Z.abs_N z)).
    destruct (Str.take_while Str.is_digit (Str.of_N (Z.abs_N z) ++ rest) =? "");
      [discriminate|]. inversion Hdigits as [Hv]. rewrite Hv. f_equal. lia.
  - rewrite mathInt_digits.
    + rewrite Hdigits. f_equal. lia.
    + pose proof (all_digits_of_N (Z.abs_N z)) as Hall.
      pose proof (of_N_not_empty (Z.abs_N z)) as Hne.
      destruct (Str.of_N (Z.abs_N z)) as [|c r]; [congruence|].
      cbn [Str.all] in Hall. apply andb_true_iff in Hall.
      cbn [String.append starts_with]. tauto.
Qed.

(** [X23]: a quantity given as text that starts, after any white space, with
    an integer followed by something that is no digit, such as a unit,
    yields the Number value of that integer, which up to [2^53] in
    magnitude is the integer itself. *)
Theorem quantity_with_unit_is_its_number ctx (item : jsval) (index : nat)
        (ws rest : string) (z : Z) :
  JS.get_field item "quantity" = Some (JStr (ws ++ Str.of_Z z ++ rest)) ->
  Str.all Str.is_space ws = true ->
  starts_with Str.is_digit rest = false ->
  option_map quantity (mapItem ctx item index) = Some (JS.Number_of_Z z)
  /\ ((Z.abs z <= 2 ^ 53)%Z ->
      option_map quantity (mapItem ctx item index) = Some (Finite z 0)).
Proof.
  intros Hq Hws Hrest.
  assert (Hm : mappable item = true) by (unfold mappable; now rewrite Hq).
  destruct (proj1 (mapItem_mappable ctx item index) Hm) as [r Hr].
  rewrite Hr. cbn [option_map]. apply mapItem_inv in Hr.
  destruct Hr as (v & c & s & q & text & e & nt & nr & _ & _ & _ & Hq' & Ht & _
                  & _ & _ & _ & _ & _ & Equ & _).
  rewrite Hq in Hq'. inversion Hq'; subst q. cbn [JS.to_string] in Ht.
  inversion Ht; subst text.
  rewrite Equ, number_or_zero_parseInt_text,
    (mathInt_leading ws rest z Hws Hrest).
  split; [reflexivity|]. intros Hsafe. now rewrite Number_of_Z_exact.
Qed.

Lemma quantity_with_unit_is_its_number_witness :
  option_map quantity
    (mapItem Sample.ctx (JObj [("quantity", JStr " 144 units")]) 0)
  = Some (JS.Number_of_Z 144)
  /\ ((Z.abs 144 <= 2 ^ 53)%Z ->
      option_map quantity
        (mapItem Sample.ctx (JObj [("quantity", JStr " 144 units")]) 0)
      = Some (Finite 144 0)).
Proof.
  apply (quantity_with_unit_is_its_number Sample.ctx
           (JObj [("quantity", JStr " 144 units")]) 0 " " " units" 144%Z);
    reflexivity.
Defined.

(** ** The answers of the main endpoint *)

(** [X24]: status 400 has one meaning: the form was read and its [file]
    field is absent or an empty text.  The answer is then
    [No file provided], and reading the form is all that was done. *)
Theorem bad_request_means_no_file JSON_parse PROMPT (w : World)
        (req : Request) :
  status (fst (serve JSON_parse PROMPT w req)) = 400%nat ->
  exists form,
    serve JSON_parse PROMPT w req
    = ({| status := 400; body := ErrorBody "No file provided" None |},
       [EvFormData (Returns form)])
    /\ (form_file form = FormAbsent \/ form_file form = FormText "").
Proof.
  unfold_steps.
  step_cases; cbn [fst snd status]; intros Hst; try discriminate Hst;
    eexists; (split; [reflexivity|]); auto.
Qed.

Lemma bad_request_means_no_file_witness :
  exists form,
    serve JSON_parse_ref "PROMPT" Sample.world
      (Sample.request_of (FormText ""))
    = ({| status := 400; body := ErrorBody "No file provided" None |},
       [EvFormData (Returns form)])
    /\ (form_file form = FormAbsent \/ form_file form = FormText "").
Proof.
  apply (bad_request_means_no_file JSON_parse_ref "PROMPT" Sample.world
           (Sample.request_of (FormText ""))).
  vm_compute. reflexivity.
Defined.

(** [X25]: the endpoint has seven answers and no other: the empty 200 of a
    preflight, the 200 with data, the 400 of a missing file, and status 500
    with one of four errors, of which only the refused inference and the
    internal error carry details. *)
Theorem answers_are_of_seven_shapes JSON_parse PROMPT (w : World)
        (req : Request) :
  let answer := fst (serve JSON_parse PROMPT w req) in
  (method req = "OPTIONS" /\ answer = {| status := 200; body := NoBody |})
  \/ (exists items url,
         answer = {| status := 200; body := DataBody items url |})
  \/ answer = {| status := 400; body := ErrorBody "No file provided" None |}
  \/ answer = {| status := 500;
                 body := ErrorBody "OpenAI API key not configured" None |}
  \/ answer = {| status := 500; body := ErrorBody "Failed to upload file" None |}
  \/ (exists errorText,
         answer = {| status := 500;
                     body := ErrorBody "Failed to process file with AI"
                                       (Some errorText) |})
  \/ (exists message,
         answer = {| status := 500;
                     body := ErrorBody "Internal server error" message |}).
Proof.
  cbv zeta. unfold serve.
  destruct (method req =? "OPTIONS") eqn:Em.
  - left. apply String.eqb_eq in Em. auto.
  - right. unfold_steps.
    step_cases; cbn [fst];
      first [ left; eexists; eexists; reflexivity
            | right; left; reflexivity
            | right; right; left; reflexivity
            | right; right; right; left; reflexivity
            | right; right; right; right; left; eexists; reflexivity
            | right; right; right; right; right; eexists; reflexivity ].
Qed.

(** [X26]: a call that throws ends the request in the outer [catch]: the
    answer is status 500 with [Internal server error] and, as details, the
    message of what was thrown, whether it was the reading of the form, the
    upload or the inference call. *)
Theorem thrown_call_is_internal_error JSON_parse PROMPT (w : World)
        (req : Request) (e : Event) (message : option string) :
  In e (snd (serve JSON_parse PROMPT w req)) ->
  (e = EvFormData (Throws message)
   \/ (exists name, e = EvUpload name (Throws message))
   \/ (exists content, e = EvInference content (Throws message))) ->
  fst (serve JSON_parse PROMPT w req)
  = {| status := 500; body := ErrorBody "Internal server error" message |}.
Proof.
  intros Hin He.
  assert (Hs : forall e', e = e' -> In e' (snd (serve JSON_parse PROMPT w req)))
    by (intros; subst; assumption).
  destruct He as [He|[[name He]|[content He]]];
    specialize (Hs _ He); clear Hin He; revert Hs; unfold_steps;
    step_cases; cbn [fst snd]; intros Hin; log_cases;
    try congruence; reflexivity.
Qed.

Lemma thrown_call_is_internal_error_witness :
  fst (serve JSON_parse_ref "PROMPT"
         (Sample.world_with false (Throws (Some "network down")))
         Sample.request)
  = {| status := 500;
       body := ErrorBody "Internal server error" (Some "network down") |}.
Proof.
  eapply (thrown_call_is_internal_error JSON_parse_ref "PROMPT"
            (Sample.world_with false (Throws (Some "network down")))
            Sample.request).
  2: right; right; eexists; reflexivity.
  cbv. repeat (first [left; reflexivity | right]).
Defined.

